(** * SkyFrame backend: the enhancement-job orchestrator

    A shallow embedding of [backend/config.py], [backend/storage.py],
    [backend/database.py] (jobs table) and [backend/enhance.py].

    Modelling choices.
    - A Python [str] is a [string]; a character is a code point below 256.
    - A row of the [jobs] table is a finite map from column names to SQL
      values ([gmap string sqlval]); [db.update_job] is a partial-field
      update, so it is a left-biased union of maps.  A row of the [uploads]
      table is only read here and is a record typed after its schema.
    - The SQLite store is a total in-memory store: its calls do not raise,
      except [insert_job] on a primary-key clash.
    - A path is the string that [pathlib] renders it as ([str(path)]), and
      the disk is a finite map from such strings to contents; what only the
      operating system resolves ([..], links) is not followed.
    - A task that [asyncio.create_task] has created runs while its creator
      awaits: [create_enhance_job] reads the row of the new job back in a
      race with the task, and the scheduler, an oracle, decides how much of
      the task the read sees.  The effects of the task on the world are
      those of [run_task].
    - Everything outside the process (the Replicate client, the HTTP
      download, the clock, [uuid4], the environment variable holding the
      token, the interpreter's [str] on values that are not strings and its
      [repr] on strings that need escaping, the scheduler of the event loop)
      is an oracle in the record [Env].
    - An execution unit is a computation in a state monad over [World] with
      three outcomes: a value, a raised exception, or [Blocked] when the unit
      is still suspended in [prediction.wait()] after the number of polls it
      was observed for. *)

From Stdlib Require Import ZArith String Ascii List Bool Lia.
From stdpp Require Import base option gmap strings list pretty sorting.
Import ListNotations.
Local Open Scope string_scope.
Local Open Scope Z_scope.

(** ** Python values *)

(** The dynamically typed values the Replicate client hands back in
    [prediction.output] and [prediction.error]. *)
#[warnings="-register-all"]
Inductive pyval : Type :=
| PyNone
| PyStr (s : string)
| PyInt (z : Z)
| PyList (items : list pyval)
| PyTuple (items : list pyval)
| PyDict (entries : list (string * pyval))
| PyObj (attrs : list (string * pyval)).

(** First binding of a key in an association list ([d[key]], [getattr]). *)
Fixpoint assoc {A : Type} (k : string) (l : list (string * A)) : option A :=
  match l with
  | [] => None
  | (k', v) :: l' => if String.eqb k k' then Some v else assoc k l'
  end.

(** [hasattr(v, name)] / [getattr(v, name)]: only objects carry attributes. *)
Definition py_getattr (v : pyval) (name : string) : option pyval :=
  match v with
  | PyObj attrs => assoc name attrs
  | _ => None
  end.


(** Truth value of a Python value, as tested by [if not output_url]. *)
Definition py_truthy (v : pyval) : bool :=
  match v with
  | PyNone => false
  | PyStr s => negb (String.eqb s "")
  | PyInt z => negb (Z.eqb z 0)
  | PyList l | PyTuple l => match l with [] => false | _ => true end
  | PyDict d => match d with [] => false | _ => true end
  | PyObj _ => true
  end.

(** ** Exceptions and the outcome of a computation *)

Inductive exn : Type :=
| EnhanceError (msg : string)            (* class EnhanceError(Exception) *)
| Foreign (cls : string) (msg : string). (* raised by a collaborator *)

(** [str(e)] *)
Definition exn_str (e : exn) : string :=
  match e with
  | EnhanceError msg => msg
  | Foreign _ msg => msg
  end.

Inductive Res (A : Type) : Type :=
| Ok (a : A)
| Raise (e : exn)
| Blocked.
Arguments Ok {A} a.
Arguments Raise {A} e.
Arguments Blocked {A}.

(** ** SQL values and rows *)

Inductive sqlval : Type :=
| SNull
| SText (s : string)
| SInt (z : Z).

#[global] Instance sqlval_eq_dec : EqDecision sqlval.
Proof. solve_decision. Defined.

Abbreviation row := (gmap string sqlval).

(** A column is set when it holds a value other than NULL. *)
Definition is_set (r : row) (col : string) : Prop :=
  exists v, r !! col = Some v /\ v <> SNull.

(** Row of the [uploads] table (CREATE_UPLOADS). *)
Record Upload : Type := {
  upload_id : string;
  original_filename : string;
  storage_key : string;
  mime_type : string;
  file_size : Z;
  upload_status : string
}.

(** ** Strings *)

(** [is_prefix p s]: [s.startswith(p)]. *)
Fixpoint is_prefix (p s : string) : bool :=
  match p, s with
  | EmptyString, _ => true
  | String a p', String b s' => Ascii.eqb a b && is_prefix p' s'
  | String _ _, EmptyString => false
  end.

(** [contains sub s]: the Python test [sub in s] on strings. *)
Fixpoint contains (sub s : string) : bool :=
  is_prefix sub s ||
  match s with
  | EmptyString => false
  | String _ s' => contains sub s'
  end.

(** The relation [contains] decides. *)
Definition Contains (sub s : string) : Prop :=
  exists pre post, s = pre ++ sub ++ post.

(** Decimal rendering of a number, left-padded with zeros to a width
    (the format specs [{n}] and [{n:02d}]). *)
Fixpoint zeros (n : nat) : string :=
  match n with
  | O => ""
  | S n' => String "0" (zeros n')
  end.

Definition pad0 (width : nat) (n : N) : string :=
  let s := pretty n in
  zeros (width - String.length s) ++ s.

(** ** config.py *)

Definition REPLICATE_MODELS : list (string * string) :=
  [ ("upscale", "lucataco/real-esrgan-video");
    ("upscale_premium", "topazlabs/video-upscale") ].

Definition DEFAULT_ENHANCE_MODEL : string := "upscale".
Definition DEFAULT_SCALE_FACTOR : Z := 2.
Definition JOB_POLL_INTERVAL_SEC : Z := 5.
Definition JOB_MAX_WAIT_SEC : Z := 600.

(** ** storage.py *)

(** What [datetime.utcnow()] and [datetime.now(timezone.utc)] return. *)
Record datetime : Type := {
  year : N; month : N; day : N;
  hour : N; minute : N; second : N; microsecond : N
}.

(** [datetime.now(timezone.utc).isoformat()] *)
Definition isoformat (d : datetime) : string :=
  pad0 4 (year d) ++ "-" ++ pad0 2 (month d) ++ "-" ++ pad0 2 (day d) ++ "T" ++
  pad0 2 (hour d) ++ ":" ++ pad0 2 (minute d) ++ ":" ++ pad0 2 (second d) ++
  (if N.eqb (microsecond d) 0 then "" else "." ++ pad0 6 (microsecond d)) ++
  "+00:00".

(** [c.isalnum()] for a code point below 256: the ASCII digits and letters,
    and the Latin-1 letters and numeric signs. *)
Definition isalnum (c : ascii) : bool :=
  let n := N_of_ascii c in
  ((48 <=? n) && (n <=? 57) || (65 <=? n) && (n <=? 90) ||
   (97 <=? n) && (n <=? 122) ||
   (n =? 170) || (n =? 178) || (n =? 179) || (n =? 181) || (n =? 185) ||
   (n =? 186) || (188 <=? n) && (n <=? 190) ||
   (192 <=? n) && (n <=? 214) || (216 <=? n) && (n <=? 246) ||
   (248 <=? n) && (n <=? 255))%N.

(** [c if c.isalnum() or c in "._-" else "_"] *)
Definition safe_char (c : ascii) : ascii :=
  if isalnum c || contains (String c "") "._-" then c else "_"%char.

(** ["".join(... for c in filename)] *)
Fixpoint sanitize (filename : string) : string :=
  match filename with
  | EmptyString => EmptyString
  | String c rest => String (safe_char c) (sanitize rest)
  end.

(** [generate_output_key(job_id, filename)]; [now] is the value that the
    call [datetime.utcnow()] in its body returns. *)
Definition generate_output_key (now : datetime) (job_id filename : string) : string :=
  let safe := sanitize filename in
  "outputs/" ++ pretty (year now) ++ "/" ++ pad0 2 (month now) ++ "/" ++
  pad0 2 (day now) ++ "/" ++ job_id ++ "_" ++ safe.

(** [s.split("/")] *)
Fixpoint split_slash (s : string) : list string :=
  match s with
  | EmptyString => [EmptyString]
  | String c rest =>
      if Ascii.eqb c "/" then EmptyString :: split_slash rest
      else
        match split_slash rest with
        | [] => [String c EmptyString]
        | x :: xs => String c x :: xs
        end
  end.

(** The components that [pathlib] parses from a string: what stands between
    the slashes, without the empty components and the dots. *)
Definition path_parts (s : string) : list string :=
  List.filter (fun x => negb (String.eqb x "") && negb (String.eqb x "."))
    (split_slash s).

(** ["/".join(parts)] *)
Fixpoint join_slash (parts : list string) : string :=
  match parts with
  | [] => ""
  | [x] => x
  | x :: rest => x ++ "/" ++ join_slash rest
  end.

(** [s.lstrip("/")] *)
Fixpoint lstrip_slash (s : string) : string :=
  match s with
  | EmptyString => s
  | String c rest => if Ascii.eqb c "/" then lstrip_slash rest else s
  end.

(** [get_file_path(storage_key)]: [STORAGE_DIR / storage_key], rendered by
    [str].  The join is that of [pathlib] on a POSIX system: a key that
    starts with a slash replaces the directory (two leading slashes are
    kept, any other number of them is one slash); any other key is appended
    component by component, so that doubled slashes and dots in the key
    leave no trace.
    [storage_dir] is [str(STORAGE_DIR)], the absolute path of a directory
    named storage. *)
Definition get_file_path (storage_dir storage_key : string) : string :=
  if is_prefix "/" storage_key then
    let rel := lstrip_slash storage_key in
    (if Nat.eqb (String.length storage_key - String.length rel) 2 then "//" else "/") ++
    join_slash (path_parts rel)
  else
    match path_parts storage_key with
    | [] => storage_dir
    | parts => storage_dir ++ "/" ++ join_slash parts
    end.

(** ** The world outside the function bodies *)

(** The client-side prediction object of the Replicate SDK. *)
Record Prediction : Type := {
  pred_id : string;
  pred_status : string;
  pred_error : pyval;
  pred_output : pyval
}.

(** A value of the [input] dictionary of a submission. *)
Inductive input_val : Type :=
| InFile (path : string)   (* open(file_path, "rb") *)
| InInt (z : Z).

(** What the streamed GET of the result URL does: the connection fails, or
    a response arrives with a status code, the text httpx gives the
    [HTTPStatusError] of that response, the chunks that arrive, and the
    error that interrupts the stream after them, if one does. *)
Record HttpResponse : Type := {
  status_code : Z;
  status_error_text : string;
  chunks : list (list Byte.byte);
  stream_error : option exn
}.

Inductive http_outcome : Type :=
| ConnectFails (e : exn)
| Responds (resp : HttpResponse).

Record Env : Type := {
  REPLICATE_API_TOKEN : string;        (* os.getenv("REPLICATE_API_TOKEN", "") *)
  STORAGE_DIR : string;                (* BASE_DIR / "storage" *)
  uuid4_hex : nat -> string;           (* the n-th uuid.uuid4().hex *)
  clock : nat -> datetime;             (* the n-th reading of the UTC clock *)
  builtin_str : pyval -> string;       (* str(v) for a v that is not a str *)
  builtin_repr : string -> string;     (* repr(s) for an s that needs escaping *)
  predictions_create :                 (* replicate.predictions.create *)
    string -> list (string * input_val) -> exn + Prediction;
  predictions_reload :                 (* the k-th prediction.reload() *)
    string -> nat -> exn + Prediction;
  http_stream : pyval -> http_outcome; (* client.stream("GET", url) *)
  task_overlap : string -> nat * nat   (* how far the task of a job gets while
                                          its creator awaits the read-back:
                                          polls of its wait, update_job calls *)
}.

(** An [asyncio] task created for [_run_prediction(job_id, upload, model_name)]. *)
Record Task : Type := {
  task_job_id : string;
  task_upload : Upload;
  task_model_name : string
}.

(** Calls that leave the function bodies, in the order they are made. *)
Inductive event : Type :=
| EvInsertJob (record : row)
| EvUpdateJob (job_id : string) (fields : row)
| EvSubmit (model : string) (input : list (string * input_val))
| EvWait (prediction_id : string)
| EvDownload (url : pyval) (dest : string).

Record World : Type := {
  uploads : gmap string Upload;          (* table uploads, by id *)
  jobs : gmap string row;                (* table jobs, by id *)
  files : gmap string (list Byte.byte);  (* files on disk, by path *)
  tasks : list Task;                     (* tasks created, oldest first *)
  trace : list event;                    (* calls made, oldest first *)
  clock_reads : nat;
  uuid_reads : nat
}.

Definition set_jobs (j : gmap string row) (w : World) : World :=
  {| uploads := uploads w; jobs := j; files := files w; tasks := tasks w;
     trace := trace w; clock_reads := clock_reads w; uuid_reads := uuid_reads w |}.

Definition set_files (f : gmap string (list Byte.byte)) (w : World) : World :=
  {| uploads := uploads w; jobs := jobs w; files := f; tasks := tasks w;
     trace := trace w; clock_reads := clock_reads w; uuid_reads := uuid_reads w |}.

Definition set_tasks (t : list Task) (w : World) : World :=
  {| uploads := uploads w; jobs := jobs w; files := files w; tasks := t;
     trace := trace w; clock_reads := clock_reads w; uuid_reads := uuid_reads w |}.

Definition set_trace (t : list event) (w : World) : World :=
  {| uploads := uploads w; jobs := jobs w; files := files w; tasks := tasks w;
     trace := t; clock_reads := clock_reads w; uuid_reads := uuid_reads w |}.

Definition set_clock_reads (n : nat) (w : World) : World :=
  {| uploads := uploads w; jobs := jobs w; files := files w; tasks := tasks w;
     trace := trace w; clock_reads := n; uuid_reads := uuid_reads w |}.

Definition set_uuid_reads (n : nat) (w : World) : World :=
  {| uploads := uploads w; jobs := jobs w; files := files w; tasks := tasks w;
     trace := trace w; clock_reads := clock_reads w; uuid_reads := n |}.

(** ** The monad of the function bodies *)

Definition M (A : Type) : Type := World -> Res A * World.

Definition ret {A : Type} (a : A) : M A := fun w => (Ok a, w).

Definition bind {A B : Type} (m : M A) (k : A -> M B) : M B :=
  fun w =>
    match m w with
    | (Ok a, w') => k a w'
    | (Raise e, w') => (Raise e, w')
    | (Blocked, w') => (Blocked, w')
    end.

Definition raise {A : Type} (e : exn) : M A := fun w => (Raise e, w).

(** [try: body  except Exception as e: handler(e)] *)
Definition try_except {A : Type} (body : M A) (handler : exn -> M A) : M A :=
  fun w =>
    match body w with
    | (Raise e, w') => handler e w'
    | r => r
    end.

Notation "'let*' x ':=' m 'in' k" := (bind m (fun x => k))
  (at level 10, x name, m at level 100, k at level 200).
Notation "'run' m 'then' k" := (bind m (fun _ => k))
  (at level 10, m at level 100, k at level 200).

Definition log (ev : event) : M unit :=
  fun w => (Ok tt, set_trace (trace w ++ [ev]) w).

(** [datetime.now(timezone.utc)] and [datetime.utcnow()] *)
Definition now (E : Env) : M datetime :=
  fun w => (Ok (clock E (clock_reads w)), set_clock_reads (S (clock_reads w)) w).

(** [uuid.uuid4().hex] *)
Definition uuid4 (E : Env) : M string :=
  fun w => (Ok (uuid4_hex E (uuid_reads w)), set_uuid_reads (S (uuid_reads w)) w).

(** [path.exists()] *)
Definition path_exists (path : string) : M bool :=
  fun w => (Ok (bool_decide (is_Some (files w !! path))), w).

(** [asyncio.create_task(...)]: the task is handed to the event loop, which
    runs it while its creator awaits (see [get_job_racing]); what the task
    does to the world is accounted to [run_task]. *)
Definition create_task (t : Task) : M unit :=
  fun w => (Ok tt, set_tasks (tasks w ++ [t]) w).

(** ** database.py *)

(** [get_upload(upload_id)] *)
Definition get_upload (upload_id : string) : M (option Upload) :=
  fun w => (Ok (uploads w !! upload_id), w).

(** Columns that the INSERT of [insert_job] leaves to their defaults. *)
Definition JOB_DEFAULTS : row :=
  list_to_map
    [ ("replicate_id", SNull); ("status", SText "pending"); ("progress", SInt 0);
      ("output_key", SNull); ("output_size", SNull); ("error_message", SNull);
      ("started_at", SNull); ("completed_at", SNull) ].

(** The named parameters of the INSERT, taken from the record. *)
Fixpoint bind_params (cols : list string) (record : row) : option row :=
  match cols with
  | [] => Some ∅
  | c :: cols' =>
      match record !! c, bind_params cols' record with
      | Some v, Some r => Some (<[c := v]> r)
      | _, _ => None
      end
  end.

(** [insert_job(record)]: a missing parameter and a primary-key clash raise;
    the NOT NULL constraints are not modelled. *)
Definition insert_job (record : row) : M unit :=
  run log (EvInsertJob record) then
  fun w =>
    match bind_params ["id"; "upload_id"; "model_name"; "status"; "created_at"] record with
    | None => (Raise (Foreign "ProgrammingError" "You did not supply a value for binding"), w)
    | Some r =>
        match r !! "id" with
        | Some (SText id) =>
            match jobs w !! id with
            | Some _ => (Raise (Foreign "IntegrityError" "UNIQUE constraint failed: jobs.id"), w)
            | None => (Ok tt, set_jobs (<[id := r ∪ JOB_DEFAULTS]> (jobs w)) w)
            end
        | _ => (Raise (Foreign "IntegrityError" "datatype mismatch"), w)
        end
    end.

(** [update_job(job_id, fields)]: UPDATE jobs SET k = :k, ... WHERE id = :id,
    for a non-empty set of fields among the columns of the table.  A job id
    that matches no row changes nothing. *)
Definition update_job (job_id : string) (fields : row) : M unit :=
  run log (EvUpdateJob job_id fields) then
  fun w => (Ok tt, set_jobs (alter (fun r => fields ∪ r) job_id (jobs w)) w).

(** [get_job(job_id)] *)
Definition get_job (job_id : string) : M (option row) :=
  fun w => (Ok (jobs w !! job_id), w).

(** ** enhance.py *)

(** [str(v)]: a [str] is its own rendering, [None] renders as its name; the
    interpreter decides the rest. *)
Definition py_str (E : Env) (v : pyval) : string :=
  match v with
  | PyStr s => s
  | PyNone => "None"
  | _ => builtin_str E v
  end.

(** [x or default] on an optional string. *)
Definition py_or (x : option string) (default : string) : string :=
  match x with
  | Some s => if String.eqb s "" then default else s
  | None => default
  end.

(** [list(d.keys())] rendered inside an f-string, for keys that need no
    escaping. *)
Fixpoint repr_items (keys : list string) : string :=
  match keys with
  | [] => ""
  | [k] => "'" ++ k ++ "'"
  | k :: rest => "'" ++ k ++ "', " ++ repr_items rest
  end.

Definition repr_keys (d : list (string * string)) : string :=
  "[" ++ repr_items (map fst d) ++ "]".

Definition dict1 (k : string) (v : sqlval) : row := {[ k := v ]}.

(** The characters that [repr] of a string shows as they are, between
    single quotes: the printable ASCII ones but the quote and the
    backslash. *)
Definition plain_char (c : ascii) : bool :=
  let n := N_of_ascii c in
  ((32 <=? n) && (n <=? 126) && negb (n =? 39) && negb (n =? 92))%N.

Fixpoint plain (s : string) : bool :=
  match s with
  | EmptyString => true
  | String c rest => plain_char c && plain rest
  end.

(** [repr(s)] of a string; the interpreter decides when [s] needs
    escaping. *)
Definition py_repr (E : Env) (s : string) : string :=
  if plain s then "'" ++ s ++ "'" else builtin_repr E s.

(** [str(e)] of the [FileNotFoundError] that [open(path, "rb")] raises. *)
Definition MSG_NO_SUCH_FILE (E : Env) (path : string) : string :=
  "[Errno 2] No such file or directory: " ++ py_repr E path.

(** [_submit_prediction(model_name, file_path)] *)
Definition _submit_prediction (E : Env) (model_name file_path : string) : M Prediction :=
  let open_rb : M input_val :=
    let* ex := path_exists file_path in
    if ex then ret (InFile file_path)
    else raise (Foreign "FileNotFoundError" (MSG_NO_SUCH_FILE E file_path)) in
  let create (input : list (string * input_val)) : M Prediction :=
    run log (EvSubmit model_name input) then
    match predictions_create E model_name input with
    | inl e => raise e
    | inr p => ret p
    end in
  if contains "real-esrgan" model_name then
    let* f := open_rb in
    create [("video_path", f); ("scale", InInt DEFAULT_SCALE_FACTOR)]
  else if contains "topazlabs" model_name then
    let* f := open_rb in
    create [("video", f)]
  else
    let* f := open_rb in
    create [("video", f)].

(** The states in which [prediction.wait()] stops polling. *)
Definition terminal_status (s : string) : bool :=
  String.eqb s "succeeded" || String.eqb s "failed" || String.eqb s "canceled".

(** [prediction.wait()] of the Replicate client: while the status is not
    terminal, sleep for the poll interval and reload.  It takes no bound;
    [polls] is the number of reloads the caller is observed for, and the
    outcome is [Blocked] when the loop is still running after them. *)
Fixpoint prediction_wait (E : Env) (polls k : nat) (p : Prediction) : Res Prediction :=
  if terminal_status (pred_status p) then Ok p
  else
    match polls with
    | O => Blocked
    | S polls' =>
        match predictions_reload E (pred_id p) k with
        | inl e => Raise e
        | inr p' => prediction_wait E polls' (S k) p'
        end
    end.

(** [_wait_for_prediction(prediction)] *)
Definition _wait_for_prediction (E : Env) (polls : nat) (prediction : Prediction)
  : M Prediction :=
  run log (EvWait (pred_id prediction)) then
  fun w => (prediction_wait E polls 0 prediction, w).

(** The loop [for item in output] of [_extract_output_url]: the value
    returned from inside the loop, if any. *)
Fixpoint first_url (items : list pyval) : option pyval :=
  match items with
  | [] => None
  | item :: rest =>
      match item with
      | PyStr s => Some item
      | _ =>
          match py_getattr item "url" with
          | Some u => Some u
          | None => first_url rest
          end
      end
  end.

Definition KNOWN_KEYS : list string := ["video"; "output"; "enhanced_video"; "result"].

(** The loop [for key in ("video", ...)] of [_extract_output_url]. *)
Fixpoint first_known (E : Env) (keys : list string) (d : list (string * pyval))
  : option pyval :=
  match keys with
  | [] => None
  | key :: rest =>
      match assoc key d with
      | Some val =>
          match py_getattr val "url" with
          | Some u => Some u
          | None => Some (PyStr (py_str E val))
          end
      | None => first_known E rest d
      end
  end.

(** [_extract_output_url(prediction)]; the result [PyNone] is Python's
    [None]. *)
Definition _extract_output_url (E : Env) (prediction : Prediction) : pyval :=
  let output := pred_output prediction in
  match output with
  | PyNone => PyNone
  | PyStr _ => output
  | _ =>
      match py_getattr output "url" with
      | Some u => u
      | None =>
          let from_list :=
            match output with
            | PyList items | PyTuple items => first_url items
            | _ => None
            end in
          match from_list with
          | Some u => u
          | None =>
              match output with
              | PyDict d =>
                  match first_known E KNOWN_KEYS d with
                  | Some u => u
                  | None => PyNone
                  end
              | _ => PyNone
              end
          end
      end
  end.

(** The body of [with open(dest, "wb") as f: async for chunk in ...]:
    each chunk that arrives is appended to the file and counted. *)
Fixpoint write_chunks (dest : string) (cs : list (list Byte.byte)) (total : Z) : M Z :=
  match cs with
  | [] => ret total
  | chunk :: rest =>
      run (fun w => (Ok tt, set_files (<[dest := (default [] (files w !! dest) ++ chunk)%list]> (files w)) w)) then
      write_chunks dest rest (total + Z.of_nat (length chunk))
  end.

(** [resp.raise_for_status()] passes the 2xx codes. *)
Definition is_success (code : Z) : bool := (200 <=? code) && (code <=? 299).

(** [_download_output(url, output_key)]; the directories that
    [_ensure_dir] creates are not part of the model of the disk. *)
Definition _download_output (E : Env) (url : pyval) (output_key : string) : M Z :=
  let dest := get_file_path (STORAGE_DIR E) output_key in
  run log (EvDownload url dest) then
  match http_stream E url with
  | ConnectFails e => raise e
  | Responds resp =>
      if is_success (status_code resp) then
        run (fun w => (Ok tt, set_files (<[dest := []]> (files w)) w)) then
        let* total := write_chunks dest (chunks resp) 0 in
        match stream_error resp with
        | Some e => raise e
        | None => ret total
        end
      else raise (Foreign "HTTPStatusError" (status_error_text resp))
  end.

(** [_run_prediction(job_id, upload, model_name)], observed for [polls]
    reloads of the prediction. *)
Definition _run_prediction (E : Env) (polls : nat)
    (job_id : string) (upload : Upload) (model_name : string) : M unit :=
  try_except
    (let* t := now E in
     run update_job job_id
       (list_to_map [("status", SText "processing"); ("started_at", SText (isoformat t))]) then
     let file_path := get_file_path (STORAGE_DIR E) (storage_key upload) in
     let* ex := path_exists file_path in
     if negb ex then raise (EnhanceError "Source video not found in storage")
     else
       let* prediction := _submit_prediction E model_name file_path in
       let replicate_id := pred_id prediction in
       run update_job job_id (dict1 "replicate_id" (SText replicate_id)) then
       let* result := _wait_for_prediction E polls prediction in
       if String.eqb (pred_status result) "failed" then
         raise (EnhanceError ("Replicate prediction failed: " ++ py_str E (pred_error result)))
       else if String.eqb (pred_status result) "canceled" then
         raise (EnhanceError "Prediction was canceled")
       else
         let output_url := _extract_output_url E result in
         if negb (py_truthy output_url) then
           raise (EnhanceError "No output URL returned from Replicate")
         else
           let* utcnow := now E in
           let output_key :=
             generate_output_key utcnow job_id ("enhanced_" ++ original_filename upload) in
           let* output_size := _download_output E output_url output_key in
           let* t' := now E in
           update_job job_id
             (list_to_map [("status", SText "completed"); ("output_key", SText output_key);
                           ("output_size", SInt output_size); ("progress", SInt 100);
                           ("completed_at", SText (isoformat t'))]))
    (fun e =>
       let* t := now E in
       update_job job_id
         (list_to_map [("status", SText "failed"); ("error_message", SText (exn_str e));
                       ("completed_at", SText (isoformat t))])).

(** Running a task, observed for [polls] reloads of its prediction. *)
Definition run_task (E : Env) (polls : nat) (t : Task) : M unit :=
  _run_prediction E polls (task_job_id t) (task_upload t) (task_model_name t).

(** The [update_job] calls among some events, in order. *)
Definition updates_of (evs : list event) : list (string * row) :=
  omap (fun e => match e with EvUpdateJob j f => Some (j, f) | _ => None end) evs.

(** The table after a sequence of [update_job] calls. *)
Definition apply_updates (us : list (string * row)) (j : gmap string row)
  : gmap string row :=
  fold_left (fun j u => alter (fun r => u.2 ∪ r) u.1 j) us j.

(** [await db.get_job(job_id)] on the last line of [create_enhance_job].
    The task created on the line before runs while the call awaits the
    SELECT, so the SELECT reads the row as the task has left it by then:
    after the first [k] of the [update_job] calls that the task makes, for
    the [k] that the scheduler decides, together with the number of polls
    of the wait that fit in ([task_overlap E]).  With [k = 0] it is the
    read before the task starts. *)
Definition get_job_racing (E : Env) (t : Task) : M (option row) :=
  fun w =>
    let polls := (task_overlap E (task_job_id t)).1 in
    let k := (task_overlap E (task_job_id t)).2 in
    let evs := drop (length (trace w)) (trace (run_task E polls t w).2) in
    (Ok (apply_updates (take k (updates_of evs)) (jobs w) !! task_job_id t), w).

Definition MSG_NOT_FOUND : string := "Upload not found".
Definition MSG_NOT_READY : string := "Upload is not ready for enhancement".
Definition MSG_NO_TOKEN : string :=
  "REPLICATE_API_TOKEN not set. Export it to enable AI enhancement.".
Definition MSG_UNKNOWN_MODEL (model_key : string) : string :=
  "Unknown model: " ++ model_key ++ ". Available: " ++ repr_keys REPLICATE_MODELS.

(** [create_enhance_job(upload_id, model_key=None)] *)
Definition create_enhance_job (E : Env) (upload_id : string) (model_key : option string)
  : M (option row) :=
  let* upload := get_upload upload_id in
  match upload with
  | None => raise (EnhanceError MSG_NOT_FOUND)
  | Some upload =>
      if negb (String.eqb (upload_status upload) "uploaded") then
        raise (EnhanceError MSG_NOT_READY)
      else if String.eqb (REPLICATE_API_TOKEN E) "" then
        raise (EnhanceError MSG_NO_TOKEN)
      else
        let model_key := py_or model_key DEFAULT_ENHANCE_MODEL in
        match assoc model_key REPLICATE_MODELS with
        | None => raise (EnhanceError (MSG_UNKNOWN_MODEL model_key))
        | Some model_name =>
            if String.eqb model_name "" then
              raise (EnhanceError (MSG_UNKNOWN_MODEL model_key))
            else
              let* hex := uuid4 E in
              let job_id := "job_" ++ substring 0 12 hex in
              let* t := now E in
              run insert_job
                (list_to_map [("id", SText job_id); ("upload_id", SText upload_id);
                              ("model_name", SText model_name); ("status", SText "pending");
                              ("created_at", SText (isoformat t))]) then
              let task := {| task_job_id := job_id; task_upload := upload;
                             task_model_name := model_name |} in
              run create_task task then
              get_job_racing E task
        end
  end.


(** * Vocabulary of the properties *)

(** ** Writes of the execution unit *)

(** The four dictionaries that [_run_prediction] hands to [update_job]. *)
Definition processing_fields (t : string) : row :=
  list_to_map [("status", SText "processing"); ("started_at", SText t)].

Definition replicate_fields (pid : string) : row :=
  dict1 "replicate_id" (SText pid).

Definition completed_fields (key : string) (size : Z) (t : string) : row :=
  list_to_map [("status", SText "completed"); ("output_key", SText key);
               ("output_size", SInt size); ("progress", SInt 100);
               ("completed_at", SText t)].

Definition failed_fields (msg t : string) : row :=
  list_to_map [("status", SText "failed"); ("error_message", SText msg);
               ("completed_at", SText t)].

(** The values written to the column [status], in order. *)
Definition status_writes (us : list (string * row)) : list sqlval :=
  omap (fun u => u.2 !! "status") us.

(** Number of bytes in the chunks of a response. *)
Definition total_len (cs : list (list Byte.byte)) : Z :=
  Z.of_nat (length (concat cs)).

(** The input dictionary that [_submit_prediction] builds for a file. *)
Definition submit_input (model_name : string) (f : input_val)
  : list (string * input_val) :=
  if contains "real-esrgan" model_name
  then [("video_path", f); ("scale", InInt DEFAULT_SCALE_FACTOR)]
  else [("video", f)].

(** The outcome of the streamed download, by what the network does. *)
Definition download_result (E : Env) (url : pyval) : Res Z :=
  match http_stream E url with
  | ConnectFails e => Raise e
  | Responds resp =>
      if is_success (status_code resp) then
        match stream_error resp with
        | Some e => Raise e
        | None => Ok (total_len (chunks resp))
        end
      else Raise (Foreign "HTTPStatusError" (status_error_text resp))
  end.

Section RunPath.
Variables (E : Env) (polls : nat) (job_id : string) (upload : Upload)
          (model_name : string) (w : World).

Let src := get_file_path (STORAGE_DIR E) (storage_key upload).
Let input := submit_input model_name (InFile src).
Let name := "enhanced_" ++ original_filename upload.

(** The ways a run of the execution unit can go: its outcome and the calls
    it makes, by what the collaborators answer. *)
Inductive run_path : Res unit -> list event -> Prop :=
| path_source_missing t t' :
    files w !! src = None ->
    run_path (Ok tt)
      [EvUpdateJob job_id (processing_fields t);
       EvUpdateJob job_id (failed_fields "Source video not found in storage" t')]
| path_submit_raised t t' e :
    is_Some (files w !! src) ->
    predictions_create E model_name input = inl e ->
    run_path (Ok tt)
      [EvUpdateJob job_id (processing_fields t); EvSubmit model_name input;
       EvUpdateJob job_id (failed_fields (exn_str e) t')]
| path_blocked t p :
    is_Some (files w !! src) ->
    predictions_create E model_name input = inr p ->
    prediction_wait E polls 0 p = Blocked ->
    run_path Blocked
      [EvUpdateJob job_id (processing_fields t); EvSubmit model_name input;
       EvUpdateJob job_id (replicate_fields (pred_id p)); EvWait (pred_id p)]
| path_wait_raised t t' p e :
    is_Some (files w !! src) ->
    predictions_create E model_name input = inr p ->
    prediction_wait E polls 0 p = Raise e ->
    run_path (Ok tt)
      [EvUpdateJob job_id (processing_fields t); EvSubmit model_name input;
       EvUpdateJob job_id (replicate_fields (pred_id p)); EvWait (pred_id p);
       EvUpdateJob job_id (failed_fields (exn_str e) t')]
| path_prediction_failed t t' p result :
    is_Some (files w !! src) ->
    predictions_create E model_name input = inr p ->
    prediction_wait E polls 0 p = Ok result ->
    pred_status result = "failed" ->
    run_path (Ok tt)
      [EvUpdateJob job_id (processing_fields t); EvSubmit model_name input;
       EvUpdateJob job_id (replicate_fields (pred_id p)); EvWait (pred_id p);
       EvUpdateJob job_id (failed_fields
              ("Replicate prediction failed: " ++ py_str E (pred_error result)) t')]
| path_prediction_canceled t t' p result :
    is_Some (files w !! src) ->
    predictions_create E model_name input = inr p ->
    prediction_wait E polls 0 p = Ok result ->
    pred_status result = "canceled" ->
    run_path (Ok tt)
      [EvUpdateJob job_id (processing_fields t); EvSubmit model_name input;
       EvUpdateJob job_id (replicate_fields (pred_id p)); EvWait (pred_id p);
       EvUpdateJob job_id (failed_fields "Prediction was canceled" t')]
| path_no_output t t' p result :
    is_Some (files w !! src) ->
    predictions_create E model_name input = inr p ->
    prediction_wait E polls 0 p = Ok result ->
    pred_status result <> "failed" ->
    pred_status result <> "canceled" ->
    py_truthy (_extract_output_url E result) = false ->
    run_path (Ok tt)
      [EvUpdateJob job_id (processing_fields t); EvSubmit model_name input;
       EvUpdateJob job_id (replicate_fields (pred_id p)); EvWait (pred_id p);
       EvUpdateJob job_id (failed_fields "No output URL returned from Replicate" t')]
| path_download_raised t t' utcnow p result e :
    is_Some (files w !! src) ->
    predictions_create E model_name input = inr p ->
    prediction_wait E polls 0 p = Ok result ->
    pred_status result <> "failed" ->
    pred_status result <> "canceled" ->
    py_truthy (_extract_output_url E result) = true ->
    download_result E (_extract_output_url E result) = Raise e ->
    run_path (Ok tt)
      [EvUpdateJob job_id (processing_fields t); EvSubmit model_name input;
       EvUpdateJob job_id (replicate_fields (pred_id p)); EvWait (pred_id p);
       EvDownload (_extract_output_url E result)
         (get_file_path (STORAGE_DIR E) (generate_output_key utcnow job_id name));
       EvUpdateJob job_id (failed_fields (exn_str e) t')]
| path_completed t t' utcnow p result size :
    is_Some (files w !! src) ->
    predictions_create E model_name input = inr p ->
    prediction_wait E polls 0 p = Ok result ->
    pred_status result <> "failed" ->
    pred_status result <> "canceled" ->
    py_truthy (_extract_output_url E result) = true ->
    download_result E (_extract_output_url E result) = Ok size ->
    run_path (Ok tt)
      [EvUpdateJob job_id (processing_fields t); EvSubmit model_name input;
       EvUpdateJob job_id (replicate_fields (pred_id p)); EvWait (pred_id p);
       EvDownload (_extract_output_url E result)
         (get_file_path (STORAGE_DIR E) (generate_output_key utcnow job_id name));
       EvUpdateJob job_id (completed_fields (generate_output_key utcnow job_id name) size t')].
End RunPath.

(** ** The job state machine *)

(** The transitions of a Job's status. *)
Inductive transition : string -> string -> Prop :=
| start_processing : transition "pending" "processing"
| finish_completed : transition "processing" "completed"
| finish_failed : transition "processing" "failed"
| finish_canceled : transition "processing" "canceled".

(** A sequence of statuses written one after the other, starting from a
    status, in which every write is a transition. *)
Inductive forward_path : string -> list string -> Prop :=
| forward_nil s : forward_path s []
| forward_cons s s' l :
    transition s s' -> forward_path s' l -> forward_path s (s' :: l).

(** Position of a status along pending, processing, terminal. *)
Definition rank (s : string) : nat :=
  if String.eqb s "pending" then 0%nat
  else if String.eqb s "processing" then 1%nat
  else 2%nat.

(** What a write may say about [output_key] and [error_message], by the
    status it writes. *)
Definition write_ok (f : row) : Prop :=
  match f !! "status" with
  | Some (SText "completed") =>
      is_set f "output_key" /\ is_set f "output_size" /\
      f !! "progress" = Some (SInt 100) /\ is_set f "completed_at" /\
      f !! "error_message" = None
  | Some (SText "failed") =>
      is_set f "error_message" /\ is_set f "completed_at" /\
      f !! "output_key" = None
  | _ => f !! "output_key" = None /\ f !! "error_message" = None
  end.

(** ** Shapes of a prediction's output *)


(** The first of some keys that a dictionary has. *)
Fixpoint first_present {A : Type} (keys : list string) (d : list (string * A))
  : option string :=
  match keys with
  | [] => None
  | k :: rest =>
      match assoc k d with
      | Some _ => Some k
      | None => first_present rest d
      end
  end.



(** ** Example data *)

Definition ex_upload : Upload := {|
  upload_id := "upl_1";
  original_filename := "clip.mp4";
  storage_key := "uploads/2026/03/07/upl_1_clip.mp4";
  mime_type := "video/mp4";
  file_size := 2;
  upload_status := "uploaded"
|}.

Definition ex_url : string := "https://replicate.delivery/out.mp4".

Definition ex_prediction (status : string) (output : pyval) : Prediction := {|
  pred_id := "p1"; pred_status := status; pred_error := PyNone; pred_output := output
|}.

Definition ex_date (d s : N) : datetime := {|
  year := 2026; month := 3; day := d; hour := 9; minute := 5; second := s;
  microsecond := 0
|}.

(** An environment in which the prediction reports what [reload] says, and
    the download answers [http]. *)
Definition ex_env (reload : nat -> exn + Prediction) (http : http_outcome) : Env := {|
  REPLICATE_API_TOKEN := "r8_token";
  STORAGE_DIR := "/srv/storage";
  uuid4_hex := fun _ => "0123456789abcdef0123456789abcdef";
  clock := fun n => ex_date 7 (N.of_nat n);
  builtin_str := fun _ => "<object>";
  builtin_repr := fun s => "'" ++ s ++ "'";
  predictions_create := fun _ _ => inr (ex_prediction "starting" PyNone);
  predictions_reload := fun _ k => reload k;
  http_stream := fun _ => http;
  task_overlap := fun _ => (0%nat, 0%nat)
|}.

Definition ex_response (code : Z) (cs : list (list Byte.byte)) (err : option exn)
  : HttpResponse :=
  {| status_code := code; status_error_text := "Server error '500 Internal Server Error'";
     chunks := cs; stream_error := err |}.

(** The prediction succeeds at the third reload with a list holding the
    URL. *)
Definition ex_reload_ok (k : nat) : exn + Prediction :=
  inr (if Nat.leb 2 k then ex_prediction "succeeded" (PyList [PyStr ex_url])
       else ex_prediction "processing" PyNone).

(** The prediction never leaves the state processing. *)
Definition ex_reload_stuck (k : nat) : exn + Prediction :=
  inr (ex_prediction "processing" PyNone).

Definition ex_env_ok : Env :=
  ex_env ex_reload_ok (Responds (ex_response 200 [[Byte.x00; Byte.x01]] None)).

Definition ex_env_empty : Env :=
  ex_env ex_reload_ok (Responds (ex_response 200 [] None)).

Definition ex_env_500 : Env :=
  ex_env ex_reload_ok (Responds (ex_response 500 [] None)).

Definition ex_env_broken : Env :=
  ex_env ex_reload_ok
    (Responds (ex_response 200 [[Byte.x00]] (Some (Foreign "ReadError" "connection reset")))).

Definition ex_env_stuck : Env :=
  ex_env ex_reload_stuck (Responds (ex_response 200 [[Byte.x00]] None)).

Definition ex_src : string := "/srv/storage/uploads/2026/03/07/upl_1_clip.mp4".

(** A store with one uploaded video, on disk when [on_disk] holds, and no
    job. *)
Definition ex_world (on_disk : bool) : World := {|
  uploads := {[ "upl_1" := ex_upload ]};
  jobs := ∅;
  files := if on_disk then {[ ex_src := [Byte.x00; Byte.x01] ]} else ∅;
  tasks := [];
  trace := [];
  clock_reads := 0;
  uuid_reads := 0
|}.

Definition ex_job_id : string := "job_0123456789ab".

(** The store after [create_enhance_job] in [ex_world]. *)
Definition ex_world_created (on_disk : bool) : World :=
  (create_enhance_job ex_env_ok "upl_1" None (ex_world on_disk)).2.


(** The [update_job] calls of a run, by its outcome. *)
Inductive run_shape (job_id : string) : Res unit -> list (string * row) -> Prop :=
| shape_blocked t pid :
    run_shape job_id Blocked
      [(job_id, processing_fields t); (job_id, replicate_fields pid)]
| shape_completed t pid key size t' :
    run_shape job_id (Ok tt)
      [(job_id, processing_fields t); (job_id, replicate_fields pid);
       (job_id, completed_fields key size t')]
| shape_failed_early t msg t' :
    run_shape job_id (Ok tt)
      [(job_id, processing_fields t); (job_id, failed_fields msg t')]
| shape_failed t pid msg t' :
    run_shape job_id (Ok tt)
      [(job_id, processing_fields t); (job_id, replicate_fields pid);
       (job_id, failed_fields msg t')].


Definition ex_row : row := default ∅ (jobs (ex_world_created true) !! ex_job_id).
Definition ex_model : string := "lucataco/real-esrgan-video".


(** ** Creating a job *)

(** The model identifier that a model key resolves to, if any. *)
Definition resolve_model (model_key : option string) : option string :=
  match assoc (py_or model_key DEFAULT_ENHANCE_MODEL) REPLICATE_MODELS with
  | Some name => if String.eqb name "" then None else Some name
  | None => None
  end.

(** The id that the next call of [create_enhance_job] draws. *)
Definition new_job_id (E : Env) (w : World) : string :=
  "job_" ++ substring 0 12 (uuid4_hex E (uuid_reads w)).

(** The record that [create_enhance_job] hands to [insert_job]. *)
Definition new_job_record (job_id upload_id model_name created_at : string) : row :=
  list_to_map [("id", SText job_id); ("upload_id", SText upload_id);
               ("model_name", SText model_name); ("status", SText "pending");
               ("created_at", SText created_at)].

(** The world after a call of [create_enhance_job] that passed its checks
    and drew a fresh id. *)
Definition world_created (E : Env) (upload_id : string) (u : Upload)
    (model_name : string) (w : World) : World :=
  let job_id := new_job_id E w in
  let record :=
    new_job_record job_id upload_id model_name (isoformat (clock E (clock_reads w))) in
  {| uploads := uploads w;
     jobs := <[job_id := record ∪ JOB_DEFAULTS]> (jobs w);
     files := files w;
     tasks := tasks w ++ [{| task_job_id := job_id; task_upload := u;
                             task_model_name := model_name |}];
     trace := trace w ++ [EvInsertJob record];
     clock_reads := S (clock_reads w);
     uuid_reads := S (uuid_reads w) |}.

(** An environment with another scheduler: the read-back of
    [create_enhance_job] sees [overlap.2] writes of the task. *)
Definition with_overlap (E : Env) (overlap : nat * nat) : Env := {|
  REPLICATE_API_TOKEN := REPLICATE_API_TOKEN E;
  STORAGE_DIR := STORAGE_DIR E;
  uuid4_hex := uuid4_hex E;
  clock := clock E;
  builtin_str := builtin_str E;
  builtin_repr := builtin_repr E;
  predictions_create := predictions_create E;
  predictions_reload := predictions_reload E;
  http_stream := http_stream E;
  task_overlap := fun _ => overlap
|}.

(** The read-back sees the first write of the task. *)
Definition ex_env_racing : Env := with_overlap ex_env_ok (5%nat, 1%nat).



(** ** File names *)

(** The names that [sanitize] leaves as they are: every character is
    alphanumeric or one of [.], [_], [-]. *)
Fixpoint is_safe_name (s : string) : bool :=
  match s with
  | EmptyString => true
  | String c rest =>
      (isalnum c || contains (String c "") "._-") && is_safe_name rest
  end.

(** * The rest of storage.py, database.py and main.py *)

(** ** storage.py *)

(** [generate_storage_key(upload_id, filename)]; [now] is the value that the
    call [datetime.utcnow()] in its body returns. *)
Definition generate_storage_key (now : datetime) (upload_id filename : string) : string :=
  let safe := sanitize filename in
  "uploads/" ++ pretty (year now) ++ "/" ++ pad0 2 (month now) ++ "/" ++
  pad0 2 (day now) ++ "/" ++ upload_id ++ "_" ++ safe.

(** [file_exists(storage_key)] *)
Definition file_exists (E : Env) (storage_key : string) : M bool :=
  path_exists (get_file_path (STORAGE_DIR E) storage_key).

(** [save_bytes(storage_key, data)] *)
Definition save_bytes (E : Env) (storage_key : string) (data : list Byte.byte) : M Z :=
  let dest := get_file_path (STORAGE_DIR E) storage_key in
  fun w => (Ok (Z.of_nat (length data)), set_files (<[dest := data]> (files w)) w).

(** [delete_file(storage_key)] *)
Definition delete_file (E : Env) (storage_key : string) : M unit :=
  let path := get_file_path (STORAGE_DIR E) storage_key in
  let* ex := path_exists path in
  if ex then fun w => (Ok tt, set_files (delete path (files w)) w)
  else ret tt.

(** The loop [while chunk := await file_obj.read(1024 * 1024)] of
    [save_file]; [reads] are the results of the successive reads, and a read
    past the last of them returns the empty chunk. *)
Fixpoint read_chunks (dest : string) (reads : list (list Byte.byte)) (total : Z) : M Z :=
  match reads with
  | [] => ret total
  | chunk :: rest =>
      match chunk with
      | [] => ret total
      | _ =>
          run (fun w => (Ok tt, set_files (<[dest := (default [] (files w !! dest) ++ chunk)%list]> (files w)) w)) then
          read_chunks dest rest (total + Z.of_nat (length chunk))
      end
  end.

(** [save_file(storage_key, file_obj)] *)
Definition save_file (E : Env) (storage_key : string) (reads : list (list Byte.byte)) : M Z :=
  let dest := get_file_path (STORAGE_DIR E) storage_key in
  run (fun w => (Ok tt, set_files (<[dest := []]> (files w)) w)) then
  read_chunks dest reads 0.

(** ** database.py: the listings of jobs *)

(** How SQLite orders two values: NULL first, then numbers, then text by
    its bytes. *)
Definition sql_leb (a b : sqlval) : bool :=
  match a, b with
  | SNull, _ => true
  | _, SNull => false
  | SInt x, SInt y => (x <=? y)%Z
  | SInt _, SText _ => true
  | SText _, SInt _ => false
  | SText s, SText t => String.leb s t
  end.

(** The value of a column of a row, NULL when the row lacks it. *)
Definition column (col : string) (r : row) : sqlval := default SNull (r !! col).

(** [ORDER BY created_at ASC] relates two rows. *)
Definition created_le (a b : row) : Prop :=
  sql_leb (column "created_at" a) (column "created_at" b) = true.

#[global] Instance created_le_dec a b : Decision (created_le a b).
Proof. unfold created_le. apply _. Defined.

(** The rows of the table, as a scan meets them. *)
Definition scan_jobs (w : World) : list row := (map_to_list (jobs w)).*2.

(** [get_jobs_by_upload(upload_id)]: SELECT * FROM jobs WHERE upload_id = ?
    ORDER BY created_at DESC; rows with equal [created_at] come in the order
    the sort leaves them. *)
Definition get_jobs_by_upload (upload_id : string) : M (list row) :=
  fun w =>
    (Ok (merge_sort (flip created_le)
           (filter (fun r => r !! "upload_id" = Some (SText upload_id)) (scan_jobs w))),
     w).

(** [get_pending_jobs()]: SELECT * FROM jobs WHERE status IN ('pending',
    'processing') ORDER BY created_at ASC. *)
Definition get_pending_jobs : M (list row) :=
  fun w =>
    (Ok (merge_sort created_le
           (filter (fun r => r !! "status" = Some (SText "pending") \/
                             r !! "status" = Some (SText "processing"))
                   (scan_jobs w))),
     w).

(** ** main.py *)

Module Main.

(** [HTTPException(status_code, detail)] *)
Record HTTPException : Type := {
  http_status : Z;
  detail : string
}.

(** What a route answers: the [HTTPException] it raises, or the value it
    returns.  Any other exception leaves the route as [Raise]. *)
Definition Response (A : Type) : Type := (HTTPException + A)%type.

Definition http_error {A : Type} (code : Z) (msg : string) : M (Response A) :=
  ret (inl {| http_status := code; detail := msg |}).

(** The arguments of [JobDetail(...)], before pydantic validates them. *)
Record JobDetail : Type := {
  jd_id : sqlval;
  uploadId : sqlval;
  modelName : sqlval;
  jd_status : sqlval;
  jd_progress : sqlval;
  errorMessage : sqlval;
  createdAt : sqlval;
  completedAt : sqlval;
  downloadReady : bool
}.

(** [FileResponse(path=..., filename=..., media_type=...)] *)
Record FileResponse : Type := {
  fr_path : string;
  fr_filename : string;
  fr_media_type : string
}.

(** Truth value of a value read from a row ([bool(v)], [v or 0]). *)
Definition sql_truthy (v : sqlval) : bool :=
  match v with
  | SNull => false
  | SText s => negb (String.eqb s "")
  | SInt z => negb (Z.eqb z 0)
  end.

(** [j[col]]: a missing column raises [KeyError]. *)
Definition item (j : row) (col : string) : exn + sqlval :=
  match j !! col with
  | Some v => inr v
  | None => inl (Foreign "KeyError" col)
  end.

(** [_job_to_detail(j)] *)
Definition _job_to_detail (j : row) : exn + JobDetail :=
  match item j "id", item j "upload_id", item j "model_name", item j "status",
        item j "created_at" with
  | inr id, inr upload_id, inr model_name, inr status, inr created_at =>
      inr {| jd_id := id;
             uploadId := upload_id;
             modelName := model_name;
             jd_status := status;
             jd_progress :=
               (if sql_truthy (column "progress" j) then column "progress" j else SInt 0);
             errorMessage := column "error_message" j;
             createdAt := created_at;
             completedAt := column "completed_at" j;
             downloadReady :=
               bool_decide (status = SText "completed") &&
               sql_truthy (column "output_key" j) |}
  | inl e, _, _, _, _ => inl e
  | _, inl e, _, _, _ => inl e
  | _, _, inl e, _, _ => inl e
  | _, _, _, inl e, _ => inl e
  | _, _, _, _, inl e => inl e
  end.

Definition lift {A : Type} (r : exn + A) : M A :=
  match r with
  | inl e => raise e
  | inr a => ret a
  end.

(** [if not job]: None and the empty dict. *)
Definition no_row (job : option row) : bool :=
  match job with
  | None => true
  | Some j => bool_decide (j = ∅)
  end.

(** [str(v)] inside an f-string, for a value read from a row. *)
Definition sql_str (v : sqlval) : string :=
  match v with
  | SNull => "None"
  | SText s => s
  | SInt z => pretty z
  end.

(** [db.get_upload(v)] for a value read from a row: the id column has TEXT
    affinity, so a number is compared as its text and NULL matches no row. *)
Definition get_upload_of (v : sqlval) : M (option Upload) :=
  match v with
  | SNull => ret None
  | SText u => get_upload u
  | SInt z => get_upload (pretty z)
  end.

(** GET /api/jobs/{job_id}/download *)
Definition download_enhanced (E : Env) (job_id : string) : M (Response FileResponse) :=
  let* job := get_job job_id in
  if no_row job then http_error 404 "Job not found"
  else
    let job := default ∅ job in
    let* status := lift (item job "status") in
    if negb (bool_decide (status = SText "completed")) then
      http_error 400 ("Job is not complete (status: " ++ sql_str status ++ ")")
    else if negb (sql_truthy (column "output_key" job)) then
      http_error 404 "No output file"
    else
      let* output_key := lift (item job "output_key") in
      match output_key with
      | SText key =>
          let file_path := get_file_path (STORAGE_DIR E) key in
          let* ex := path_exists file_path in
          if negb ex then http_error 404 "Enhanced file not found in storage"
          else
            let* upload_id := lift (item job "upload_id") in
            let* upload := get_upload_of upload_id in
            let name :=
              match upload with
              | Some u => "enhanced_" ++ original_filename u
              | None => "enhanced_video.mp4"
              end in
            ret (inr {| fr_path := file_path; fr_filename := name;
                        fr_media_type := "video/mp4" |})
      | _ => raise (Foreign "TypeError" "unsupported operand type(s) for /")
      end.

(** GET /api/uploads/{upload_id}/download *)
Definition download_original (E : Env) (upload_id : string) : M (Response FileResponse) :=
  let* record := get_upload upload_id in
  match record with
  | None => http_error 404 "Upload not found"
  | Some record =>
      if negb (String.eqb (upload_status record) "uploaded") then
        http_error 400 "File not ready"
      else
        let file_path := get_file_path (STORAGE_DIR E) (storage_key record) in
        let* ex := path_exists file_path in
        if negb ex then http_error 404 "File not found in storage"
        else
          ret (inr {| fr_path := file_path; fr_filename := original_filename record;
                      fr_media_type := mime_type record |})
  end.

(** [try: body  except EnhanceError as e: handler(e)] *)
Definition except_enhance {A : Type} (body : M A) (handler : string -> M A) : M A :=
  fun w =>
    match body w with
    | (Raise (EnhanceError msg), w') => handler msg w'
    | r => r
    end.

(** POST /api/jobs/create, for the body [{uploadId, model}] *)
Definition create_job (E : Env) (uploadId : string) (model : option string)
  : M (Response JobDetail) :=
  except_enhance
    (let* job := create_enhance_job E uploadId model in
     match job with
     | Some j => let* d := lift (_job_to_detail j) in ret (inr d)
     | None => raise (Foreign "TypeError" "'NoneType' object is not subscriptable")
     end)
    (fun msg => http_error 400 msg).

(** [[_job_to_detail(j).model_dump() for j in jobs]] *)
Fixpoint details (js : list row) : exn + list JobDetail :=
  match js with
  | [] => inr []
  | j :: rest =>
      match _job_to_detail j with
      | inl e => inl e
      | inr d =>
          match details rest with
          | inl e => inl e
          | inr ds => inr (d :: ds)
          end
      end
  end.

(** GET /api/uploads/{upload_id}/jobs *)
Definition list_jobs_for_upload (upload_id : string) : M (list JobDetail) :=
  let* js := get_jobs_by_upload upload_id in
  lift (details js).

(** An entry of the reply of GET /api/models. *)
Record ModelEntry : Type := {
  entry_key : string;
  entry_name : string;
  available : bool
}.

(** GET /api/models: the entries and the default key. *)
Definition list_models (E : Env) : list ModelEntry * string :=
  (map (fun kv => {| entry_key := kv.1; entry_name := kv.2;
                     available := negb (String.eqb (REPLICATE_API_TOKEN E) "") |})
       REPLICATE_MODELS,
   DEFAULT_ENHANCE_MODEL).

(** config.py: the upload limits. *)
Definition MAX_FILE_SIZE : Z := 500 * 1024 * 1024.
Definition ALLOWED_MIME_TYPES : list string := ["video/mp4"; "video/quicktime"].
Definition ALLOWED_EXTENSIONS : list string := [".mp4"; ".mov"].

(** [c.lower()] for a code point below 256. *)
Definition lower_char (c : ascii) : ascii :=
  let n := N_of_ascii c in
  if ((65 <=? n) && (n <=? 90) || (192 <=? n) && (n <=? 214) ||
      (216 <=? n) && (n <=? 222))%N
  then ascii_of_N (n + 32)
  else c.

(** [s.lower()] *)
Fixpoint lower (s : string) : string :=
  match s with
  | EmptyString => EmptyString
  | String c rest => String (lower_char c) (lower rest)
  end.

(** [s.rsplit(".", 1)[-1]]: what follows the last dot, the whole of [s]
    when it has none. *)
Fixpoint after_last_dot (s : string) : string :=
  match s with
  | EmptyString => EmptyString
  | String c rest =>
      if contains "." rest then after_last_dot rest
      else if Ascii.eqb c "."%char then rest
      else s
  end.

(** [x in xs] for a set of strings. *)
Definition member (x : string) (xs : list string) : bool :=
  existsb (String.eqb x) xs.

(** [_validate_file_meta(filename, mime_type, file_size)]: the exception it
    raises, if any.  [set_repr] is the interpreter's rendering of a set of
    strings inside an f-string, whose order it chooses. *)
Definition _validate_file_meta (set_repr : list string -> string)
    (filename mime_type : string) (file_size : Z) : Response unit :=
  let ext :=
    if contains "." filename then "." ++ lower (after_last_dot filename) else "" in
  if negb (member ext ALLOWED_EXTENSIONS) then
    inl {| http_status := 400;
           detail := "Unsupported format. Allowed: " ++ set_repr ALLOWED_EXTENSIONS |}
  else if negb (member mime_type ALLOWED_MIME_TYPES) then
    inl {| http_status := 400;
           detail := "Unsupported MIME type. Allowed: " ++ set_repr ALLOWED_MIME_TYPES |}
  else if (file_size >? MAX_FILE_SIZE)%Z then
    inl {| http_status := 400;
           detail := "File too large. Max " ++ pretty (MAX_FILE_SIZE / (1024 * 1024))%Z ++ "MB" |}
  else inr tt.

(** GET /api/jobs/{job_id} *)
Definition get_job (job_id : string) : M (Response JobDetail) :=
  let* job := get_job job_id in
  if no_row job then http_error 404 "Job not found"
  else
    let* d := lift (_job_to_detail (default ∅ job)) in
    ret (inr d).

End Main.

(** ** Vocabulary of the further properties *)

(** The chunks that [save_file] writes: those read before the first empty
    one. *)
Fixpoint until_empty (reads : list (list Byte.byte)) : list (list Byte.byte) :=
  match reads with
  | [] => []
  | chunk :: rest =>
      match chunk with
      | [] => []
      | _ => chunk :: until_empty rest
      end
  end.

(** The files after the downloads among some events. *)
Definition apply_downloads (E : Env) (evs : list event)
    (f : gmap string (list Byte.byte)) : gmap string (list Byte.byte) :=
  fold_left
    (fun f ev =>
       match ev with
       | EvDownload url dest =>
           match http_stream E url with
           | Responds resp =>
               if is_success (status_code resp)
               then <[dest := concat (chunks resp)]> f
               else f
           | ConnectFails _ => f
           end
       | _ => f
       end)
    evs f.

(** The columns of the table [jobs] (CREATE_JOBS), by what they hold. *)
Definition JOB_TEXT_COLUMNS : list string :=
  ["id"; "upload_id"; "model_name"; "replicate_id"; "status"; "output_key";
   "error_message"; "created_at"; "started_at"; "completed_at"].

Definition JOB_NUMBER_COLUMNS : list string := ["progress"; "output_size"].

Definition JOB_NOT_NULL_COLUMNS : list string :=
  ["upload_id"; "model_name"; "status"; "created_at"].

(** A value that an UPDATE stores in a column as it is: text in a text
    column, a number in a numeric one, NULL where the column allows it.  The
    primary key is left out: [update_job] overwrites [fields["id"]]. *)
Definition column_accepts (c : string) (v : sqlval) : bool :=
  negb (String.eqb c "id") &&
  match v with
  | SText _ => Main.member c JOB_TEXT_COLUMNS
  | SInt _ => Main.member c JOB_NUMBER_COLUMNS
  | SNull =>
      (Main.member c JOB_TEXT_COLUMNS || Main.member c JOB_NUMBER_COLUMNS) &&
      negb (Main.member c JOB_NOT_NULL_COLUMNS)
  end.

(** The dictionaries that [update_job] is specified for: not empty, and
    every value fits its column. *)
Definition accepted (fields : row) : Prop :=
  fields <> ∅ /\ forall c v, fields !! c = Some v -> column_accepts c v = true.
(** * Facts about the model *)

Lemma write_chunks_eq dest cs : forall total w,
  write_chunks dest cs total w =
    (Ok (total + total_len cs),
     match cs with
     | [] => w
     | _ => set_files (<[dest := (default [] (files w !! dest) ++ concat cs)%list]> (files w)) w
     end).
Proof.
  unfold total_len.
  induction cs as [|c cs IH]; intros total w; cbn [write_chunks].
  - unfold ret. cbn. do 2 f_equal. lia.
  - unfold bind at 1. rewrite IH. cbn [concat]. rewrite length_app. f_equal.
    + f_equal. lia.
    + destruct cs as [|c' cs]; [cbn [concat]; by rewrite app_nil_r|].
      destruct w as [ups jbs fls tsk trc cr ur];
        cbn [set_files files uploads jobs tasks trace clock_reads uuid_reads].
      rewrite lookup_insert_eq. cbn [default]. rewrite insert_insert_eq.
      unfold id. by rewrite <- app_assoc.
Qed.

Lemma submit_eq E model_name file_path w :
  is_Some (files w !! file_path) ->
  _submit_prediction E model_name file_path w =
    (match predictions_create E model_name (submit_input model_name (InFile file_path)) with
     | inl e => Raise e
     | inr p => Ok p
     end,
     set_trace (trace w ++ [EvSubmit model_name (submit_input model_name (InFile file_path))]) w).
Proof.
  intros Hf. unfold _submit_prediction, submit_input.
  assert (Hex : path_exists file_path w = (Ok true, w)).
  { unfold path_exists. by rewrite bool_decide_eq_true_2. }
  destruct (contains "real-esrgan" model_name);
    [|destruct (contains "topazlabs" model_name)];
    cbv zeta; unfold bind; rewrite Hex; unfold ret, raise, log;
    match goal with |- context [predictions_create ?E ?m ?i] =>
      destruct (predictions_create E m i) end; reflexivity.
Qed.

Lemma download_eq E url output_key w :
  _download_output E url output_key w =
    let dest := get_file_path (STORAGE_DIR E) output_key in
    let w1 := set_trace (trace w ++ [EvDownload url dest]) w in
    match http_stream E url with
    | ConnectFails e => (Raise e, w1)
    | Responds resp =>
        if is_success (status_code resp) then
          (match stream_error resp with
           | Some e => Raise e
           | None => Ok (total_len (chunks resp))
           end,
           set_files (<[dest := concat (chunks resp)]> (files w)) w1)
        else (Raise (Foreign "HTTPStatusError" (status_error_text resp)), w1)
    end.
Proof.
  unfold _download_output. cbv zeta. unfold bind at 1, log at 1.
  destruct (http_stream E url) as [e|resp]; [reflexivity|].
  destruct (is_success (status_code resp)); [|reflexivity].
  unfold bind. rewrite write_chunks_eq.
  destruct w as [ups jbs fls tsk trc cr ur].
  cbn [set_files set_trace files uploads jobs tasks trace clock_reads uuid_reads].
  assert (Hf : forall cs : list (list Byte.byte),
    match cs with
    | [] => <[get_file_path (STORAGE_DIR E) output_key := []]> fls
    | _ => <[get_file_path (STORAGE_DIR E) output_key :=
             (default [] (<[get_file_path (STORAGE_DIR E) output_key := []]> fls
                          !! get_file_path (STORAGE_DIR E) output_key) ++ concat cs)%list]>
             (<[get_file_path (STORAGE_DIR E) output_key := []]> fls)
    end = <[get_file_path (STORAGE_DIR E) output_key := concat cs]> fls).
  { intros [|c cs]; [reflexivity|].
    rewrite lookup_insert_eq. cbn [default]. unfold id. by rewrite insert_insert_eq. }
  specialize (Hf (chunks resp)).
  destruct (chunks resp) as [|c cs] eqn:Hc; rewrite <- Hf;
    destruct (stream_error resp); reflexivity.
Qed.

(** Symbolic execution of the monad's operations. *)
Ltac mred :=
  cbv beta iota zeta delta
    [_run_prediction try_except bind ret raise now update_job log path_exists
     _wait_for_prediction set_trace set_jobs set_files set_tasks set_clock_reads
     set_uuid_reads trace jobs files tasks uploads clock_reads uuid_reads negb fst snd].

Ltac leaf path :=
  eexists; split;
  [ rewrite <- ?app_assoc; reflexivity
  | split; [reflexivity | solve [eapply path; cbn [files]; eauto] ] ].

(** Every run of the execution unit follows one of the paths, appends the
    calls of that path to the trace, and changes the table by its
    [update_job] calls only. *)
Lemma run_prediction_path E polls job_id upload model_name w :
  exists evs,
    trace (_run_prediction E polls job_id upload model_name w).2 = (trace w ++ evs)%list /\
    jobs (_run_prediction E polls job_id upload model_name w).2 =
      apply_updates (updates_of evs) (jobs w) /\
    run_path E polls job_id upload model_name w
      (_run_prediction E polls job_id upload model_name w).1 evs.
Proof.
  destruct w as [ups jbs fls tsk trc cr ur]. mred.
  match goal with |- context [bool_decide ?P] => destruct (bool_decide P) eqn:Hex end; mred.
  2: { apply bool_decide_eq_false_1 in Hex. rewrite <- eq_None_not_Some in Hex.
       leaf path_source_missing. }
  apply bool_decide_eq_true_1 in Hex.
  rewrite submit_eq by exact Hex.
  destruct (predictions_create _ _ _) as [e|p] eqn:Hcreate; mred;
    [leaf path_submit_raised|].
  destruct (prediction_wait E polls 0 p) as [res|e|] eqn:Hwait; mred;
    [|leaf path_wait_raised|leaf path_blocked].
  destruct (String.eqb_spec (pred_status res) "failed") as [Hfl|Hfl]; mred;
    [leaf path_prediction_failed|].
  destruct (String.eqb_spec (pred_status res) "canceled") as [Hcn|Hcn]; mred;
    [leaf path_prediction_canceled|].
  destruct (py_truthy _) eqn:Hurl; mred; [|leaf path_no_output].
  rewrite download_eq. cbv zeta.
  pose proof (eq_refl (download_result E (_extract_output_url E res))) as Hdl.
  unfold download_result at 2 in Hdl.
  destruct (http_stream _ _) as [e|resp]; mred; [leaf path_download_raised|].
  destruct (is_success _); mred; [|leaf path_download_raised].
  destruct (stream_error resp); mred; [leaf path_download_raised|leaf path_completed].
Qed.

Lemma run_path_shape E polls job_id upload model_name w r evs :
  run_path E polls job_id upload model_name w r evs ->
  run_shape job_id r (updates_of evs).
Proof.
  destruct 1; cbn [updates_of omap list_omap];
    [ apply shape_failed_early | apply shape_failed_early | apply shape_blocked
    | apply shape_failed | apply shape_failed | apply shape_failed
    | apply shape_failed | apply shape_failed | apply shape_completed ].
Qed.

Lemma rank_transition s s' : transition s s' -> (rank s < rank s')%nat.
Proof. destruct 1; vm_compute; lia. Qed.


Lemma apply_updates_same job_id us : forall (j : gmap string row) r0,
  Forall (fun u => u.1 = job_id) us ->
  j !! job_id = Some r0 ->
  apply_updates us j !! job_id = Some (fold_left (fun r u => u.2 ∪ r) us r0).
Proof.
  induction us as [|[k f] us IH]; intros j r0 Hall Hj; [exact Hj|].
  apply Forall_cons in Hall as [Hk Hall']. cbn in Hk. subst k.
  cbn [apply_updates fold_left]. apply IH; [exact Hall'|].
  cbn [fst snd]. by rewrite lookup_alter_eq, Hj.
Qed.

Lemma run_shape_own_job job_id r us :
  run_shape job_id r us -> Forall (fun u => u.1 = job_id) us.
Proof. destruct 1; repeat constructor. Qed.

Ltac write_ok_tac :=
  unfold write_ok;
  match goal with |- context [?f !! "status"] =>
    first [ change (f !! "status") with (Some (SText "completed"))
          | change (f !! "status") with (Some (SText "failed"))
          | change (f !! "status") with (Some (SText "processing"))
          | change (f !! "status") with (@None sqlval) ] end;
  cbv beta iota; repeat split; try reflexivity;
  eexists; (split; [reflexivity|discriminate]).

Lemma write_ok_processing t : write_ok (processing_fields t).
Proof. write_ok_tac. Qed.

Lemma write_ok_replicate pid : write_ok (replicate_fields pid).
Proof. write_ok_tac. Qed.

Lemma write_ok_completed key size t : write_ok (completed_fields key size t).
Proof. write_ok_tac. Qed.

Lemma write_ok_failed msg t : write_ok (failed_fields msg t).
Proof. write_ok_tac. Qed.

Lemma write_ok_shape job_id r us :
  run_shape job_id r us -> Forall (fun u => write_ok u.2) us.
Proof.
  destruct 1; repeat (apply Forall_cons_2 || apply Forall_nil_2); cbn [snd];
    auto using write_ok_processing, write_ok_replicate, write_ok_completed,
      write_ok_failed.
Qed.

Ltac row_lookup :=
  repeat first
    [ rewrite lookup_union_r by reflexivity
    | erewrite lookup_union_Some_l by reflexivity ].


Lemma not_set_null (r : row) col : r !! col = Some SNull -> ~ is_set r col.
Proof. intros H (v & Hv & Hn). congruence. Defined.


Lemma insert_job_eq job_id upload_id model_name created_at w :
  insert_job (new_job_record job_id upload_id model_name created_at) w =
    let record := new_job_record job_id upload_id model_name created_at in
    let w1 := set_trace (trace w ++ [EvInsertJob record]) w in
    match jobs w !! job_id with
    | Some _ => (Raise (Foreign "IntegrityError" "UNIQUE constraint failed: jobs.id"), w1)
    | None => (Ok tt, set_jobs (<[job_id := record ∪ JOB_DEFAULTS]> (jobs w)) w1)
    end.
Proof.
  unfold insert_job, bind, log.
  change (bind_params _ (new_job_record job_id upload_id model_name created_at))
    with (Some (new_job_record job_id upload_id model_name created_at)).
  cbv beta iota zeta.
  change (new_job_record job_id upload_id model_name created_at !! "id")
    with (Some (SText job_id)).
  cbv beta iota. destruct w as [ups jbs fls tsk trc cr ur].
  cbn [jobs set_trace] in *. reflexivity.
Qed.

(** What the read-back of [create_enhance_job] sees of a row: the columns
    that identify the job are those of the row, and the status is that of
    the row or one that the task has written since. *)
Lemma racing_read E t w r0 :
  jobs w !! task_job_id t = Some r0 ->
  exists r,
    get_job_racing E t w = (Ok (Some r), w) /\
    (forall c, c ∈ ["id"; "upload_id"; "model_name"; "created_at"] -> r !! c = r0 !! c) /\
    (r !! "status" = r0 !! "status" \/ r !! "status" = Some (SText "processing") \/
     r !! "status" = Some (SText "completed") \/ r !! "status" = Some (SText "failed")) /\
    ((task_overlap E (task_job_id t)).2 = 0%nat -> r = r0).
Proof.
  intros Hrow. unfold get_job_racing, run_task.
  destruct (run_prediction_path E (task_overlap E (task_job_id t)).1 (task_job_id t)
              (task_upload t) (task_model_name t) w) as (evs & Htrace & _ & Hpath).
  rewrite Htrace, drop_app_length. apply run_path_shape in Hpath.
  pose proof (run_shape_own_job _ _ _ Hpath) as Hown.
  exists (fold_left (fun r u => u.2 ∪ r)
            (take (task_overlap E (task_job_id t)).2 (updates_of evs)) r0).
  split.
  { f_equal. f_equal. apply apply_updates_same; [|exact Hrow]. by apply Forall_take. }
  clear Hown Htrace. destruct (task_overlap E (task_job_id t)) as [polls k]. cbn [snd].
  split; [|split].
  - intros c Hc.
    destruct Hpath; destruct k as [|[|[|k]]]; cbn [take]; rewrite ?take_nil;
      cbn [fold_left snd];
      repeat (apply elem_of_cons in Hc as [->|Hc]; [row_lookup; reflexivity|]);
      by apply elem_of_nil in Hc.
  - destruct Hpath; destruct k as [|[|[|k]]]; cbn [take]; rewrite ?take_nil;
      cbn [fold_left snd]; row_lookup; auto.
  - intros ->. reflexivity.
Qed.

(** A call of [create_enhance_job] that passes the four checks. *)
Lemma create_enhance_job_checked E upload_id model_key w u model_name :
  uploads w !! upload_id = Some u ->
  upload_status u = "uploaded" ->
  REPLICATE_API_TOKEN E <> "" ->
  resolve_model model_key = Some model_name ->
  create_enhance_job E upload_id model_key w =
    match jobs w !! new_job_id E w with
    | Some _ =>
        (Raise (Foreign "IntegrityError" "UNIQUE constraint failed: jobs.id"),
         set_trace
           (trace w ++
            [EvInsertJob (new_job_record (new_job_id E w) upload_id model_name
                            (isoformat (clock E (clock_reads w))))])
           (set_clock_reads (S (clock_reads w)) (set_uuid_reads (S (uuid_reads w)) w)))
    | None =>
        get_job_racing E
          {| task_job_id := new_job_id E w; task_upload := u;
             task_model_name := model_name |}
          (world_created E upload_id u model_name w)
    end.
Proof.
  intros Hup Hst Htok Hres.
  unfold create_enhance_job, bind at 1, get_upload. rewrite Hup, Hst.
  change ("uploaded" =? "uploaded")%string with true. cbv beta iota delta [negb].
  apply String.eqb_neq in Htok. rewrite Htok.
  unfold resolve_model in Hres. cbv zeta.
  destruct (assoc _ REPLICATE_MODELS) as [name|]; [|discriminate].
  destruct (name =? "")%string; [discriminate|]. injection Hres as ->.
  unfold bind at 1, uuid4. unfold bind at 1, now.
  unfold bind at 1.
  fold (new_job_record ("job_" ++ substring 0 12 (uuid4_hex E (uuid_reads w))) upload_id model_name
          (isoformat (clock E (clock_reads (set_uuid_reads (S (uuid_reads w)) w))))).
  rewrite insert_job_eq. cbv zeta.
  unfold new_job_id, world_created.
  destruct w as [ups jbs fls tsk trc cr ur].
  cbn [jobs set_trace set_jobs set_tasks set_clock_reads set_uuid_reads uploads files tasks trace
       clock_reads uuid_reads].
  destruct (jbs !! _); [reflexivity|].
  unfold bind at 1, create_task.
  cbn [jobs set_trace set_jobs set_tasks set_clock_reads set_uuid_reads uploads files tasks trace
       clock_reads uuid_reads].
  reflexivity.
Qed.

(** A call that passes the checks and draws a fresh id: the world it leaves
    and the record it returns. *)
Lemma create_enhance_job_ok E upload_id model_key w u model_name :
  uploads w !! upload_id = Some u ->
  upload_status u = "uploaded" ->
  REPLICATE_API_TOKEN E <> "" ->
  resolve_model model_key = Some model_name ->
  jobs w !! new_job_id E w = None ->
  exists r,
    create_enhance_job E upload_id model_key w =
      (Ok (Some r), world_created E upload_id u model_name w) /\
    r !! "id" = Some (SText (new_job_id E w)) /\
    r !! "upload_id" = Some (SText upload_id) /\
    r !! "model_name" = Some (SText model_name) /\
    r !! "created_at" = Some (SText (isoformat (clock E (clock_reads w)))) /\
    (r !! "status" = Some (SText "pending") \/ r !! "status" = Some (SText "processing") \/
     r !! "status" = Some (SText "completed") \/ r !! "status" = Some (SText "failed")) /\
    ((task_overlap E (new_job_id E w)).2 = 0%nat ->
     r = new_job_record (new_job_id E w) upload_id model_name
           (isoformat (clock E (clock_reads w))) ∪ JOB_DEFAULTS).
Proof.
  intros Hup Hst Htok Hres Hfresh.
  rewrite (create_enhance_job_checked E upload_id model_key w u model_name) by assumption.
  rewrite Hfresh.
  destruct (racing_read E
              {| task_job_id := new_job_id E w; task_upload := u;
                 task_model_name := model_name |}
              (world_created E upload_id u model_name w)
              (new_job_record (new_job_id E w) upload_id model_name
                 (isoformat (clock E (clock_reads w))) ∪ JOB_DEFAULTS))
    as (r & Hread & Hkeep & Hstatus & Hzero).
  { apply lookup_insert_eq. }
  exists r. split; [exact Hread|].
  split; [rewrite Hkeep; [reflexivity|solve [repeat constructor]]|].
  split; [rewrite Hkeep; [reflexivity|solve [repeat constructor]]|].
  split; [rewrite Hkeep; [reflexivity|solve [repeat constructor]]|].
  split; [rewrite Hkeep; [reflexivity|solve [repeat constructor]]|].
  split; [exact Hstatus|exact Hzero].
Qed.


Lemma create_messages_distinct k :
  NoDup [MSG_NOT_FOUND; MSG_NOT_READY; MSG_NO_TOKEN; MSG_UNKNOWN_MODEL k].
Proof.
  unfold MSG_UNKNOWN_MODEL. cbn [String.append].
  repeat (apply NoDup_cons; split;
          [rewrite ?elem_of_cons, elem_of_nil; intros H;
           repeat (destruct H as [H|H]; [discriminate H|]); exact H|]).
  apply NoDup_nil_2.
Qed.

Lemma create_enhance_job_rejects E upload_id model_key w :
  (uploads w !! upload_id = None ->
   create_enhance_job E upload_id model_key w = (Raise (EnhanceError MSG_NOT_FOUND), w)) /\
  (forall u, uploads w !! upload_id = Some u ->
   upload_status u <> "uploaded" ->
   create_enhance_job E upload_id model_key w = (Raise (EnhanceError MSG_NOT_READY), w)) /\
  (forall u, uploads w !! upload_id = Some u ->
   upload_status u = "uploaded" ->
   REPLICATE_API_TOKEN E = "" ->
   create_enhance_job E upload_id model_key w = (Raise (EnhanceError MSG_NO_TOKEN), w)) /\
  (forall u, uploads w !! upload_id = Some u ->
   upload_status u = "uploaded" ->
   REPLICATE_API_TOKEN E <> "" ->
   resolve_model model_key = None ->
   create_enhance_job E upload_id model_key w =
     (Raise (EnhanceError (MSG_UNKNOWN_MODEL (py_or model_key DEFAULT_ENHANCE_MODEL))), w)).
Proof.
  split_and!.
  - intros Hup. unfold create_enhance_job, bind, get_upload. by rewrite Hup.
  - intros u Hup Hst. unfold create_enhance_job, bind, get_upload. rewrite Hup.
    apply String.eqb_neq in Hst. by rewrite Hst.
  - intros u Hup Hst Htok. unfold create_enhance_job, bind, get_upload.
    rewrite Hup, Hst, Htok. reflexivity.
  - intros u Hup Hst Htok Hres. unfold create_enhance_job, bind at 1, get_upload.
    rewrite Hup, Hst. apply String.eqb_neq in Htok. rewrite Htok.
    change ("uploaded" =? "uploaded")%string with true. cbv beta iota zeta delta [negb].
    unfold resolve_model in Hres.
    destruct (assoc _ REPLICATE_MODELS) as [name|]; [|reflexivity].
    destruct (name =? "")%string; [reflexivity|discriminate].
Qed.











(** A run follows a path, and the row of its job ends as the path's
    [update_job] calls leave it. *)
Lemma run_prediction_row E polls job_id upload model_name w :
  exists evs,
    trace (_run_prediction E polls job_id upload model_name w).2 = (trace w ++ evs)%list /\
    run_path E polls job_id upload model_name w
      (_run_prediction E polls job_id upload model_name w).1 evs /\
    forall r0, jobs w !! job_id = Some r0 ->
      jobs (_run_prediction E polls job_id upload model_name w).2 !! job_id =
        Some (fold_left (fun r u => u.2 ∪ r) (updates_of evs) r0).
Proof.
  destruct (run_prediction_path E polls job_id upload model_name w)
    as (evs & Htrace & Hjobs & Hpath).
  exists evs. split_and!; [exact Htrace|exact Hpath|].
  intros r0 Hrow. rewrite Hjobs.
  apply apply_updates_same; [|exact Hrow].
  eapply run_shape_own_job, run_path_shape, Hpath.
Qed.

(** Closes the paths that the hypotheses on the collaborators exclude. *)
Ltac wrong_path :=
  match goal with
  | H1 : files _ !! _ = None, H2 : is_Some (files _ !! _) |- _ =>
      rewrite H1 in H2; by destruct H2
  | H1 : ?a = inl _, H2 : ?a = inr _ |- _ => congruence
  | H1 : prediction_wait ?E ?n ?k ?p = _, H2 : predictions_create _ _ _ = inr ?p,
    H3 : predictions_create _ _ _ = inr ?q |- _ =>
      assert (q = p) by congruence; subst q; congruence
  | _ => congruence
  end.




Lemma is_prefix_spec p : forall s, is_prefix p s = true <-> exists t, s = p ++ t.
Proof.
  induction p as [|a p IH]; intros s.
  - split; [intros _; by exists s|reflexivity].
  - destruct s as [|b s]; cbn [is_prefix].
    + split; [discriminate|]. intros [t Ht]. discriminate Ht.
    + rewrite andb_true_iff, IH. split.
      * intros [Hab [t ->]]. apply Ascii.eqb_eq in Hab as ->. by exists t.
      * intros [t Ht]. cbn [String.append] in Ht. injection Ht as -> ->.
        split; [apply Ascii.eqb_refl|by exists t].
Qed.

Lemma contains_spec sub : forall s, contains sub s = true <-> Contains sub s.
Proof.
  unfold Contains.
  induction s as [|c s IH]; cbn [contains]; rewrite orb_true_iff, is_prefix_spec.
  - split.
    + intros [[t Ht]|Hf]; [|discriminate]. by exists "", t.
    + intros (pre & post & H). left. destruct pre; [|discriminate]. by exists post.
  - rewrite IH. split.
    + intros [[t Ht]|(pre & post & ->)]; [by exists "", t|].
      by exists (String c pre), post.
    + intros (pre & post & H). destruct pre as [|c' pre].
      * left. by exists post.
      * right. cbn [String.append] in H. injection H as -> ->. by exists pre, post.
Qed.


(** A prediction that no reload finds in a terminal state keeps
    [prediction.wait()] polling, however many polls are observed. *)
Lemma wait_never_returns E p :
  terminal_status (pred_status p) = false ->
  (forall k, exists p',
     predictions_reload E (pred_id p) k = inr p' /\
     pred_id p' = pred_id p /\ terminal_status (pred_status p') = false) ->
  forall polls k, prediction_wait E polls k p = Blocked.
Proof.
  intros Hp Hreload polls. revert p Hp Hreload.
  induction polls as [|polls IH]; intros p Hp Hreload k; cbn [prediction_wait]; rewrite Hp.
  - reflexivity.
  - destruct (Hreload k) as (p' & -> & Hid & Hp'). apply IH; [exact Hp'|].
    rewrite Hid. exact Hreload.
Qed.

(** The run of a unit whose prediction is accepted and then blocks. *)
Lemma run_blocked E polls job_id upload model_name w p r0 :
  is_Some (files w !! get_file_path (STORAGE_DIR E) (storage_key upload)) ->
  predictions_create E model_name
    (submit_input model_name (InFile (get_file_path (STORAGE_DIR E) (storage_key upload))))
    = inr p ->
  prediction_wait E polls 0 p = Blocked ->
  jobs w !! job_id = Some r0 ->
  (_run_prediction E polls job_id upload model_name w).1 = Blocked /\
  exists r',
    jobs (_run_prediction E polls job_id upload model_name w).2 !! job_id = Some r' /\
    r' !! "status" = Some (SText "processing") /\
    r' !! "replicate_id" = Some (SText (pred_id p)) /\
    r' !! "error_message" = r0 !! "error_message" /\
    r' !! "completed_at" = r0 !! "completed_at".
Proof.
  intros Hsrc Hcreate Hwait Hrow.
  destruct (run_prediction_row E polls job_id upload model_name w)
    as (evs & _ & Hpath & Hfinal).
  specialize (Hfinal r0 Hrow). rewrite Hfinal. clear Hfinal.
  destruct Hpath; try wrong_path.
  split; [reflexivity|]. eexists. split; [reflexivity|].
  cbn [updates_of omap list_omap fold_left snd].
  assert (p0 = p) as -> by congruence.
  split_and!; row_lookup; reflexivity.
Qed.


(** The run of a unit that reaches the download: the job ends as the
    download does. *)
Lemma run_download E polls job_id upload model_name w p result r0 :
  is_Some (files w !! get_file_path (STORAGE_DIR E) (storage_key upload)) ->
  predictions_create E model_name
    (submit_input model_name (InFile (get_file_path (STORAGE_DIR E) (storage_key upload))))
    = inr p ->
  prediction_wait E polls 0 p = Ok result ->
  pred_status result <> "failed" ->
  pred_status result <> "canceled" ->
  py_truthy (_extract_output_url E result) = true ->
  jobs w !! job_id = Some r0 ->
  (_run_prediction E polls job_id upload model_name w).1 = Ok tt /\
  exists r',
    jobs (_run_prediction E polls job_id upload model_name w).2 !! job_id = Some r' /\
    match download_result E (_extract_output_url E result) with
    | Ok size =>
        r' !! "status" = Some (SText "completed") /\
        r' !! "output_size" = Some (SInt size) /\
        r' !! "error_message" = r0 !! "error_message" /\
        exists utcnow,
          r' !! "output_key" =
            Some (SText (generate_output_key utcnow job_id
                           ("enhanced_" ++ original_filename upload)))
    | Raise e =>
        r' !! "status" = Some (SText "failed") /\
        r' !! "error_message" = Some (SText (exn_str e)) /\
        r' !! "output_key" = r0 !! "output_key"
    | Blocked => False
    end.
Proof.
  intros Hsrc Hcreate Hwait Hnf Hnc Htruthy Hrow.
  destruct (run_prediction_row E polls job_id upload model_name w)
    as (evs & _ & Hpath & Hfinal).
  specialize (Hfinal r0 Hrow). rewrite Hfinal. clear Hfinal.
  destruct Hpath; try wrong_path;
    (assert (p0 = p) as -> by congruence);
    (assert (result0 = result) as -> by congruence);
    match goal with H : download_result _ _ = _ |- _ => rewrite H end;
    (split; [reflexivity|]); (eexists; split; [reflexivity|]);
    cbn [updates_of omap list_omap fold_left snd].
  - split_and!; row_lookup; reflexivity.
  - split_and!; [row_lookup; reflexivity..|].
    exists utcnow. row_lookup. reflexivity.
Qed.

Lemma download_result_responds E url resp :
  http_stream E url = Responds resp ->
  download_result E url =
    if is_success (status_code resp) then
      match stream_error resp with
      | Some e => Raise e
      | None => Ok (total_len (chunks resp))
      end
    else Raise (Foreign "HTTPStatusError" (status_error_text resp)).
Proof. intros H. unfold download_result. by rewrite H. Qed.


Lemma append_assoc (a b c : string) : (a ++ b) ++ c = a ++ b ++ c.
Proof.
  induction a as [|x a IH]; [reflexivity|].
  change (String x ((a ++ b) ++ c) = String x (a ++ b ++ c)). by rewrite IH.
Qed.

Lemma append_nil_r (a : string) : a ++ "" = a.
Proof.
  induction a as [|x a IH]; [reflexivity|].
  change (String x (a ++ "") = String x a). by rewrite IH.
Qed.

Lemma sanitize_app a b : sanitize (a ++ b) = sanitize a ++ sanitize b.
Proof.
  induction a as [|x a IH]; [reflexivity|].
  change (String (safe_char x) (sanitize (a ++ b))
          = String (safe_char x) (sanitize a ++ sanitize b)).
  by rewrite IH.
Qed.

Lemma sanitize_safe s : is_safe_name s = true -> sanitize s = s.
Proof.
  induction s as [|c s IH]; [reflexivity|]. cbn [is_safe_name sanitize].
  rewrite andb_true_iff. intros [Hc Hs]. unfold safe_char. by rewrite Hc, IH.
Qed.

Lemma Contains_intro pre sub post : Contains sub (pre ++ sub ++ post).
Proof. by exists pre, post. Qed.

(** The key of a completed job is the key generated for its id and the
    prefixed file name at some reading of the clock. *)
Lemma run_completed_key E polls job_id upload model_name w r0 r' :
  jobs w !! job_id = Some r0 ->
  jobs (_run_prediction E polls job_id upload model_name w).2 !! job_id = Some r' ->
  r' !! "status" = Some (SText "completed") ->
  r0 !! "status" <> Some (SText "completed") ->
  exists utcnow,
    r' !! "output_key" =
      Some (SText (generate_output_key utcnow job_id
                     ("enhanced_" ++ original_filename upload))).
Proof.
  intros Hrow Hr' Hst Hst0.
  destruct (run_prediction_row E polls job_id upload model_name w)
    as (evs & _ & Hpath & Hfinal).
  rewrite (Hfinal r0 Hrow) in Hr'. injection Hr' as <-. clear Hfinal.
  destruct Hpath; cbn [updates_of omap list_omap fold_left snd] in *;
    revert Hst; row_lookup; try discriminate.
  intros _. by exists utcnow.
Qed.

(** * The claims *)

(** C1. The [update_job] calls of a run of the execution unit all address
    the unit's own job, and the statuses they write, in order, form a path
    of the state machine that starts from pending: processing comes first,
    and completed or failed, when written, comes after it and last.  So no
    write moves the status backward and no terminal status is written before
    processing. *)
Theorem C1_status_moves_forward E polls job_id upload model_name w :
  exists evs path,
    trace (_run_prediction E polls job_id upload model_name w).2 = (trace w ++ evs)%list /\
    jobs (_run_prediction E polls job_id upload model_name w).2 =
      apply_updates (updates_of evs) (jobs w) /\
    Forall (fun u => u.1 = job_id) (updates_of evs) /\
    status_writes (updates_of evs) = SText <$> path /\
    forward_path "pending" path /\
    (forall i s, path !! i = Some s -> s = "completed" \/ s = "failed" ->
       exists k, (k < i)%nat /\ path !! k = Some "processing").
Proof.
  destruct (run_prediction_path E polls job_id upload model_name w)
    as (evs & Htrace & Hjobs & Hpath).
  apply run_path_shape in Hpath.
  exists evs.
  assert (Hlast : forall (l : list string) i s,
    l = ["processing"] \/ l = ["processing"; "completed"] \/ l = ["processing"; "failed"] ->
    l !! i = Some s -> s = "completed" \/ s = "failed" ->
    exists k, (k < i)%nat /\ l !! k = Some "processing").
  { intros l i s Hl Hi Hs.
    destruct Hl as [->|[->| ->]]; destruct i as [|[|i]]; cbn in Hi; try done;
      try (injection Hi as <-; by destruct Hs);
      exists 0%nat; (split; [lia|done]). }
  destruct Hpath;
    [ exists ["processing"] | exists ["processing"; "completed"]
    | exists ["processing"; "failed"] | exists ["processing"; "failed"] ];
    (split; [assumption|]); (split; [assumption|]);
    (split; [repeat constructor|]); (split; [reflexivity|]);
    (split; [repeat constructor|]);
    intros i s; apply Hlast; auto.
Qed.


(** C2. When the execution unit of a job has finished, the job's row has
    [output_key] set exactly when its status is completed and
    [error_message] set exactly when its status is failed, provided neither
    was set when the unit started (as [insert_job] leaves them).  The write
    of completed sets [output_key], [output_size], [progress] = 100 and
    [completed_at] and not [error_message]; the write of failed sets
    [error_message] and [completed_at] and not [output_key]; the other writes
    set neither field. *)
Theorem C2_output_and_error_by_status E polls job_id upload model_name w r0 :
  jobs w !! job_id = Some r0 ->
  ~ is_set r0 "output_key" ->
  ~ is_set r0 "error_message" ->
  (_run_prediction E polls job_id upload model_name w).1 = Ok tt ->
  exists evs r',
    trace (_run_prediction E polls job_id upload model_name w).2 = (trace w ++ evs)%list /\
    jobs (_run_prediction E polls job_id upload model_name w).2 !! job_id = Some r' /\
    (r' !! "status" = Some (SText "completed") \/
     r' !! "status" = Some (SText "failed")) /\
    (is_set r' "output_key" <-> r' !! "status" = Some (SText "completed")) /\
    (is_set r' "error_message" <-> r' !! "status" = Some (SText "failed")) /\
    Forall (fun u => write_ok u.2) (updates_of evs).
Proof.
  intros Hrow Hkey Herr Hdone.
  destruct (run_prediction_path E polls job_id upload model_name w)
    as (evs & Htrace & Hjobs & Hpath).
  apply run_path_shape in Hpath.
  pose proof (write_ok_shape _ _ _ Hpath) as Hwrites.
  pose proof (run_shape_own_job _ _ _ Hpath) as Hown.
  exists evs, (fold_left (fun r u => u.2 ∪ r) (updates_of evs) r0).
  split; [exact Htrace|]. split.
  { rewrite Hjobs. apply apply_updates_same; [exact Hown|exact Hrow]. }
  rewrite Hdone in Hpath. clear Hown Hjobs Htrace Hdone.
  remember (updates_of evs) as us eqn:Hus. clear Hus.
  remember (Ok tt) as r eqn:Hr.
  destruct Hpath; try discriminate Hr;
    cbn [fold_left snd]; unfold is_set; row_lookup.
  - split; [by left|]. split; [split; [done|eauto]|]. split; [|exact Hwrites].
    split; [|done]. intros (v & Hv & Hnn). exfalso. apply Herr. by exists v.
  - split; [by right|]. split; [|split; [|exact Hwrites]].
    + split; [|done]. intros (v & Hv & Hnn). exfalso. apply Hkey. by exists v.
    + split; [done|eauto].
  - split; [by right|]. split; [|split; [|exact Hwrites]].
    + split; [|done]. intros (v & Hv & Hnn). exfalso. apply Hkey. by exists v.
    + split; [done|eauto].
Qed.


Lemma C2_witness :
  exists evs r',
    trace (_run_prediction ex_env_ok 5 ex_job_id ex_upload ex_model (ex_world_created true)).2
      = (trace (ex_world_created true) ++ evs)%list /\
    jobs (_run_prediction ex_env_ok 5 ex_job_id ex_upload ex_model (ex_world_created true)).2
      !! ex_job_id = Some r' /\
    (r' !! "status" = Some (SText "completed") \/
     r' !! "status" = Some (SText "failed")) /\
    (is_set r' "output_key" <-> r' !! "status" = Some (SText "completed")) /\
    (is_set r' "error_message" <-> r' !! "status" = Some (SText "failed")) /\
    Forall (fun u => write_ok u.2) (updates_of evs).
Proof.
  apply (C2_output_and_error_by_status ex_env_ok 5 ex_job_id ex_upload ex_model
           (ex_world_created true) ex_row).
  - reflexivity.
  - apply not_set_null. reflexivity.
  - apply not_set_null. reflexivity.
  - reflexivity.
Defined.

(** C3. [create_enhance_job] checks, in this order, that the Upload exists,
    that its status is uploaded, that the credential is configured and that
    the model key resolves.  A call that fails one of the checks raises an
    [EnhanceError] and leaves the world as it was: no job is inserted and no
    task is created; the four messages differ from one another.  A call that
    passes them and draws an id that the table does not hold yet makes one
    call, the INSERT of one job at status pending, and creates one task for
    it; the table then has a row for the job and its other rows are as
    before.  The record it returns is the row of that job as read back in
    the race with the task: it has the id, the upload and the model of the
    job, and its status is pending, or processing, completed or failed when
    the task has written by then; it is the inserted row when the read comes
    before the first write of the task.  A call that passes the checks and draws
    an id that the table holds raises the [IntegrityError] of the INSERT:
    no job is inserted and no task is created. *)
Theorem C3_create_validates_then_inserts E upload_id model_key w :
  ((uploads w !! upload_id = None \/
    (exists u, uploads w !! upload_id = Some u /\ upload_status u <> "uploaded") \/
    REPLICATE_API_TOKEN E = "" \/
    resolve_model model_key = None) ->
   exists msg,
     create_enhance_job E upload_id model_key w = (Raise (EnhanceError msg), w) /\
     msg ∈ [MSG_NOT_FOUND; MSG_NOT_READY; MSG_NO_TOKEN;
            MSG_UNKNOWN_MODEL (py_or model_key DEFAULT_ENHANCE_MODEL)]) /\
  (uploads w !! upload_id = None ->
   create_enhance_job E upload_id model_key w = (Raise (EnhanceError MSG_NOT_FOUND), w)) /\
  (forall u, uploads w !! upload_id = Some u ->
   upload_status u <> "uploaded" ->
   create_enhance_job E upload_id model_key w = (Raise (EnhanceError MSG_NOT_READY), w)) /\
  (forall u, uploads w !! upload_id = Some u ->
   upload_status u = "uploaded" ->
   REPLICATE_API_TOKEN E = "" ->
   create_enhance_job E upload_id model_key w = (Raise (EnhanceError MSG_NO_TOKEN), w)) /\
  (forall u, uploads w !! upload_id = Some u ->
   upload_status u = "uploaded" ->
   REPLICATE_API_TOKEN E <> "" ->
   resolve_model model_key = None ->
   create_enhance_job E upload_id model_key w =
     (Raise (EnhanceError (MSG_UNKNOWN_MODEL (py_or model_key DEFAULT_ENHANCE_MODEL))), w)) /\
  (forall k, NoDup [MSG_NOT_FOUND; MSG_NOT_READY; MSG_NO_TOKEN; MSG_UNKNOWN_MODEL k]) /\
  (forall u model_name, uploads w !! upload_id = Some u ->
   upload_status u = "uploaded" ->
   REPLICATE_API_TOKEN E <> "" ->
   resolve_model model_key = Some model_name ->
   jobs w !! new_job_id E w = None ->
   exists r w' record stored,
     create_enhance_job E upload_id model_key w = (Ok (Some r), w') /\
     trace w' = (trace w ++ [EvInsertJob record])%list /\
     record !! "id" = Some (SText (new_job_id E w)) /\
     record !! "upload_id" = Some (SText upload_id) /\
     record !! "model_name" = Some (SText model_name) /\
     record !! "status" = Some (SText "pending") /\
     jobs w' !! new_job_id E w = Some stored /\
     (forall c, c ∈ ["id"; "upload_id"; "model_name"; "created_at"] ->
        stored !! c = record !! c /\ r !! c = record !! c) /\
     (forall other, other <> new_job_id E w -> jobs w' !! other = jobs w !! other) /\
     (r !! "status" = Some (SText "pending") \/
      r !! "status" = Some (SText "processing") \/
      r !! "status" = Some (SText "completed") \/
      r !! "status" = Some (SText "failed")) /\
     ((task_overlap E (new_job_id E w)).2 = 0%nat -> r = record ∪ JOB_DEFAULTS) /\
     tasks w' = (tasks w ++ [{| task_job_id := new_job_id E w; task_upload := u;
                               task_model_name := model_name |}])%list /\
     uploads w' = uploads w /\ files w' = files w) /\
  (forall u model_name old, uploads w !! upload_id = Some u ->
   upload_status u = "uploaded" ->
   REPLICATE_API_TOKEN E <> "" ->
   resolve_model model_key = Some model_name ->
   jobs w !! new_job_id E w = Some old ->
   (create_enhance_job E upload_id model_key w).1 =
     Raise (Foreign "IntegrityError" "UNIQUE constraint failed: jobs.id") /\
   jobs (create_enhance_job E upload_id model_key w).2 = jobs w /\
   tasks (create_enhance_job E upload_id model_key w).2 = tasks w).
Proof.
  destruct (create_enhance_job_rejects E upload_id model_key w) as (H1 & H2 & H3 & H4).
  split_and!; try assumption.
  - intros Hbad.
    destruct (uploads w !! upload_id) as [u|] eqn:Hup.
    2: { exists MSG_NOT_FOUND. split; [by apply H1|solve [repeat constructor]]. }
    destruct (String.eqb_spec (upload_status u) "uploaded") as [Hst|Hst].
    2: { exists MSG_NOT_READY. split; [by apply (H2 u)|solve [repeat constructor]]. }
    destruct (String.eqb_spec (REPLICATE_API_TOKEN E) "") as [Htok|Htok].
    { exists MSG_NO_TOKEN. split; [by apply (H3 u)|solve [repeat constructor]]. }
    destruct (resolve_model model_key) as [name|] eqn:Hres.
    2: { eexists. split; [by apply (H4 u)|solve [repeat constructor]]. }
    exfalso. destruct Hbad as [Hb|[(u' & Hu' & Hb)|[Hb|Hb]]]; try done.
    by injection Hu' as <-.
  - apply create_messages_distinct.
  - intros u model_name Hup Hst Htok Hres Hfresh.
    destruct (create_enhance_job_ok E upload_id model_key w u model_name Hup Hst Htok Hres
                Hfresh) as (r & Hcall & Hid & Hupl & Hmodel & Hcreated & Hstatus & Hzero).
    exists r, (world_created E upload_id u model_name w),
      (new_job_record (new_job_id E w) upload_id model_name
         (isoformat (clock E (clock_reads w)))),
      (new_job_record (new_job_id E w) upload_id model_name
         (isoformat (clock E (clock_reads w))) ∪ JOB_DEFAULTS).
    split; [exact Hcall|]. unfold world_created. cbn [jobs tasks uploads files trace].
    do 5 (split; [reflexivity|]). split; [apply lookup_insert_eq|]. split.
    { intros c Hc.
      repeat (apply elem_of_cons in Hc as [->|Hc];
              [split; [reflexivity|assumption]|]).
      by apply elem_of_nil in Hc. }
    split; [intros other Hne; by rewrite lookup_insert_ne|].
    split; [exact Hstatus|]. split; [exact Hzero|]. split_and!; reflexivity.
  - intros u model_name old Hup Hst Htok Hres Hold.
    rewrite (create_enhance_job_checked E upload_id model_key w u model_name Hup Hst Htok
               Hres), Hold.
    by destruct w.
Qed.

Lemma C3_witness :
  (exists r w' record stored,
     create_enhance_job ex_env_ok "upl_1" (Some "upscale_premium") (ex_world true)
       = (Ok (Some r), w') /\
     trace w' = (trace (ex_world true) ++ [EvInsertJob record])%list /\
     record !! "id" = Some (SText (new_job_id ex_env_ok (ex_world true))) /\
     record !! "upload_id" = Some (SText "upl_1") /\
     record !! "model_name" = Some (SText "topazlabs/video-upscale") /\
     record !! "status" = Some (SText "pending") /\
     jobs w' !! new_job_id ex_env_ok (ex_world true) = Some stored /\
     (forall c, c ∈ ["id"; "upload_id"; "model_name"; "created_at"] ->
        stored !! c = record !! c /\ r !! c = record !! c) /\
     (forall other, other <> new_job_id ex_env_ok (ex_world true) ->
        jobs w' !! other = jobs (ex_world true) !! other) /\
     (r !! "status" = Some (SText "pending") \/
      r !! "status" = Some (SText "processing") \/
      r !! "status" = Some (SText "completed") \/
      r !! "status" = Some (SText "failed")) /\
     ((task_overlap ex_env_ok (new_job_id ex_env_ok (ex_world true))).2 = 0%nat ->
      r = record ∪ JOB_DEFAULTS) /\
     tasks w' = (tasks (ex_world true) ++
                 [{| task_job_id := new_job_id ex_env_ok (ex_world true);
                     task_upload := ex_upload;
                     task_model_name := "topazlabs/video-upscale" |}])%list /\
     uploads w' = uploads (ex_world true) /\ files w' = files (ex_world true)) /\
  create_enhance_job ex_env_ok "upl_9" None (ex_world true)
    = (Raise (EnhanceError MSG_NOT_FOUND), ex_world true) /\
  create_enhance_job ex_env_ok "upl_1" (Some "denoise") (ex_world true)
    = (Raise (EnhanceError (MSG_UNKNOWN_MODEL "denoise")), ex_world true).
Proof.
  split_and!.
  - apply (C3_create_validates_then_inserts ex_env_ok "upl_1" (Some "upscale_premium")
             (ex_world true)); try reflexivity.
    discriminate.
  - apply (C3_create_validates_then_inserts ex_env_ok "upl_9" None (ex_world true)).
    reflexivity.
  - apply (proj1 (proj2 (proj2 (proj2 (proj2
      (C3_create_validates_then_inserts ex_env_ok "upl_1" (Some "denoise") (ex_world true))))))
      ex_upload); try reflexivity.
    discriminate.
Defined.

(** Two calls that pass the four checks.  The first draws the id of a job
    that the table holds (the generator of the example repeats itself): it
    raises, and inserts and schedules nothing.  The second is read back
    after the first write of its task: the record returned is at
    processing, not at pending. *)
Lemma C3_counterexample :
  (uploads (ex_world_created true) !! "upl_1" = Some ex_upload /\
   upload_status ex_upload = "uploaded" /\
   resolve_model None = Some ex_model /\
   (create_enhance_job ex_env_ok "upl_1" None (ex_world_created true)).1 =
     Raise (Foreign "IntegrityError" "UNIQUE constraint failed: jobs.id") /\
   jobs (create_enhance_job ex_env_ok "upl_1" None (ex_world_created true)).2 =
     jobs (ex_world_created true) /\
   tasks (create_enhance_job ex_env_ok "upl_1" None (ex_world_created true)).2 =
     tasks (ex_world_created true)) /\
  exists r,
    (create_enhance_job ex_env_racing "upl_1" None (ex_world true)).1 = Ok (Some r) /\
    r !! "status" = Some (SText "processing").
Proof.
  split.
  - split; [reflexivity|]. split; [reflexivity|]. split; [reflexivity|].
    rewrite (create_enhance_job_checked ex_env_ok "upl_1" None (ex_world_created true)
               ex_upload ex_model eq_refl eq_refl ltac:(discriminate) eq_refl).
    change (jobs (ex_world_created true) !! new_job_id ex_env_ok (ex_world_created true))
      with (Some ex_row).
    cbv beta iota. cbn [fst snd jobs tasks set_trace set_clock_reads set_uuid_reads].
    split; [reflexivity|]. split; reflexivity.
  - rewrite (create_enhance_job_checked ex_env_racing "upl_1" None (ex_world true)
               ex_upload ex_model eq_refl eq_refl ltac:(discriminate) eq_refl).
    change (jobs (ex_world true) !! new_job_id ex_env_racing (ex_world true))
      with (@None row).
    eexists. split; [reflexivity|]. reflexivity.
Qed.

(** C10. A call of [create_enhance_job] without a model key, for an
    uploaded video and with the credential configured, uses the default key:
    the registry maps it to lucataco/real-esrgan-video, the call raises no
    unknown-model error, and when the id it draws is new the record it
    returns, the job it stores and the task it creates carry that model
    name. *)
Theorem C10_default_model_resolves E upload_id w u :
  uploads w !! upload_id = Some u ->
  upload_status u = "uploaded" ->
  REPLICATE_API_TOKEN E <> "" ->
  assoc DEFAULT_ENHANCE_MODEL REPLICATE_MODELS = Some "lucataco/real-esrgan-video" /\
  (forall k, (create_enhance_job E upload_id None w).1
             <> Raise (EnhanceError (MSG_UNKNOWN_MODEL k))) /\
  (jobs w !! new_job_id E w = None ->
   exists r stored w',
     create_enhance_job E upload_id None w = (Ok (Some r), w') /\
     r !! "model_name" = Some (SText "lucataco/real-esrgan-video") /\
     jobs w' !! new_job_id E w = Some stored /\
     stored !! "model_name" = Some (SText "lucataco/real-esrgan-video") /\
     tasks w' = (tasks w ++ [{| task_job_id := new_job_id E w; task_upload := u;
                               task_model_name := "lucataco/real-esrgan-video" |}])%list).
Proof.
  intros Hup Hst Htok. split; [reflexivity|].
  assert (Hres : resolve_model None = Some "lucataco/real-esrgan-video") by reflexivity.
  split.
  - intros k.
    rewrite (create_enhance_job_checked E upload_id None w u _ Hup Hst Htok Hres).
    destruct (jobs w !! new_job_id E w); cbn [fst get_job_racing]; discriminate.
  - intros Hfresh.
    destruct (create_enhance_job_ok E upload_id None w u _ Hup Hst Htok Hres Hfresh)
      as (r & Hcall & _ & _ & Hmodel & _).
    exists r. eexists. eexists. split; [exact Hcall|]. split; [exact Hmodel|].
    unfold world_created. cbn [jobs tasks].
    split; [apply lookup_insert_eq|]. split; reflexivity.
Qed.

Lemma C10_witness :
  assoc DEFAULT_ENHANCE_MODEL REPLICATE_MODELS = Some "lucataco/real-esrgan-video" /\
  (forall k, (create_enhance_job ex_env_ok "upl_1" None (ex_world true)).1
             <> Raise (EnhanceError (MSG_UNKNOWN_MODEL k))) /\
  (jobs (ex_world true) !! new_job_id ex_env_ok (ex_world true) = None ->
   exists r stored w',
     create_enhance_job ex_env_ok "upl_1" None (ex_world true) = (Ok (Some r), w') /\
     r !! "model_name" = Some (SText "lucataco/real-esrgan-video") /\
     jobs w' !! new_job_id ex_env_ok (ex_world true) = Some stored /\
     stored !! "model_name" = Some (SText "lucataco/real-esrgan-video") /\
     tasks w' = (tasks (ex_world true) ++
                 [{| task_job_id := new_job_id ex_env_ok (ex_world true);
                     task_upload := ex_upload;
                     task_model_name := "lucataco/real-esrgan-video" |}])%list).
Proof.
  apply (C10_default_model_resolves ex_env_ok "upl_1" (ex_world true) ex_upload).
  - reflexivity.
  - reflexivity.
  - discriminate.
Defined.




(** C9. [_submit_prediction] chooses the input by a substring test on the
    model name.  For a file that exists, the one submission it makes carries
    [{video_path, scale}] with [scale] the default factor 2 when the name
    contains real-esrgan, and [{video}] for every other name, whether it
    contains topazlabs or matches no family: the shape that the premium
    model topazlabs/video-upscale gets. *)
Theorem C9_submission_input_by_model_name E model_name file_path w :
  is_Some (files w !! file_path) ->
  exists input,
    trace (_submit_prediction E model_name file_path w).2
      = (trace w ++ [EvSubmit model_name input])%list /\
    (Contains "real-esrgan" model_name ->
     input = [("video_path", InFile file_path); ("scale", InInt DEFAULT_SCALE_FACTOR)]) /\
    (~ Contains "real-esrgan" model_name ->
     input = [("video", InFile file_path)]) /\
    DEFAULT_SCALE_FACTOR = 2 /\
    trace (_submit_prediction E "topazlabs/video-upscale" file_path w).2
      = (trace w ++ [EvSubmit "topazlabs/video-upscale" [("video", InFile file_path)]])%list.
Proof.
  intros Hf. exists (submit_input model_name (InFile file_path)).
  rewrite !submit_eq by exact Hf. cbn [snd].
  destruct w as [ups jbs fls tsk trc cr ur]. cbn [trace set_trace].
  split_and!; try reflexivity.
  - intros Hc. apply contains_spec in Hc. unfold submit_input. by rewrite Hc.
  - intros Hc. unfold submit_input.
    destruct (contains "real-esrgan" model_name) eqn:Hb; [|reflexivity].
    apply contains_spec in Hb. contradiction.
Qed.

Lemma C9_witness :
  exists input,
    trace (_submit_prediction ex_env_ok "acme/real-esrgan-x4" ex_src (ex_world true)).2
      = (trace (ex_world true) ++ [EvSubmit "acme/real-esrgan-x4" input])%list /\
    (Contains "real-esrgan" "acme/real-esrgan-x4" ->
     input = [("video_path", InFile ex_src); ("scale", InInt DEFAULT_SCALE_FACTOR)]) /\
    (~ Contains "real-esrgan" "acme/real-esrgan-x4" ->
     input = [("video", InFile ex_src)]) /\
    DEFAULT_SCALE_FACTOR = 2 /\
    trace (_submit_prediction ex_env_ok "topazlabs/video-upscale" ex_src (ex_world true)).2
      = (trace (ex_world true)
         ++ [EvSubmit "topazlabs/video-upscale" [("video", InFile ex_src)]])%list.
Proof.
  apply (C9_submission_input_by_model_name ex_env_ok "acme/real-esrgan-x4" ex_src
           (ex_world true)).
  eexists. reflexivity.
Defined.

(** C8. When the source file of the Upload is not on disk, the run of the
    execution unit makes two calls only, the write of processing and the
    write of failed with the message Source video not found in storage: it
    submits nothing, waits for nothing and downloads nothing, and the job's
    row ends at failed with that message. *)
Theorem C8_source_missing E polls job_id upload model_name w :
  files w !! get_file_path (STORAGE_DIR E) (storage_key upload) = None ->
  (_run_prediction E polls job_id upload model_name w).1 = Ok tt /\
  (exists t t',
     trace (_run_prediction E polls job_id upload model_name w).2 =
       (trace w ++
        [EvUpdateJob job_id (processing_fields t);
         EvUpdateJob job_id (failed_fields "Source video not found in storage" t')])%list) /\
  (forall ev, ev ∈ drop (length (trace w))
                     (trace (_run_prediction E polls job_id upload model_name w).2) ->
     match ev with
     | EvSubmit _ _ | EvWait _ | EvDownload _ _ => False
     | _ => True
     end) /\
  files (_run_prediction E polls job_id upload model_name w).2 = files w /\
  (forall r0, jobs w !! job_id = Some r0 ->
     exists r',
       jobs (_run_prediction E polls job_id upload model_name w).2 !! job_id = Some r' /\
       r' !! "status" = Some (SText "failed") /\
       r' !! "error_message" = Some (SText "Source video not found in storage") /\
       r' !! "replicate_id" = r0 !! "replicate_id").
Proof.
  intros Hmiss.
  assert (Hrun : exists t t',
    _run_prediction E polls job_id upload model_name w =
      (Ok tt,
       {| uploads := uploads w;
          jobs := apply_updates
                    [(job_id, processing_fields t);
                     (job_id, failed_fields "Source video not found in storage" t')]
                    (jobs w);
          files := files w; tasks := tasks w;
          trace := trace w ++
            [EvUpdateJob job_id (processing_fields t);
             EvUpdateJob job_id (failed_fields "Source video not found in storage" t')];
          clock_reads := S (S (clock_reads w)); uuid_reads := uuid_reads w |})).
  { destruct w as [ups jbs fls tsk trc cr ur]. cbn [files] in Hmiss. mred.
    rewrite bool_decide_eq_false_2 by (rewrite Hmiss; by intros [? ?]).
    mred. rewrite <- app_assoc.
    exists (isoformat (clock E cr)), (isoformat (clock E (S cr))).
    unfold processing_fields, failed_fields, apply_updates. reflexivity. }
  destruct Hrun as (t & t' & Hrun). rewrite Hrun. cbn [fst snd trace files jobs].
  split_and!.
  - reflexivity.
  - by exists t, t'.
  - rewrite drop_app_length. intros ev Hev.
    apply elem_of_cons in Hev as [->|Hev]; [exact I|].
    apply elem_of_cons in Hev as [->|Hev]; [exact I|].
    by apply elem_of_nil in Hev.
  - reflexivity.
  - intros r0 Hrow. eexists. split.
    { apply apply_updates_same; [repeat constructor|exact Hrow]. }
    cbn [fold_left snd]. split_and!; row_lookup; reflexivity.
Qed.

Lemma C8_witness :
  (_run_prediction ex_env_ok 5 ex_job_id ex_upload ex_model (ex_world_created false)).1
    = Ok tt /\
  (exists t t',
     trace (_run_prediction ex_env_ok 5 ex_job_id ex_upload ex_model
              (ex_world_created false)).2 =
       (trace (ex_world_created false) ++
        [EvUpdateJob ex_job_id (processing_fields t);
         EvUpdateJob ex_job_id
           (failed_fields "Source video not found in storage" t')])%list) /\
  (forall ev, ev ∈ drop (length (trace (ex_world_created false)))
                     (trace (_run_prediction ex_env_ok 5 ex_job_id ex_upload ex_model
                               (ex_world_created false)).2) ->
     match ev with
     | EvSubmit _ _ | EvWait _ | EvDownload _ _ => False
     | _ => True
     end) /\
  files (_run_prediction ex_env_ok 5 ex_job_id ex_upload ex_model
           (ex_world_created false)).2 = files (ex_world_created false) /\
  (forall r0, jobs (ex_world_created false) !! ex_job_id = Some r0 ->
     exists r',
       jobs (_run_prediction ex_env_ok 5 ex_job_id ex_upload ex_model
               (ex_world_created false)).2 !! ex_job_id = Some r' /\
       r' !! "status" = Some (SText "failed") /\
       r' !! "error_message" = Some (SText "Source video not found in storage") /\
       r' !! "replicate_id" = r0 !! "replicate_id").
Proof.
  apply (C8_source_missing ex_env_ok 5 ex_job_id ex_upload ex_model (ex_world_created false)).
  reflexivity.
Defined.

(** C5. [_wait_for_prediction] calls [prediction.wait()] without a bound and
    does not read JOB_MAX_WAIT_SEC.  When the prediction has not reached a
    terminal state at any reload, the run of the unit is still blocked after
    every number of polls, also after more than JOB_MAX_WAIT_SEC /
    JOB_POLL_INTERVAL_SEC = 120 of them: no timeout error is raised, the job
    stays at processing, and neither an error message nor a completion time
    is written. *)
Theorem C5_wait_has_no_timeout E job_id upload model_name w p r0 polls :
  is_Some (files w !! get_file_path (STORAGE_DIR E) (storage_key upload)) ->
  predictions_create E model_name
    (submit_input model_name (InFile (get_file_path (STORAGE_DIR E) (storage_key upload))))
    = inr p ->
  terminal_status (pred_status p) = false ->
  (forall k, exists p',
     predictions_reload E (pred_id p) k = inr p' /\
     pred_id p' = pred_id p /\ terminal_status (pred_status p') = false) ->
  jobs w !! job_id = Some r0 ->
  JOB_MAX_WAIT_SEC < Z.of_nat polls * JOB_POLL_INTERVAL_SEC ->
  _wait_for_prediction E polls p w
    = (Blocked, set_trace (trace w ++ [EvWait (pred_id p)]) w) /\
  (_run_prediction E polls job_id upload model_name w).1 = Blocked /\
  exists r',
    jobs (_run_prediction E polls job_id upload model_name w).2 !! job_id = Some r' /\
    r' !! "status" = Some (SText "processing") /\
    r' !! "error_message" = r0 !! "error_message" /\
    r' !! "completed_at" = r0 !! "completed_at".
Proof.
  intros Hsrc Hcreate Hp Hreload Hrow _.
  pose proof (wait_never_returns E p Hp Hreload polls 0) as Hwait.
  split.
  { unfold _wait_for_prediction, bind, log. by rewrite Hwait. }
  destruct (run_blocked E polls job_id upload model_name w p r0 Hsrc Hcreate Hwait Hrow)
    as (Hres & r' & Hr' & Hst & _ & Herr & Hdone).
  split; [exact Hres|]. by exists r'.
Qed.

Lemma C5_witness :
  _wait_for_prediction ex_env_stuck 121 (ex_prediction "starting" PyNone)
      (ex_world_created true)
    = (Blocked,
       set_trace (trace (ex_world_created true) ++ [EvWait "p1"]) (ex_world_created true)) /\
  (_run_prediction ex_env_stuck 121 ex_job_id ex_upload ex_model (ex_world_created true)).1
    = Blocked /\
  exists r',
    jobs (_run_prediction ex_env_stuck 121 ex_job_id ex_upload ex_model
            (ex_world_created true)).2 !! ex_job_id = Some r' /\
    r' !! "status" = Some (SText "processing") /\
    r' !! "error_message" = ex_row !! "error_message" /\
    r' !! "completed_at" = ex_row !! "completed_at".
Proof.
  apply (C5_wait_has_no_timeout ex_env_stuck ex_job_id ex_upload ex_model
           (ex_world_created true) (ex_prediction "starting" PyNone) ex_row 121).
  - eexists. reflexivity.
  - reflexivity.
  - reflexivity.
  - intros k. eexists. split_and!; reflexivity.
  - reflexivity.
  - reflexivity.
Defined.
(** C6. The download fails when the response has a status outside 2xx,
    with an [HTTPStatusError] and before any byte is written, and when the
    stream is interrupted, with the stream's own error and the chunks
    received so far left in the file; each failure ends the job at failed
    with the error's text.  A download whose stream ends without error
    returns the number of bytes written, whatever it is: with zero bytes
    written it returns 0, leaves an empty file, and the job ends at
    completed with [output_size] = 0. *)
Theorem C6_download_outcomes E url output_key w resp :
  http_stream E url = Responds resp ->
  (is_success (status_code resp) = false ->
   (_download_output E url output_key w).1
     = Raise (Foreign "HTTPStatusError" (status_error_text resp)) /\
   files (_download_output E url output_key w).2 = files w) /\
  (forall e, is_success (status_code resp) = true -> stream_error resp = Some e ->
   (_download_output E url output_key w).1 = Raise e /\
   files (_download_output E url output_key w).2
     !! get_file_path (STORAGE_DIR E) output_key = Some (concat (chunks resp))) /\
  (is_success (status_code resp) = true -> stream_error resp = None ->
   (_download_output E url output_key w).1 = Ok (total_len (chunks resp)) /\
   files (_download_output E url output_key w).2
     !! get_file_path (STORAGE_DIR E) output_key = Some (concat (chunks resp))) /\
  (forall polls job_id upload model_name w0 p result r0,
   is_Some (files w0 !! get_file_path (STORAGE_DIR E) (storage_key upload)) ->
   predictions_create E model_name
     (submit_input model_name
        (InFile (get_file_path (STORAGE_DIR E) (storage_key upload)))) = inr p ->
   prediction_wait E polls 0 p = Ok result ->
   pred_status result <> "failed" ->
   pred_status result <> "canceled" ->
   py_truthy (_extract_output_url E result) = true ->
   _extract_output_url E result = url ->
   jobs w0 !! job_id = Some r0 ->
   exists r',
     jobs (_run_prediction E polls job_id upload model_name w0).2 !! job_id = Some r' /\
     (is_success (status_code resp) = false ->
      r' !! "status" = Some (SText "failed") /\
      r' !! "error_message" = Some (SText (status_error_text resp))) /\
     (forall e, is_success (status_code resp) = true -> stream_error resp = Some e ->
      r' !! "status" = Some (SText "failed") /\
      r' !! "error_message" = Some (SText (exn_str e))) /\
     (is_success (status_code resp) = true -> stream_error resp = None ->
      r' !! "status" = Some (SText "completed") /\
      r' !! "output_size" = Some (SInt (total_len (chunks resp))))).
Proof.
  intros Hresp. rewrite download_eq, Hresp. cbv zeta.
  split_and!.
  - intros ->. destruct w; split; reflexivity.
  - intros e -> ->. cbn [fst snd]. split; [reflexivity|].
    destruct w as [ups jbs fls tsk trc cr ur]. cbn [files set_files set_trace].
    by rewrite lookup_insert_eq.
  - intros -> ->. cbn [fst snd]. split; [reflexivity|].
    destruct w as [ups jbs fls tsk trc cr ur]. cbn [files set_files set_trace].
    by rewrite lookup_insert_eq.
  - intros polls job_id upload model_name w0 p result r0
      Hsrc Hcreate Hwait Hnf Hnc Htruthy Hurl Hrow.
    destruct (run_download E polls job_id upload model_name w0 p result r0)
      as (_ & r' & Hr' & Hend); try assumption.
    rewrite Hurl, (download_result_responds E url resp Hresp) in Hend.
    exists r'. split; [exact Hr'|].
    destruct (is_success (status_code resp)).
    + destruct (stream_error resp) as [e|].
      * split_and!; [discriminate| |discriminate].
        intros e' _ He'. injection He' as <-. by destruct Hend as (? & ? & _).
      * split_and!; [discriminate|discriminate|].
        intros _ _. by destruct Hend as (? & ? & _).
    + split_and!; [|discriminate..].
      intros _. by destruct Hend as (? & ? & _).
Qed.

Lemma C6_counterexample :
  (_download_output ex_env_empty (PyStr ex_url) "outputs/out.mp4" (ex_world true)).1 = Ok 0 /\
  files (_download_output ex_env_empty (PyStr ex_url) "outputs/out.mp4" (ex_world true)).2
    !! "/srv/storage/outputs/out.mp4" = Some [] /\
  (_run_prediction ex_env_empty 5 ex_job_id ex_upload ex_model (ex_world_created true)).1
    = Ok tt /\
  exists r',
    jobs (_run_prediction ex_env_empty 5 ex_job_id ex_upload ex_model
            (ex_world_created true)).2 !! ex_job_id = Some r' /\
    r' !! "status" = Some (SText "completed") /\
    r' !! "output_size" = Some (SInt 0) /\
    r' !! "error_message" = Some SNull.
Proof.
  assert (Hrun : _) by
    (refine (run_download ex_env_empty 5 ex_job_id ex_upload ex_model (ex_world_created true)
               (ex_prediction "starting" PyNone)
               (ex_prediction "succeeded" (PyList [PyStr ex_url])) ex_row
               _ eq_refl eq_refl _ _ eq_refl eq_refl);
     [eexists; reflexivity|discriminate|discriminate]).
  destruct Hrun as (Hdone & r' & Hr' & Hend).
  assert (Hd : download_result ex_env_empty
                 (_extract_output_url ex_env_empty
                    (ex_prediction "succeeded" (PyList [PyStr ex_url]))) = Ok 0)
    by reflexivity.
  rewrite Hd in Hend. destruct Hend as (Hst & Hsize & Herr & _).
  split; [reflexivity|]. split; [reflexivity|]. split; [exact Hdone|].
  exists r'. split; [exact Hr'|]. split; [exact Hst|]. split; [exact Hsize|].
  rewrite Herr. reflexivity.
Qed.

Lemma C6_witness :
  ((_download_output ex_env_500 (PyStr ex_url) "outputs/out.mp4" (ex_world true)).1
     = Raise (Foreign "HTTPStatusError" "Server error '500 Internal Server Error'") /\
   files (_download_output ex_env_500 (PyStr ex_url) "outputs/out.mp4" (ex_world true)).2
     = files (ex_world true)) /\
  ((_download_output ex_env_broken (PyStr ex_url) "outputs/out.mp4" (ex_world true)).1
     = Raise (Foreign "ReadError" "connection reset") /\
   files (_download_output ex_env_broken (PyStr ex_url) "outputs/out.mp4" (ex_world true)).2
     !! "/srv/storage/outputs/out.mp4" = Some [Byte.x00]) /\
  ((_download_output ex_env_empty (PyStr ex_url) "outputs/out.mp4" (ex_world true)).1
     = Ok 0 /\
   files (_download_output ex_env_empty (PyStr ex_url) "outputs/out.mp4" (ex_world true)).2
     !! "/srv/storage/outputs/out.mp4" = Some []).
Proof.
  split; [|split].
  - apply (proj1
      (C6_download_outcomes ex_env_500 (PyStr ex_url) "outputs/out.mp4" (ex_world true)
         (ex_response 500 [] None) eq_refl)); reflexivity.
  - apply (proj1 (proj2
      (C6_download_outcomes ex_env_broken (PyStr ex_url) "outputs/out.mp4" (ex_world true)
         (ex_response 200 [[Byte.x00]] (Some (Foreign "ReadError" "connection reset")))
         eq_refl))); reflexivity.
  - apply (proj1 (proj2 (proj2
      (C6_download_outcomes ex_env_empty (PyStr ex_url) "outputs/out.mp4" (ex_world true)
         (ex_response 200 [] None) eq_refl)))); reflexivity.
Defined.

(** C7. The output key is generated from the UTC date of the call, the
    job's id and the file name: calls on the same date with the same
    arguments return the same key, which is outputs/YYYY/MM/DD/ followed by
    the job id, an underscore and the sanitized file name.  For the name that
    [_run_prediction] passes, the key contains the job id and enhanced_
    followed by the sanitized original file name, which is the original file
    name itself when that has only alphanumeric characters and [.], [_],
    [-]; and the [output_key] of a job that the unit completes is such a
    key. *)
Theorem C7_output_key_derivation now job_id original :
  (forall now', year now' = year now -> month now' = month now -> day now' = day now ->
   generate_output_key now' job_id ("enhanced_" ++ original)
     = generate_output_key now job_id ("enhanced_" ++ original)) /\
  generate_output_key now job_id ("enhanced_" ++ original)
    = ("outputs/" ++ pretty (year now) ++ "/" ++ pad0 2 (month now) ++ "/" ++
       pad0 2 (day now) ++ "/") ++ job_id ++ "_enhanced_" ++ sanitize original /\
  Contains job_id (generate_output_key now job_id ("enhanced_" ++ original)) /\
  Contains ("enhanced_" ++ sanitize original)
    (generate_output_key now job_id ("enhanced_" ++ original)) /\
  (is_safe_name original = true ->
   Contains ("enhanced_" ++ original)
     (generate_output_key now job_id ("enhanced_" ++ original))) /\
  (forall E polls upload model_name w r0 r',
   original_filename upload = original ->
   jobs w !! job_id = Some r0 ->
   r0 !! "status" <> Some (SText "completed") ->
   jobs (_run_prediction E polls job_id upload model_name w).2 !! job_id = Some r' ->
   r' !! "status" = Some (SText "completed") ->
   exists utcnow,
     r' !! "output_key"
       = Some (SText (generate_output_key utcnow job_id ("enhanced_" ++ original)))).
Proof.
  assert (Hkey : generate_output_key now job_id ("enhanced_" ++ original)
    = ("outputs/" ++ pretty (year now) ++ "/" ++ pad0 2 (month now) ++ "/" ++
       pad0 2 (day now) ++ "/") ++ job_id ++ "_enhanced_" ++ sanitize original).
  { unfold generate_output_key. cbv zeta. rewrite sanitize_app.
    change (sanitize "enhanced_") with "enhanced_".
    rewrite !append_assoc. reflexivity. }
  assert (Hsub : Contains ("enhanced_" ++ sanitize original)
    (generate_output_key now job_id ("enhanced_" ++ original))).
  { rewrite Hkey.
    exists (("outputs/" ++ pretty (year now) ++ "/" ++ pad0 2 (month now) ++ "/" ++
             pad0 2 (day now) ++ "/") ++ job_id ++ "_"), "".
    rewrite append_nil_r, !append_assoc. reflexivity. }
  split_and!.
  - intros now' Hy Hm Hd. unfold generate_output_key. by rewrite Hy, Hm, Hd.
  - exact Hkey.
  - rewrite Hkey. apply Contains_intro.
  - exact Hsub.
  - intros Hsafe. by rewrite (sanitize_safe original Hsafe) in Hsub.
  - intros E polls upload model_name w r0 r' <- Hrow Hst0 Hr' Hst.
    by apply (run_completed_key E polls job_id upload model_name w r0 r').
Qed.

Lemma C7_counterexample :
  (generate_output_key (ex_date 7 0) "job_1" "enhanced_clip.mp4"
     = "outputs/2026/03/07/job_1_enhanced_clip.mp4" /\
   generate_output_key (ex_date 8 0) "job_1" "enhanced_clip.mp4"
     = "outputs/2026/03/08/job_1_enhanced_clip.mp4" /\
   generate_output_key (ex_date 7 0) "job_1" "enhanced_clip.mp4"
     <> generate_output_key (ex_date 8 0) "job_1" "enhanced_clip.mp4") /\
  (generate_output_key (ex_date 7 0) "job_1" "enhanced_my clip.mp4"
     = "outputs/2026/03/07/job_1_enhanced_my_clip.mp4" /\
   ~ Contains "enhanced_my clip.mp4"
       (generate_output_key (ex_date 7 0) "job_1" "enhanced_my clip.mp4")).
Proof.
  split_and!; try reflexivity.
  - discriminate.
  - intros Hc. apply contains_spec in Hc. discriminate Hc.
Qed.

Lemma C7_witness :
  Contains ("enhanced_" ++ "clip.mp4")
    (generate_output_key (ex_date 7 0) ex_job_id ("enhanced_" ++ "clip.mp4")) /\
  generate_output_key (ex_date 7 30) ex_job_id ("enhanced_" ++ "clip.mp4")
    = generate_output_key (ex_date 7 0) ex_job_id ("enhanced_" ++ "clip.mp4") /\
  exists r' utcnow,
    jobs (_run_prediction ex_env_ok 5 ex_job_id ex_upload ex_model
            (ex_world_created true)).2 !! ex_job_id = Some r' /\
    r' !! "output_key"
      = Some (SText (generate_output_key utcnow ex_job_id ("enhanced_" ++ "clip.mp4"))).
Proof.
  destruct (C7_output_key_derivation (ex_date 7 0) ex_job_id "clip.mp4")
    as (Hdate & _ & _ & _ & Hsafe & Hrun).
  split; [|split].
  - apply Hsafe. reflexivity.
  - apply Hdate; reflexivity.
  - assert (Hdl : _) by
      (refine (run_download ex_env_ok 5 ex_job_id ex_upload ex_model (ex_world_created true)
                 (ex_prediction "starting" PyNone)
                 (ex_prediction "succeeded" (PyList [PyStr ex_url])) ex_row
                 _ eq_refl eq_refl _ _ eq_refl eq_refl);
       [eexists; reflexivity|discriminate|discriminate]).
    destruct Hdl as (_ & r' & Hr' & Hend).
    assert (Hd : download_result ex_env_ok
                   (_extract_output_url ex_env_ok
                      (ex_prediction "succeeded" (PyList [PyStr ex_url]))) = Ok 2)
      by reflexivity.
    rewrite Hd in Hend. destruct Hend as (Hst & _).
    destruct (Hrun ex_env_ok 5%nat ex_upload ex_model (ex_world_created true) ex_row r')
      as [utcnow Hkey].
    + reflexivity.
    + reflexivity.
    + discriminate.
    + exact Hr'.
    + exact Hst.
    + exists r', utcnow. split; [exact Hr'|exact Hkey].
Defined.

(** * Further properties of the code *)

(** ** storage.py *)

Lemma safe_char_is_safe c :
  isalnum (safe_char c) || contains (String (safe_char c) "") "._-" = true.
Proof.
  unfold safe_char.
  destruct (isalnum c || contains (String c "") "._-") eqn:Hc; [exact Hc|reflexivity].
Qed.

Lemma safe_name_no_char c (s : string) :
  isalnum c || contains (String c "") "._-" = false ->
  is_safe_name s = true ->
  contains (String c "") s = false.
Proof.
  intros Hc. induction s as [|x s IH]; [reflexivity|].
  cbn [is_safe_name]. rewrite andb_true_iff. intros [Hx Hs].
  cbn [contains is_prefix]. rewrite (IH Hs), orb_false_r.
  destruct (Ascii.eqb_spec c x) as [->|Hne]; [congruence|reflexivity].
Qed.

(** X1. The name that [generate_storage_key] and [generate_output_key] put
    into a key has only alphanumeric characters and [.], [_], [-], whatever
    the file name was: it has the length of the file name, no slash and no
    backslash, and sanitizing it again changes nothing. *)
Theorem sanitize_yields_safe_name filename :
  is_safe_name (sanitize filename) = true /\
  String.length (sanitize filename) = String.length filename /\
  sanitize (sanitize filename) = sanitize filename /\
  contains "/" (sanitize filename) = false /\
  contains "\" (sanitize filename) = false /\
  contains " " (sanitize filename) = false.
Proof.
  assert (Hsafe : is_safe_name (sanitize filename) = true).
  { induction filename as [|c s IH]; [reflexivity|].
    cbn [sanitize is_safe_name]. by rewrite safe_char_is_safe, IH. }
  split_and!.
  - exact Hsafe.
  - clear Hsafe. induction filename as [|c s IH]; [reflexivity|].
    change (S (String.length (sanitize s)) = S (String.length s)). by rewrite IH.
  - by apply sanitize_safe.
  - by apply safe_name_no_char.
  - by apply safe_name_no_char.
  - by apply safe_name_no_char.
Qed.

Lemma get_file_path_dot_slash dir k :
  is_prefix "/" k = false ->
  get_file_path dir ("./" ++ k) = get_file_path dir k.
Proof.
  intros Hrel. unfold get_file_path. rewrite Hrel.
  change (is_prefix "/" ("./" ++ k)) with false.
  change (path_parts ("./" ++ k)) with (path_parts k). reflexivity.
Qed.

(** X2. [save_bytes] returns the number of bytes it was given and leaves
    them in the file at the path of the key; the file then exists, the files
    at other paths are as before, and [delete_file] removes it.
    [delete_file] of a key that has no file changes nothing and raises
    nothing, and never touches the file at another path.  Keys that the
    join renders as one path name one file: what is saved under [./k] is
    found under [k], and [delete_file] of [./k] removes the file of [k]. *)
Theorem save_then_delete E storage_key data w :
  (save_bytes E storage_key data w).1 = Ok (Z.of_nat (length data)) /\
  files (save_bytes E storage_key data w).2
    !! get_file_path (STORAGE_DIR E) storage_key = Some data /\
  (file_exists E storage_key (save_bytes E storage_key data w).2).1 = Ok true /\
  (forall path, path <> get_file_path (STORAGE_DIR E) storage_key ->
   files (save_bytes E storage_key data w).2 !! path = files w !! path) /\
  (file_exists E storage_key
     (delete_file E storage_key (save_bytes E storage_key data w).2).2).1 = Ok false /\
  ((file_exists E storage_key w).1 = Ok false ->
   delete_file E storage_key w = (Ok tt, w)) /\
  (forall path, path <> get_file_path (STORAGE_DIR E) storage_key ->
   files (delete_file E storage_key w).2 !! path = files w !! path) /\
  (is_prefix "/" storage_key = false ->
   files (save_bytes E ("./" ++ storage_key) data w).2
     !! get_file_path (STORAGE_DIR E) storage_key = Some data /\
   (file_exists E storage_key
      (delete_file E ("./" ++ storage_key) (save_bytes E storage_key data w).2).2).1
     = Ok false).
Proof.
  set (path := get_file_path (STORAGE_DIR E) storage_key).
  assert (Hfiles : forall f w0, files (set_files f w0) = f) by (by intros f []).
  assert (Hsave : forall k, save_bytes E k data w
    = (Ok (Z.of_nat (length data)),
       set_files (<[get_file_path (STORAGE_DIR E) k := data]> (files w)) w))
    by reflexivity.
  assert (Hdel : forall k w0, is_Some (files w0 !! get_file_path (STORAGE_DIR E) k) ->
    delete_file E k w0
      = (Ok tt, set_files (delete (get_file_path (STORAGE_DIR E) k) (files w0)) w0)).
  { intros k w0 H. unfold delete_file, bind, path_exists. cbv zeta.
    by rewrite bool_decide_eq_true_2. }
  assert (Hkeep : forall w0, files w0 !! path = None ->
    delete_file E storage_key w0 = (Ok tt, w0)).
  { intros w0 H. unfold delete_file, bind, path_exists. cbv zeta. fold path.
    rewrite bool_decide_eq_false_2; [done|]. rewrite H. by intros [? ?]. }
  assert (Hex : forall k w0, (file_exists E k w0).1
    = Ok (bool_decide (is_Some (files w0 !! get_file_path (STORAGE_DIR E) k))))
    by reflexivity.
  rewrite !Hsave. cbn [fst snd]. rewrite !Hex, !Hfiles. fold path.
  split_and!.
  - reflexivity.
  - by rewrite lookup_insert_eq.
  - f_equal. apply bool_decide_eq_true_2. rewrite lookup_insert_eq. by eexists.
  - intros other Hne. by rewrite lookup_insert_ne by auto.
  - rewrite Hdel by (rewrite Hfiles; fold path; rewrite lookup_insert_eq; by eexists).
    cbn [snd]. rewrite !Hfiles. fold path. rewrite lookup_delete_eq. reflexivity.
  - intros Hno. injection Hno as Hno. apply bool_decide_eq_false_1 in Hno.
    apply Hkeep. by apply eq_None_not_Some.
  - intros other Hne. destruct (files w !! path) as [old|] eqn:Hp.
    + rewrite Hdel by (fold path; rewrite Hp; by eexists). cbn [snd].
      rewrite Hfiles. fold path. by rewrite lookup_delete_ne by auto.
    + by rewrite Hkeep.
  - intros Hrel. pose proof (get_file_path_dot_slash (STORAGE_DIR E) storage_key Hrel) as Hdot.
    fold path in Hdot. split.
    + rewrite Hdot. by rewrite lookup_insert_eq.
    + rewrite Hdel by (rewrite Hfiles, Hdot, lookup_insert_eq; by eexists).
      cbn [snd]. rewrite !Hfiles, Hdot, lookup_delete_eq. reflexivity.
Qed.

Lemma read_chunks_eq dest reads : forall total w,
  read_chunks dest reads total w =
    (Ok (total + total_len (until_empty reads)),
     match until_empty reads with
     | [] => w
     | cs => set_files (<[dest := (default [] (files w !! dest) ++ concat cs)%list]> (files w)) w
     end).
Proof.
  unfold total_len.
  induction reads as [|c reads IH]; intros total w; cbn [read_chunks until_empty].
  - unfold ret. cbn. do 2 f_equal. lia.
  - destruct c as [|b c]; [unfold ret; cbn; do 2 f_equal; lia|].
    unfold bind at 1. rewrite IH. cbn [concat]. rewrite length_app. f_equal.
    + f_equal. lia.
    + destruct (until_empty reads) as [|c' cs]; [cbn [concat]; by rewrite app_nil_r|].
      destruct w as [ups jbs fls tsk trc cr ur];
        cbn [set_files files uploads jobs tasks trace clock_reads uuid_reads].
      rewrite lookup_insert_eq. cbn [default]. rewrite insert_insert_eq.
      unfold id. by rewrite <- app_assoc.
Qed.

(** X3. [save_file] writes the chunks it reads up to the first empty one
    and returns their total size, which is the size of the file it leaves;
    a stream that is empty from the start leaves an empty file and returns
    0.  The files at other paths are as before. *)
Theorem save_file_writes_what_it_counts E storage_key reads w :
  exists content,
    content = concat (until_empty reads) /\
    (save_file E storage_key reads w).1 = Ok (Z.of_nat (length content)) /\
    files (save_file E storage_key reads w).2
      !! get_file_path (STORAGE_DIR E) storage_key = Some content /\
    (forall path, path <> get_file_path (STORAGE_DIR E) storage_key ->
     files (save_file E storage_key reads w).2 !! path = files w !! path).
Proof.
  eexists. split; [reflexivity|].
  unfold save_file. cbv zeta. unfold bind. rewrite read_chunks_eq.
  destruct w as [ups jbs fls tsk trc cr ur]. cbn [fst snd files set_files].
  unfold total_len. split_and!.
  - reflexivity.
  - destruct (until_empty reads) as [|c cs]; cbn [files set_files].
    + by rewrite lookup_insert_eq.
    + by rewrite !lookup_insert_eq.
  - intros other Hne.
    destruct (until_empty reads) as [|c cs]; cbn [files set_files];
      by rewrite !lookup_insert_ne by auto.
Qed.

(** ** enhance.py: what a run leaves alone *)

Ltac frame_leaf :=
  eexists; split;
  [ rewrite <- ?app_assoc; reflexivity
  | unfold apply_downloads; cbn [fold_left app];
    repeat match goal with H : http_stream _ _ = _ |- _ => rewrite H end;
    repeat match goal with H : is_success _ = _ |- _ => rewrite H end;
    split_and!; reflexivity ].

(** A run changes the files by its download only, reads the clock, and
    leaves the uploads, the tasks and the count of ids drawn as they were. *)
Lemma run_prediction_frame E polls job_id upload model_name w :
  exists evs,
    trace (_run_prediction E polls job_id upload model_name w).2 = (trace w ++ evs)%list /\
    files (_run_prediction E polls job_id upload model_name w).2
      = apply_downloads E evs (files w) /\
    uploads (_run_prediction E polls job_id upload model_name w).2 = uploads w /\
    tasks (_run_prediction E polls job_id upload model_name w).2 = tasks w /\
    uuid_reads (_run_prediction E polls job_id upload model_name w).2 = uuid_reads w.
Proof.
  destruct w as [ups jbs fls tsk trc cr ur]. mred.
  match goal with |- context [bool_decide ?P] => destruct (bool_decide P) eqn:Hex end; mred.
  2: frame_leaf.
  apply bool_decide_eq_true_1 in Hex.
  rewrite submit_eq by exact Hex.
  destruct (predictions_create _ _ _) as [e|p] eqn:Hcreate; mred; [frame_leaf|].
  destruct (prediction_wait E polls 0 p) as [res|e|] eqn:Hwait; mred;
    [|frame_leaf|frame_leaf].
  destruct (String.eqb_spec (pred_status res) "failed") as [Hfl|Hfl]; mred; [frame_leaf|].
  destruct (String.eqb_spec (pred_status res) "canceled") as [Hcn|Hcn]; mred; [frame_leaf|].
  destruct (py_truthy _) eqn:Hurl; mred; [|frame_leaf].
  rewrite download_eq. cbv zeta.
  destruct (http_stream _ _) as [e|resp] eqn:Hstream; mred; [frame_leaf|].
  destruct (is_success _) eqn:Hsuccess; mred; [|frame_leaf].
  destruct (stream_error resp); mred; frame_leaf.
Qed.

(** The path of a run together with what the run leaves behind. *)
Lemma run_prediction_full E polls job_id upload model_name w :
  exists evs,
    run_path E polls job_id upload model_name w
      (_run_prediction E polls job_id upload model_name w).1 evs /\
    jobs (_run_prediction E polls job_id upload model_name w).2
      = apply_updates (updates_of evs) (jobs w) /\
    files (_run_prediction E polls job_id upload model_name w).2
      = apply_downloads E evs (files w) /\
    uploads (_run_prediction E polls job_id upload model_name w).2 = uploads w /\
    tasks (_run_prediction E polls job_id upload model_name w).2 = tasks w.
Proof.
  destruct (run_prediction_path E polls job_id upload model_name w)
    as (evs & Htrace & Hjobs & Hpath).
  destruct (run_prediction_frame E polls job_id upload model_name w)
    as (evs' & Htrace' & Hfiles & Hup & Htasks & _).
  rewrite Htrace in Htrace'. apply app_inv_head in Htrace'. subst evs'.
  exists evs. by split_and!.
Qed.

Lemma apply_updates_other job_id other us : forall j : gmap string row,
  Forall (fun u => u.1 = job_id) us ->
  other <> job_id ->
  apply_updates us j !! other = j !! other.
Proof.
  induction us as [|[k f] us IH]; intros j Hall Hne; [reflexivity|].
  apply Forall_cons in Hall as [Hk Hall]. cbn in Hk. subst k.
  cbn [apply_updates fold_left fst snd]. unfold apply_updates in IH.
  rewrite IH by assumption. by rewrite lookup_alter_ne.
Qed.

Lemma apply_updates_absent job_id us : forall j : gmap string row,
  Forall (fun u => u.1 = job_id) us ->
  j !! job_id = None ->
  apply_updates us j = j.
Proof.
  induction us as [|[k f] us IH]; intros j Hall Hj; [reflexivity|].
  apply Forall_cons in Hall as [Hk Hall]. cbn in Hk. subst k.
  cbn [apply_updates fold_left fst snd]. unfold apply_updates in IH.
  assert (Hid : alter (fun r : row => f ∪ r) job_id j = j).
  { apply map_eq. intros i. destruct (decide (i = job_id)) as [->|Hne].
    - by rewrite lookup_alter_eq, Hj.
    - by rewrite lookup_alter_ne. }
  rewrite Hid. by apply IH.
Qed.

(** X4. A run of the execution unit of one job changes no row of another
    job and creates no row: when the table has no row for its job id the
    table is left as it was.  It leaves the uploads and the queued tasks
    alone, and in its own row it never changes the columns id, upload_id,
    model_name and created_at. *)
Theorem run_touches_only_its_job E polls job_id upload model_name w :
  (forall other, other <> job_id ->
   jobs (_run_prediction E polls job_id upload model_name w).2 !! other
     = jobs w !! other) /\
  (jobs w !! job_id = None ->
   jobs (_run_prediction E polls job_id upload model_name w).2 = jobs w) /\
  uploads (_run_prediction E polls job_id upload model_name w).2 = uploads w /\
  tasks (_run_prediction E polls job_id upload model_name w).2 = tasks w /\
  (forall r0, jobs w !! job_id = Some r0 ->
   exists r',
     jobs (_run_prediction E polls job_id upload model_name w).2 !! job_id = Some r' /\
     r' !! "id" = r0 !! "id" /\
     r' !! "upload_id" = r0 !! "upload_id" /\
     r' !! "model_name" = r0 !! "model_name" /\
     r' !! "created_at" = r0 !! "created_at").
Proof.
  destruct (run_prediction_full E polls job_id upload model_name w)
    as (evs & Hpath & Hjobs & _ & Hup & Htasks).
  apply run_path_shape in Hpath.
  pose proof (run_shape_own_job _ _ _ Hpath) as Hown.
  rewrite Hjobs. split_and!; try assumption.
  - intros other Hne. by apply (apply_updates_other job_id).
  - intros Hnone. by apply (apply_updates_absent job_id).
  - intros r0 Hrow. eexists. split; [by apply (apply_updates_same job_id)|].
    clear Hown Hjobs. destruct Hpath; cbn [fold_left snd];
      split_and!; row_lookup; reflexivity.
Qed.

Lemma apply_downloads_other E path evs : forall f,
  (forall url dest, EvDownload url dest ∈ evs -> dest <> path) ->
  apply_downloads E evs f !! path = f !! path.
Proof.
  unfold apply_downloads.
  induction evs as [|ev evs IH]; intros f Hdest; [reflexivity|].
  cbn [fold_left]. rewrite IH by (intros url dest Hin; apply (Hdest url); by right).
  destruct ev as [| | | |url dest]; try reflexivity.
  destruct (http_stream E url) as [|resp]; [reflexivity|].
  destruct (is_success (status_code resp)); [|reflexivity].
  apply lookup_insert_ne. apply (Hdest url). by left.
Qed.

Lemma run_path_download_dest E polls job_id upload model_name w r evs url dest :
  run_path E polls job_id upload model_name w r evs ->
  EvDownload url dest ∈ evs ->
  exists utcnow,
    dest = get_file_path (STORAGE_DIR E)
             (generate_output_key utcnow job_id ("enhanced_" ++ original_filename upload)).
Proof.
  destruct 1; intros Hin;
    repeat (apply elem_of_cons in Hin as [Hin|Hin]; [try discriminate Hin|]);
    try (by apply elem_of_nil in Hin);
    injection Hin as _ ->; by exists utcnow.
Qed.

Lemma join_slash_head x ps : exists rest, join_slash (x :: ps) = x ++ rest.
Proof.
  destruct ps as [|y ps]; [exists ""; by rewrite append_nil_r|].
  eexists. reflexivity.
Qed.

Lemma output_path dir now job_id filename :
  exists rest,
    get_file_path dir (generate_output_key now job_id filename)
      = dir ++ "/" ++ "outputs" ++ rest.
Proof.
  destruct (join_slash_head "outputs"
              (path_parts (pretty (year now) ++ "/" ++ pad0 2 (month now) ++ "/" ++
                           pad0 2 (day now) ++ "/" ++ job_id ++ "_" ++ sanitize filename)))
    as [rest Hrest].
  exists rest. rewrite <- Hrest. reflexivity.
Qed.

Lemma storage_path dir now upload_id filename :
  exists rest,
    get_file_path dir (generate_storage_key now upload_id filename)
      = dir ++ "/" ++ "uploads" ++ rest.
Proof.
  destruct (join_slash_head "uploads"
              (path_parts (pretty (year now) ++ "/" ++ pad0 2 (month now) ++ "/" ++
                           pad0 2 (day now) ++ "/" ++ upload_id ++ "_" ++ sanitize filename)))
    as [rest Hrest].
  exists rest. rewrite <- Hrest. reflexivity.
Qed.

(** The path of a storage key is not the path of an output key. *)
Lemma storage_path_is_no_output_path dir now upload_id filename now' job_id filename' :
  get_file_path dir (generate_storage_key now upload_id filename)
    <> get_file_path dir (generate_output_key now' job_id filename').
Proof.
  destruct (storage_path dir now upload_id filename) as [r1 ->].
  destruct (output_path dir now' job_id filename') as [r2 ->].
  intros Heq. apply String.app_inj in Heq. apply (String.app_inj "/") in Heq.
  discriminate Heq.
Qed.

(** X5. A run of the execution unit writes no file but its output: every
    path other than the path of the key generated for the job id and the
    prefixed file name holds after the run what it held before. *)
Theorem run_writes_only_its_output E polls job_id upload model_name w path :
  (forall utcnow,
     path <> get_file_path (STORAGE_DIR E)
               (generate_output_key utcnow job_id
                  ("enhanced_" ++ original_filename upload))) ->
  files (_run_prediction E polls job_id upload model_name w).2 !! path = files w !! path.
Proof.
  intros Hpath.
  destruct (run_prediction_full E polls job_id upload model_name w)
    as (evs & Hrun & _ & Hfiles & _).
  rewrite Hfiles. apply apply_downloads_other. intros url dest Hin ->.
  destruct (run_path_download_dest _ _ _ _ _ _ _ _ _ _ Hrun Hin) as [utcnow Hd].
  by apply (Hpath utcnow).
Qed.

Lemma run_writes_only_its_output_witness :
  files (_run_prediction ex_env_ok 5 ex_job_id ex_upload ex_model
           (ex_world_created true)).2 !! ex_src
    = files (ex_world_created true) !! ex_src.
Proof.
  apply (run_writes_only_its_output ex_env_ok 5 ex_job_id ex_upload ex_model
           (ex_world_created true) ex_src).
  intros utcnow.
  exact (storage_path_is_no_output_path "/srv/storage" (ex_date 7 0) "upl_1" "clip.mp4"
           utcnow ex_job_id ("enhanced_" ++ original_filename ex_upload)).
Defined.

Lemma storage_key_is_no_output_key now upload_id filename now' job_id filename' :
  generate_storage_key now upload_id filename
    <> generate_output_key now' job_id filename'.
Proof. discriminate. Qed.

(** X6. The enhanced output never replaces an uploaded file: a key from
    [generate_storage_key] is never a key from [generate_output_key], and
    when the storage key of the Upload was generated by
    [generate_storage_key], the source file is after a run what it was
    before, whatever the run did. *)
Theorem run_keeps_the_source_file E polls job_id upload model_name w
    now upload_id filename :
  storage_key upload = generate_storage_key now upload_id filename ->
  (forall now' job_id' filename',
     storage_key upload <> generate_output_key now' job_id' filename') /\
  files (_run_prediction E polls job_id upload model_name w).2
    !! get_file_path (STORAGE_DIR E) (storage_key upload)
    = files w !! get_file_path (STORAGE_DIR E) (storage_key upload).
Proof.
  intros Hkey. split.
  - intros now' job_id' filename'. rewrite Hkey. apply storage_key_is_no_output_key.
  - destruct (run_prediction_full E polls job_id upload model_name w)
      as (evs & Hrun & _ & Hfiles & _).
    rewrite Hfiles. apply apply_downloads_other. intros url dest Hin Heq.
    destruct (run_path_download_dest _ _ _ _ _ _ _ _ _ _ Hrun Hin) as [utcnow Hd].
    rewrite Hd, Hkey in Heq. symmetry in Heq.
    by apply storage_path_is_no_output_path in Heq.
Qed.

Lemma run_keeps_the_source_file_witness :
  (forall now' job_id' filename',
     storage_key ex_upload <> generate_output_key now' job_id' filename') /\
  files (_run_prediction ex_env_ok 5 ex_job_id ex_upload ex_model
           (ex_world_created true)).2
    !! get_file_path (STORAGE_DIR ex_env_ok) (storage_key ex_upload)
    = files (ex_world_created true)
        !! get_file_path (STORAGE_DIR ex_env_ok) (storage_key ex_upload).
Proof.
  apply (run_keeps_the_source_file ex_env_ok 5 ex_job_id ex_upload ex_model
           (ex_world_created true) (ex_date 7 0) "upl_1" "clip.mp4").
  reflexivity.
Defined.

(** ** enhance.py: waiting, submitting, extracting *)

Lemma prediction_wait_more E polls : forall k p r more,
  prediction_wait E polls k p = r -> r <> Blocked ->
  prediction_wait E (polls + more) k p = r.
Proof.
  induction polls as [|polls IH]; intros k p r more; cbn [prediction_wait].
  - destruct (terminal_status (pred_status p)) eqn:Hp.
    + intros <- _. destruct more; cbn [Nat.add prediction_wait]; by rewrite Hp.
    + intros <- Hr. by destruct Hr.
  - cbn [Nat.add prediction_wait].
    destruct (terminal_status (pred_status p)) eqn:Hp; [done|].
    destruct (predictions_reload E (pred_id p) k) as [e|p']; [done|]. apply IH.
Qed.

Lemma prediction_wait_terminal E polls : forall k p r,
  prediction_wait E polls k p = Ok r -> terminal_status (pred_status r) = true.
Proof.
  induction polls as [|polls IH]; intros k p r; cbn [prediction_wait];
    destruct (terminal_status (pred_status p)) eqn:Hp;
    try (by intros [= <-]); try discriminate.
  destruct (predictions_reload E (pred_id p) k) as [e|p']; [discriminate|]. apply IH.
Qed.

(** X7. [_wait_for_prediction] returns only a prediction whose status is
    succeeded, failed or canceled; a prediction that already has such a
    status is returned at once, without a reload; and what the wait returns
    or raises after some number of polls, it returns or raises after every
    larger number.  It records the wait and changes nothing else. *)
Theorem wait_returns_terminal_predictions E polls p w :
  (_wait_for_prediction E polls p w).2
    = set_trace (trace w ++ [EvWait (pred_id p)]) w /\
  (forall r, (_wait_for_prediction E polls p w).1 = Ok r ->
     pred_status r = "succeeded" \/ pred_status r = "failed" \/
     pred_status r = "canceled") /\
  (terminal_status (pred_status p) = true ->
   (_wait_for_prediction E polls p w).1 = Ok p) /\
  (forall r more, (_wait_for_prediction E polls p w).1 = Ok r ->
     (_wait_for_prediction E (polls + more) p w).1 = Ok r) /\
  (forall e more, (_wait_for_prediction E polls p w).1 = Raise e ->
     (_wait_for_prediction E (polls + more) p w).1 = Raise e).
Proof.
  assert (Hw : forall n, _wait_for_prediction E n p w
    = (prediction_wait E n 0 p, set_trace (trace w ++ [EvWait (pred_id p)]) w))
    by reflexivity.
  rewrite !Hw. cbn [fst snd]. split_and!.
  - reflexivity.
  - intros r Hr. apply prediction_wait_terminal in Hr. unfold terminal_status in Hr.
    destruct (String.eqb_spec (pred_status r) "succeeded"); [by left|].
    destruct (String.eqb_spec (pred_status r) "failed"); [by right; left|].
    destruct (String.eqb_spec (pred_status r) "canceled"); [by right; right|].
    discriminate Hr.
  - intros Hp. destruct polls; cbn [prediction_wait]; by rewrite Hp.
  - intros r more Hr. rewrite Hw. by apply prediction_wait_more.
  - intros e more Hr. rewrite Hw. by apply prediction_wait_more.
Qed.

(** X8. [_submit_prediction] for a file that is not on disk raises
    [FileNotFoundError] from [open] and leaves the world as it was: nothing
    is submitted to Replicate, whatever the model name.  The text of the
    error is that of the operating system, [[Errno 2] No such file or
    directory:] followed by [repr] of the path, which is the path between
    single quotes when it needs no escaping. *)
Theorem submit_without_file_submits_nothing E model_name file_path w :
  files w !! file_path = None ->
  exists msg,
    _submit_prediction E model_name file_path w
      = (Raise (Foreign "FileNotFoundError" msg), w) /\
    (plain file_path = true ->
     msg = "[Errno 2] No such file or directory: '" ++ file_path ++ "'").
Proof.
  intros Hf. exists (MSG_NO_SUCH_FILE E file_path). split; cycle 1.
  { intros Hplain. unfold MSG_NO_SUCH_FILE, py_repr. rewrite Hplain.
    by rewrite <- !append_assoc. }
  unfold _submit_prediction.
  assert (Hex : path_exists file_path w = (Ok false, w)).
  { unfold path_exists. rewrite bool_decide_eq_false_2; [done|].
    rewrite Hf. by intros [? ?]. }
  destruct (contains "real-esrgan" model_name);
    [|destruct (contains "topazlabs" model_name)];
    cbv zeta; unfold bind; by rewrite Hex.
Qed.

Lemma submit_without_file_submits_nothing_witness :
  exists msg,
    _submit_prediction ex_env_ok ex_model ex_src (ex_world false)
      = (Raise (Foreign "FileNotFoundError" msg), ex_world false) /\
    (plain ex_src = true ->
     msg = "[Errno 2] No such file or directory: '" ++ ex_src ++ "'").
Proof.
  apply (submit_without_file_submits_nothing ex_env_ok ex_model ex_src (ex_world false)).
  reflexivity.
Defined.

(** X9. For a mapping, [_extract_output_url] stops at the first known key
    that the mapping has and does not look at the others: when the value
    under it has no [url] attribute the result is [str] of the value, so a
    value None gives the text None, which is not empty, and a usable value
    under a later known key is not returned. *)
Theorem extract_stops_at_first_known_key E p d k v :
  pred_output p = PyDict d ->
  first_present KNOWN_KEYS d = Some k ->
  assoc k d = Some v ->
  py_getattr v "url" = None ->
  _extract_output_url E p = PyStr (py_str E v) /\
  (v = PyNone ->
   _extract_output_url E p = PyStr "None" /\
   py_truthy (_extract_output_url E p) = true).
Proof.
  intros Hp Hk Hv Hurl.
  assert (Hfirst : first_known E KNOWN_KEYS d = Some (PyStr (py_str E v))).
  { revert Hk. generalize KNOWN_KEYS. intros keys.
    induction keys as [|key keys IH]; [discriminate|].
    cbn [first_present first_known].
    destruct (assoc key d) as [val|] eqn:Hkey; [|exact IH].
    intros [= ->]. rewrite Hv in Hkey. injection Hkey as <-. by rewrite Hurl. }
  assert (Hres : _extract_output_url E p = PyStr (py_str E v)).
  { unfold _extract_output_url. rewrite Hp. cbn [py_getattr]. by rewrite Hfirst. }
  split; [exact Hres|]. intros ->. by rewrite Hres.
Qed.

Lemma extract_stops_at_first_known_key_witness :
  _extract_output_url ex_env_ok
    (ex_prediction "succeeded" (PyDict [("video", PyNone); ("output", PyStr ex_url)]))
    = PyStr (py_str ex_env_ok PyNone) /\
  (PyNone = PyNone ->
   _extract_output_url ex_env_ok
     (ex_prediction "succeeded" (PyDict [("video", PyNone); ("output", PyStr ex_url)]))
     = PyStr "None" /\
   py_truthy (_extract_output_url ex_env_ok
     (ex_prediction "succeeded" (PyDict [("video", PyNone); ("output", PyStr ex_url)])))
     = true).
Proof.
  apply (extract_stops_at_first_known_key ex_env_ok
           (ex_prediction "succeeded" (PyDict [("video", PyNone); ("output", PyStr ex_url)]))
           [("video", PyNone); ("output", PyStr ex_url)] "video" PyNone);
    reflexivity.
Defined.

(** X10. A job is at completed after a run only when the prediction that
    the run submitted ended its wait with the status succeeded, a URL was
    extracted from it and the download of that URL went through: the row
    then has [progress] = 100 and holds in [output_key] the key of a file
    that is on disk, whose content is what was downloaded and whose size is
    the [output_size] of the row. *)
Theorem completed_job_has_its_file E polls job_id upload model_name w r0 r' :
  jobs w !! job_id = Some r0 ->
  r0 !! "status" <> Some (SText "completed") ->
  jobs (_run_prediction E polls job_id upload model_name w).2 !! job_id = Some r' ->
  r' !! "status" = Some (SText "completed") ->
  exists key content p result,
    (_run_prediction E polls job_id upload model_name w).1 = Ok tt /\
    predictions_create E model_name
      (submit_input model_name
         (InFile (get_file_path (STORAGE_DIR E) (storage_key upload)))) = inr p /\
    prediction_wait E polls 0 p = Ok result /\
    pred_status result = "succeeded" /\
    py_truthy (_extract_output_url E result) = true /\
    download_result E (_extract_output_url E result) = Ok (Z.of_nat (length content)) /\
    r' !! "output_key" = Some (SText key) /\
    r' !! "output_size" = Some (SInt (Z.of_nat (length content))) /\
    r' !! "progress" = Some (SInt 100) /\
    files (_run_prediction E polls job_id upload model_name w).2
      !! get_file_path (STORAGE_DIR E) key = Some content.
Proof.
  intros Hrow Hst0 Hr' Hst.
  destruct (run_prediction_full E polls job_id upload model_name w)
    as (evs & Hpath & Hjobs & Hfiles & _).
  assert (Hfinal : Some r' = Some (fold_left (fun r u => u.2 ∪ r) (updates_of evs) r0)).
  { rewrite <- Hr', Hjobs. apply (apply_updates_same job_id); [|exact Hrow].
    eapply run_shape_own_job, run_path_shape, Hpath. }
  injection Hfinal as ->. rewrite Hfiles. clear Hjobs Hfiles Hr'.
  destruct Hpath as [| | | | | | | |t t' utcnow p result size Hsrc Hcreate Hwait Hnf Hnc
                                    Htruthy Hdl];
    cbn [updates_of omap list_omap fold_left snd] in *;
    revert Hst; row_lookup; try discriminate.
  intros _. pose proof Hdl as Hdl0.
  unfold download_result in Hdl.
  destruct (http_stream E (_extract_output_url E result)) as [e|resp] eqn:Hstream;
    [discriminate|].
  destruct (is_success (status_code resp)) eqn:Hsuccess; [|discriminate].
  destruct (stream_error resp); [discriminate|]. injection Hdl as <-.
  exists (generate_output_key utcnow job_id ("enhanced_" ++ original_filename upload)),
    (concat (chunks resp)), p, result.
  split_and!; try reflexivity.
  - exact Hcreate.
  - exact Hwait.
  - apply prediction_wait_terminal in Hwait. unfold terminal_status in Hwait.
    destruct (String.eqb_spec (pred_status result) "succeeded"); [done|].
    destruct (String.eqb_spec (pred_status result) "failed"); [done|].
    destruct (String.eqb_spec (pred_status result) "canceled"); [done|].
    discriminate Hwait.
  - exact Htruthy.
  - exact Hdl0.
  - unfold apply_downloads. cbn [fold_left]. rewrite Hstream, Hsuccess.
    apply lookup_insert_eq.
Qed.

Lemma completed_job_has_its_file_witness :
  exists r' key content p result,
    jobs (_run_prediction ex_env_ok 5 ex_job_id ex_upload ex_model
            (ex_world_created true)).2 !! ex_job_id = Some r' /\
    (_run_prediction ex_env_ok 5 ex_job_id ex_upload ex_model
       (ex_world_created true)).1 = Ok tt /\
    predictions_create ex_env_ok ex_model
      (submit_input ex_model
         (InFile (get_file_path (STORAGE_DIR ex_env_ok) (storage_key ex_upload)))) = inr p /\
    prediction_wait ex_env_ok 5 0 p = Ok result /\
    pred_status result = "succeeded" /\
    py_truthy (_extract_output_url ex_env_ok result) = true /\
    download_result ex_env_ok (_extract_output_url ex_env_ok result)
      = Ok (Z.of_nat (length content)) /\
    r' !! "output_key" = Some (SText key) /\
    r' !! "output_size" = Some (SInt (Z.of_nat (length content))) /\
    r' !! "progress" = Some (SInt 100) /\
    files (_run_prediction ex_env_ok 5 ex_job_id ex_upload ex_model
             (ex_world_created true)).2
      !! get_file_path (STORAGE_DIR ex_env_ok) key = Some content.
Proof.
  assert (Hdl : _) by
    (refine (run_download ex_env_ok 5 ex_job_id ex_upload ex_model (ex_world_created true)
               (ex_prediction "starting" PyNone)
               (ex_prediction "succeeded" (PyList [PyStr ex_url])) ex_row
               _ eq_refl eq_refl _ _ eq_refl eq_refl);
     [eexists; reflexivity|discriminate|discriminate]).
  destruct Hdl as (_ & r' & Hr' & Hend).
  assert (Hd : download_result ex_env_ok
                 (_extract_output_url ex_env_ok
                    (ex_prediction "succeeded" (PyList [PyStr ex_url]))) = Ok 2)
    by reflexivity.
  rewrite Hd in Hend. destruct Hend as (Hst & _).
  destruct (completed_job_has_its_file ex_env_ok 5 ex_job_id ex_upload ex_model
              (ex_world_created true) ex_row r')
    as (key & content & p & result & H).
  - reflexivity.
  - discriminate.
  - exact Hr'.
  - exact Hst.
  - exists r', key, content, p, result. split; [exact Hr'|exact H].
Defined.

(** ** storage.py and enhance.py: keys of different jobs *)

Lemma append_inj_length (a b x y : string) :
  String.length a = String.length b -> a ++ x = b ++ y -> a = b /\ x = y.
Proof.
  revert b. induction a as [|c a IH]; intros [|d b] Hlen Heq; try discriminate Hlen.
  - by split.
  - change (String c (a ++ x) = String d (b ++ y)) in Heq. injection Heq as -> Heq.
    injection Hlen as Hlen. destruct (IH b Hlen Heq) as [-> ->]. by split.
Qed.

Lemma substring_length n : forall (s : string),
  (n <= String.length s)%nat -> String.length (substring 0 n s) = n.
Proof.
  induction n as [|n IH]; intros [|c s] Hlen; try reflexivity.
  - cbn in Hlen. lia.
  - change (S (String.length (substring 0 n s)) = S n). f_equal. apply IH.
    cbn in Hlen. lia.
Qed.

(** X11. Jobs do not share an output file: on one date, the keys generated
    for two job ids of the same length are equal only when the ids are, and
    the ids that [create_enhance_job] draws all have the length 16 when
    [uuid4().hex] has its 32 characters. *)
Theorem output_keys_of_jobs_differ now job_id job_id' filename filename' :
  String.length job_id = String.length job_id' ->
  job_id <> job_id' ->
  generate_output_key now job_id filename <> generate_output_key now job_id' filename' /\
  (forall E w, (12 <= String.length (uuid4_hex E (uuid_reads w)))%nat ->
     String.length (new_job_id E w) = 16%nat).
Proof.
  intros Hlen Hne. split.
  - unfold generate_output_key. cbv zeta. intros Heq.
    repeat (apply String.app_inj in Heq).
    apply append_inj_length in Heq as [Hid _]; [|exact Hlen]. contradiction.
  - intros E w Hhex. unfold new_job_id.
    change (S (S (S (S (String.length (substring 0 12 (uuid4_hex E (uuid_reads w)))))))
            = 16%nat).
    by rewrite substring_length.
Qed.

Lemma output_keys_of_jobs_differ_witness :
  generate_output_key (ex_date 7 0) "job_0123456789ab" "enhanced_clip.mp4"
    <> generate_output_key (ex_date 7 0) "job_ba9876543210" "enhanced_clip.mp4" /\
  (forall E w, (12 <= String.length (uuid4_hex E (uuid_reads w)))%nat ->
     String.length (new_job_id E w) = 16%nat).
Proof.
  apply (output_keys_of_jobs_differ (ex_date 7 0) "job_0123456789ab" "job_ba9876543210"
           "enhanced_clip.mp4" "enhanced_clip.mp4").
  - reflexivity.
  - discriminate.
Defined.

(** ** database.py *)

Lemma bind_params_lookup cols : forall (record r : row),
  bind_params cols record = Some r ->
  forall c, r !! c = if bool_decide (c ∈ cols) then record !! c else None.
Proof.
  induction cols as [|c0 cols IH]; intros record r; cbn [bind_params].
  - intros [= <-] c. by rewrite lookup_empty.
  - destruct (record !! c0) as [v|] eqn:Hc0; [|discriminate].
    destruct (bind_params cols record) as [r1|] eqn:Hb; [|discriminate].
    intros [= <-] c. destruct (decide (c = c0)) as [->|Hne].
    + rewrite lookup_insert_eq, bool_decide_eq_true_2; [done|by left].
    + rewrite lookup_insert_ne by done. rewrite (IH record r1 Hb c).
      destruct (decide (c ∈ cols)) as [Hin|Hout].
      * rewrite !bool_decide_eq_true_2; [done|by right|done].
      * rewrite !bool_decide_eq_false_2; [done| |done].
        intros Hin. apply elem_of_cons in Hin as [?|?]; done.
Qed.

Lemma bind_params_some cols : forall (record : row),
  (forall c, c ∈ cols -> is_Some (record !! c)) ->
  is_Some (bind_params cols record).
Proof.
  induction cols as [|c0 cols IH]; intros record Hall; cbn [bind_params]; [by eexists|].
  destruct (Hall c0) as [v ->]; [by left|].
  destruct (IH record) as [r ->]; [|by eexists].
  intros c Hc. apply Hall. by right.
Qed.

Lemma bind_params_none cols : forall (record : row) c,
  c ∈ cols -> record !! c = None -> bind_params cols record = None.
Proof.
  induction cols as [|c0 cols IH]; intros record c Hin Hc; [by apply elem_of_nil in Hin|].
  cbn [bind_params]. apply elem_of_cons in Hin as [->|Hin].
  - by rewrite Hc.
  - rewrite (IH record c Hin Hc). by destruct (record !! c0).
Qed.

(** X12. [insert_job] stores the five values it names and nothing else of
    the record.  For a record that gives them as text and an id that the
    table does not hold, [get_job] then returns a row with those values,
    [progress] 0 and NULL in the other columns, and the rows of other ids
    are as before.  An id that the table already holds raises
    [IntegrityError], a record that lacks one of the five values raises
    [ProgrammingError], and both leave the table as it was. *)
Theorem insert_job_then_get_job record w :
  (forall id,
     (forall c, c ∈ ["id"; "upload_id"; "model_name"; "status"; "created_at"] ->
                exists s, record !! c = Some (SText s)) ->
     record !! "id" = Some (SText id) ->
     jobs w !! id = None ->
     (insert_job record w).1 = Ok tt /\
     (forall other, other <> id ->
        jobs (insert_job record w).2 !! other = jobs w !! other) /\
     exists r,
       (get_job id (insert_job record w).2).1 = Ok (Some r) /\
       (forall c, c ∈ ["id"; "upload_id"; "model_name"; "status"; "created_at"] ->
                  r !! c = record !! c) /\
       r !! "progress" = Some (SInt 0) /\
       (forall c, c ∈ ["replicate_id"; "output_key"; "output_size"; "error_message";
                       "started_at"; "completed_at"] -> r !! c = Some SNull)) /\
  (forall id old,
     (forall c, c ∈ ["id"; "upload_id"; "model_name"; "status"; "created_at"] ->
                exists s, record !! c = Some (SText s)) ->
     record !! "id" = Some (SText id) ->
     jobs w !! id = Some old ->
     (insert_job record w).1
       = Raise (Foreign "IntegrityError" "UNIQUE constraint failed: jobs.id") /\
     jobs (insert_job record w).2 = jobs w) /\
  (forall c, c ∈ ["id"; "upload_id"; "model_name"; "status"; "created_at"] ->
     record !! c = None ->
     (exists msg, (insert_job record w).1 = Raise (Foreign "ProgrammingError" msg)) /\
     jobs (insert_job record w).2 = jobs w).
Proof.
  assert (Hins : insert_job record w =
    match bind_params ["id"; "upload_id"; "model_name"; "status"; "created_at"] record with
    | None =>
        (Raise (Foreign "ProgrammingError" "You did not supply a value for binding"),
         set_trace (trace w ++ [EvInsertJob record]) w)
    | Some r =>
        match r !! "id" with
        | Some (SText id) =>
            match jobs w !! id with
            | Some _ =>
                (Raise (Foreign "IntegrityError" "UNIQUE constraint failed: jobs.id"),
                 set_trace (trace w ++ [EvInsertJob record]) w)
            | None =>
                (Ok tt, set_jobs (<[id := r ∪ JOB_DEFAULTS]> (jobs w))
                          (set_trace (trace w ++ [EvInsertJob record]) w))
            end
        | _ => (Raise (Foreign "IntegrityError" "datatype mismatch"),
                set_trace (trace w ++ [EvInsertJob record]) w)
        end
    end).
  { unfold insert_job, bind, log. destruct w; reflexivity. }
  rewrite Hins. clear Hins. split_and!.
  - intros id Htext Hid Hfresh.
    assert (Hall : forall c, c ∈ ["id"; "upload_id"; "model_name"; "status"; "created_at"] ->
                     is_Some (record !! c))
      by (intros c Hc; destruct (Htext c Hc) as [s Hs]; by eexists).
    destruct (bind_params_some _ record Hall) as [r Hr]. rewrite Hr.
    pose proof (bind_params_lookup _ record r Hr) as Hlook.
    assert (Hrid : r !! "id" = Some (SText id)).
    { rewrite Hlook, bool_decide_eq_true_2; [exact Hid|by left]. }
    rewrite Hrid, Hfresh.
    destruct w as [ups jbs fls tsk trc cr ur]. cbn [fst snd jobs set_jobs set_trace get_job].
    split_and!.
    + reflexivity.
    + intros other Hne. by rewrite lookup_insert_ne.
    + exists (r ∪ JOB_DEFAULTS). rewrite lookup_insert_eq. split_and!.
      * reflexivity.
      * intros c Hc. destruct (Hall c Hc) as [v Hv].
        rewrite Hv. apply lookup_union_Some_l.
        rewrite Hlook, bool_decide_eq_true_2; [exact Hv|exact Hc].
      * rewrite lookup_union_r; [reflexivity|]. by rewrite Hlook.
      * intros c Hc. rewrite lookup_union_r.
        -- repeat (apply elem_of_cons in Hc as [->|Hc]; [reflexivity|]).
           by apply elem_of_nil in Hc.
        -- rewrite Hlook.
           repeat (apply elem_of_cons in Hc as [->|Hc]; [reflexivity|]).
           by apply elem_of_nil in Hc.
  - intros id old Htext Hid Hold.
    assert (Hall : forall c, c ∈ ["id"; "upload_id"; "model_name"; "status"; "created_at"] ->
                     is_Some (record !! c))
      by (intros c Hc; destruct (Htext c Hc) as [s Hs]; by eexists).
    destruct (bind_params_some _ record Hall) as [r Hr]. rewrite Hr.
    assert (Hrid : r !! "id" = Some (SText id)).
    { rewrite (bind_params_lookup _ record r Hr), bool_decide_eq_true_2;
        [exact Hid|by left]. }
    rewrite Hrid, Hold. by destruct w.
  - intros c Hc Hnone. rewrite (bind_params_none _ record c Hc Hnone).
    destruct w. split; [by eexists|reflexivity].
Qed.

Ltac accepted_tac :=
  split;
  [ first [ apply insert_non_empty | apply map_non_empty_singleton ]
  | let c := fresh "c" in
    let v := fresh "v" in
    let Hcv := fresh "Hcv" in
    intros c v Hcv;
    rewrite ?list_to_map_cons, ?list_to_map_nil in Hcv;
    repeat (apply lookup_insert_Some in Hcv as [[<- <-]|[_ Hcv]]; [reflexivity|]);
    first [ by rewrite lookup_empty in Hcv
          | apply lookup_singleton_Some in Hcv as [<- <-]; reflexivity ] ].

(** X13. [update_job] changes the columns it is given and no other.  For a
    dictionary that is not empty and gives each column a value of its kind:
    on a row that exists, [get_job] afterwards returns the new values of
    those columns and the old values of the rest; the rows of other ids are
    as before; and for an id that matches no row the UPDATE is silent, it
    returns normally and the table is as it was (no row is created).  The
    four dictionaries that the execution unit writes are of that kind. *)
Theorem update_job_then_get_job job_id fields w :
  (accepted fields ->
   (update_job job_id fields w).1 = Ok tt /\
   (forall other, other <> job_id ->
      jobs (update_job job_id fields w).2 !! other = jobs w !! other) /\
   (jobs w !! job_id = None -> jobs (update_job job_id fields w).2 = jobs w) /\
   (forall r, jobs w !! job_id = Some r ->
      exists r',
        (get_job job_id (update_job job_id fields w).2).1 = Ok (Some r') /\
        (forall c v, fields !! c = Some v -> r' !! c = Some v) /\
        (forall c, fields !! c = None -> r' !! c = r !! c))) /\
  (forall t pid key size msg,
     accepted (processing_fields t) /\ accepted (replicate_fields pid) /\
     accepted (completed_fields key size t) /\ accepted (failed_fields msg t)).
Proof.
  split.
  - intros _. destruct w as [ups jbs fls tsk trc cr ur].
    unfold update_job, bind, log, get_job. cbn [fst snd jobs set_jobs set_trace].
    split; [reflexivity|]. split; [|split].
    + intros other Hne. by rewrite lookup_alter_ne.
    + intros Hnone. by apply alter_id'.
    + intros r Hr. exists (fields ∪ r). rewrite lookup_alter_eq, Hr. split; [reflexivity|].
      split.
      * intros c v Hc. by apply lookup_union_Some_l.
      * intros c Hc. by apply lookup_union_r.
  - intros t pid key size msg.
    unfold processing_fields, replicate_fields, completed_fields, failed_fields, dict1.
    split; [|split; [|split]]; accepted_tac.
Qed.

Lemma sql_leb_total a b : sql_leb a b = true \/ sql_leb b a = true.
Proof.
  destruct a as [|s|x], b as [|t|y]; cbn [sql_leb]; auto.
  - apply String.leb_total.
  - destruct (Z.leb_spec x y); [by left|right]. apply Z.leb_le. lia.
Qed.

Lemma created_le_total : Total created_le.
Proof. intros a b. apply sql_leb_total. Qed.

Lemma created_ge_total : Total (flip created_le).
Proof. intros a b. apply sql_leb_total. Qed.

Lemma elem_of_scan_jobs w r : r ∈ scan_jobs w <-> exists id, jobs w !! id = Some r.
Proof.
  unfold scan_jobs. rewrite list_elem_of_fmap. split.
  - intros ([id r'] & -> & Hin). exists id. by apply elem_of_map_to_list.
  - intros (id & Hid). exists (id, r). split; [done|]. by apply elem_of_map_to_list.
Qed.

(** X14. [get_pending_jobs] returns the rows of the table whose status is
    pending or processing, each as often as the table holds it and no other
    row, ordered by [created_at] ascending, and it changes nothing. *)
Theorem get_pending_jobs_lists_unfinished w :
  exists l,
    get_pending_jobs w = (Ok l, w) /\
    l ≡ₚ filter (fun r => r !! "status" = Some (SText "pending") \/
                          r !! "status" = Some (SText "processing")) (scan_jobs w) /\
    (forall r, r ∈ l <->
       (exists id, jobs w !! id = Some r) /\
       (r !! "status" = Some (SText "pending") \/
        r !! "status" = Some (SText "processing"))) /\
    Sorted created_le l /\
    (length l <= size (jobs w))%nat.
Proof.
  eexists. split; [reflexivity|].
  pose proof (merge_sort_Permutation created_le
    (filter (fun r => r !! "status" = Some (SText "pending") \/
                      r !! "status" = Some (SText "processing")) (scan_jobs w))) as Hperm.
  split; [exact Hperm|]. split; [|split].
  - intros r. rewrite Hperm, list_elem_of_filter, elem_of_scan_jobs. tauto.
  - apply Sorted_merge_sort, created_le_total.
  - rewrite Hperm. etrans; [apply length_filter|].
    unfold scan_jobs. by rewrite length_fmap, length_map_to_list.
Qed.

Lemma get_jobs_by_upload_rows upload_id w :
  exists l,
    get_jobs_by_upload upload_id w = (Ok l, w) /\
    forall r, r ∈ l <->
      (exists id, jobs w !! id = Some r) /\ r !! "upload_id" = Some (SText upload_id).
Proof.
  eexists. split; [reflexivity|]. intros r.
  rewrite merge_sort_Permutation, list_elem_of_filter, elem_of_scan_jobs. tauto.
Qed.

(** X15. [get_jobs_by_upload] returns the rows of the table whose
    [upload_id] is the one asked for, each as often as the table holds it
    and no other row, ordered by [created_at] descending (newest first),
    and it changes nothing; an upload without jobs gives the empty list. *)
Theorem get_jobs_by_upload_newest_first upload_id w :
  exists l,
    get_jobs_by_upload upload_id w = (Ok l, w) /\
    l ≡ₚ filter (fun r => r !! "upload_id" = Some (SText upload_id)) (scan_jobs w) /\
    (forall r, r ∈ l <->
       (exists id, jobs w !! id = Some r) /\ r !! "upload_id" = Some (SText upload_id)) /\
    Sorted (flip created_le) l /\
    ((forall id r, jobs w !! id = Some r -> r !! "upload_id" <> Some (SText upload_id)) ->
     l = []).
Proof.
  eexists. split; [reflexivity|].
  pose proof (merge_sort_Permutation (flip created_le)
    (filter (fun r => r !! "upload_id" = Some (SText upload_id)) (scan_jobs w))) as Hperm.
  split; [exact Hperm|]. split; [|split].
  - intros r. rewrite Hperm, list_elem_of_filter, elem_of_scan_jobs. tauto.
  - apply Sorted_merge_sort, created_ge_total.
  - intros Hnone.
    assert (Hempty : filter (fun r : row => r !! "upload_id" = Some (SText upload_id))
                       (scan_jobs w) = []).
    { apply elem_of_nil_inv. intros r.
      rewrite list_elem_of_filter, elem_of_scan_jobs. intros [Hup [id Hid]].
      exact (Hnone id r Hid Hup). }
    rewrite Hempty in Hperm |- *. by apply Permutation_nil_r.
Qed.

(** ** main.py: the job routes *)

Ltac route_red :=
  cbv beta iota zeta delta
    [Main.download_enhanced Main.get_job Main.download_original Main.create_job
     Main.http_error Main.lift Main.item Main.get_upload_of Main.no_row
     Main.except_enhance bind ret raise get_job get_upload path_exists fst snd].

Lemma row_not_empty (r : row) c v : r !! c = Some v -> bool_decide (r = ∅) = false.
Proof.
  intros Hc. apply bool_decide_eq_false_2. intros ->. by rewrite lookup_empty in Hc.
Qed.

Lemma download_enhanced_not_complete E job_id w (r : row) s :
  jobs w !! job_id = Some r -> r !! "status" = Some s -> s <> SText "completed" ->
  Main.download_enhanced E job_id w =
    (Ok (inl {| Main.http_status := 400;
                Main.detail := "Job is not complete (status: " ++ Main.sql_str s ++ ")" |}),
     w).
Proof.
  intros Hrow Hst Hne. route_red. rewrite Hrow. change (default ∅ (Some r)) with r.
  rewrite (row_not_empty r _ _ Hst), Hst.
  cbv beta iota. rewrite bool_decide_eq_false_2 by exact Hne. reflexivity.
Qed.

Lemma download_enhanced_file E job_id w (r : row) key content uid :
  jobs w !! job_id = Some r -> r !! "status" = Some (SText "completed") ->
  r !! "output_key" = Some (SText key) -> key <> "" ->
  files w !! get_file_path (STORAGE_DIR E) key = Some content ->
  r !! "upload_id" = Some (SText uid) ->
  Main.download_enhanced E job_id w =
    (Ok (inr {| Main.fr_path := get_file_path (STORAGE_DIR E) key;
                Main.fr_filename :=
                  match uploads w !! uid with
                  | Some u => "enhanced_" ++ original_filename u
                  | None => "enhanced_video.mp4"
                  end;
                Main.fr_media_type := "video/mp4" |}), w).
Proof.
  intros Hrow Hst Hkey Hne Hfile Hup. route_red.
  rewrite Hrow. change (default ∅ (Some r)) with r.
  rewrite (row_not_empty r _ _ Hst), Hst. cbv beta iota.
  rewrite bool_decide_eq_true_2 by reflexivity. cbn [negb].
  unfold column. rewrite Hkey.
  cbn [default from_option id Main.sql_truthy].
  destruct (String.eqb_spec key ""); [done|]. cbn [negb]. rewrite Hfile.
  rewrite bool_decide_eq_true_2 by (by eexists). cbn [negb]. rewrite Hup.
  cbv beta iota. by destruct (uploads w !! uid).
Qed.

(** X16. GET /api/jobs/{job_id}/download answers by the first of its checks
    that fails, in this order: 404 [Job not found] for an id without row;
    400 [Job is not complete (status: s)] for a row at another status than
    completed, whatever it holds otherwise; 404 [No output file] for a
    completed row whose [output_key] is NULL or empty; 404 [Enhanced file not
    found in storage] when no file is at the path of the key.  Otherwise it
    answers the file at that path, as video/mp4, named [enhanced_] followed by
    the original filename of the upload of the job, or [enhanced_video.mp4]
    when that upload has no row.  It never changes anything. *)
Theorem download_enhanced_answers E job_id w :
  (jobs w !! job_id = None ->
   Main.download_enhanced E job_id w =
     (Ok (inl {| Main.http_status := 404; Main.detail := "Job not found" |}), w)) /\
  (forall r s,
     jobs w !! job_id = Some r -> r !! "status" = Some s -> s <> SText "completed" ->
     Main.download_enhanced E job_id w =
       (Ok (inl {| Main.http_status := 400;
                   Main.detail := "Job is not complete (status: " ++ Main.sql_str s ++ ")" |}),
        w)) /\
  (forall r,
     jobs w !! job_id = Some r -> r !! "status" = Some (SText "completed") ->
     Main.sql_truthy (column "output_key" r) = false ->
     Main.download_enhanced E job_id w =
       (Ok (inl {| Main.http_status := 404; Main.detail := "No output file" |}), w)) /\
  (forall r key,
     jobs w !! job_id = Some r -> r !! "status" = Some (SText "completed") ->
     r !! "output_key" = Some (SText key) -> key <> "" ->
     files w !! get_file_path (STORAGE_DIR E) key = None ->
     Main.download_enhanced E job_id w =
       (Ok (inl {| Main.http_status := 404;
                   Main.detail := "Enhanced file not found in storage" |}), w)) /\
  (forall r key content uid,
     jobs w !! job_id = Some r -> r !! "status" = Some (SText "completed") ->
     r !! "output_key" = Some (SText key) -> key <> "" ->
     files w !! get_file_path (STORAGE_DIR E) key = Some content ->
     r !! "upload_id" = Some (SText uid) ->
     Main.download_enhanced E job_id w =
       (Ok (inr {| Main.fr_path := get_file_path (STORAGE_DIR E) key;
                   Main.fr_filename :=
                     match uploads w !! uid with
                     | Some u => "enhanced_" ++ original_filename u
                     | None => "enhanced_video.mp4"
                     end;
                   Main.fr_media_type := "video/mp4" |}), w)).
Proof.
  split; [|split; [|split; [|split]]].
  - intros Hrow. route_red. rewrite Hrow. reflexivity.
  - intros r s. apply download_enhanced_not_complete.
  - intros r Hrow Hst Hfalsy. route_red.
    rewrite Hrow. change (default ∅ (Some r)) with r.
    rewrite (row_not_empty r _ _ Hst), Hst. cbv beta iota.
    rewrite bool_decide_eq_true_2 by reflexivity. cbn [negb].
    rewrite Hfalsy. reflexivity.
  - intros r key Hrow Hst Hkey Hne Hfile. route_red.
    rewrite Hrow. change (default ∅ (Some r)) with r.
    rewrite (row_not_empty r _ _ Hst), Hst. cbv beta iota.
    rewrite bool_decide_eq_true_2 by reflexivity. cbn [negb].
    unfold column. rewrite Hkey.
    cbn [default from_option id Main.sql_truthy].
    destruct (String.eqb_spec key ""); [done|]. cbn [negb]. rewrite Hfile.
    rewrite bool_decide_eq_false_2; [reflexivity|]. by intros [? ?].
  - intros r key content uid. apply download_enhanced_file.
Qed.

(** The row of a job after a run, by the outcome of the run. *)
Lemma run_final_row E polls job_id upload model_name w r0 :
  jobs w !! job_id = Some r0 ->
  exists r',
    jobs (_run_prediction E polls job_id upload model_name w).2 !! job_id = Some r' /\
    (forall c, c ∈ ["id"; "upload_id"; "model_name"; "created_at"] -> r' !! c = r0 !! c) /\
    match (_run_prediction E polls job_id upload model_name w).1 with
    | Ok _ =>
        (r' !! "status" = Some (SText "completed") /\
         r' !! "progress" = Some (SInt 100) /\
         r' !! "error_message" = r0 !! "error_message" /\
         exists utcnow content,
           r' !! "output_key" =
             Some (SText (generate_output_key utcnow job_id
                            ("enhanced_" ++ original_filename upload))) /\
           r' !! "output_size" = Some (SInt (Z.of_nat (length content))) /\
           files (_run_prediction E polls job_id upload model_name w).2
             !! get_file_path (STORAGE_DIR E)
                  (generate_output_key utcnow job_id
                     ("enhanced_" ++ original_filename upload)) = Some content) \/
        (r' !! "status" = Some (SText "failed") /\
         r' !! "progress" = r0 !! "progress" /\
         r' !! "output_key" = r0 !! "output_key" /\
         exists msg, r' !! "error_message" = Some (SText msg))
    | Blocked =>
        r' !! "status" = Some (SText "processing") /\
        r' !! "progress" = r0 !! "progress" /\
        r' !! "output_key" = r0 !! "output_key" /\
        r' !! "error_message" = r0 !! "error_message"
    | Raise _ => False
    end.
Proof.
  intros Hrow.
  destruct (run_prediction_full E polls job_id upload model_name w)
    as (evs & Hpath & Hjobs & Hfiles & _).
  exists (fold_left (fun r u => u.2 ∪ r) (updates_of evs) r0). split.
  { rewrite Hjobs. apply (apply_updates_same job_id); [|exact Hrow].
    eapply run_shape_own_job, run_path_shape, Hpath. }
  rewrite Hfiles. clear Hjobs Hfiles.
  destruct Hpath as [| | | | | | | |t t' utcnow p result size Hsrc Hcreate Hwait Hnf Hnc
                                    Htruthy Hdl];
    cbn [updates_of omap list_omap fold_left snd];
    (split;
     [ intros c Hc;
       repeat (apply elem_of_cons in Hc as [->|Hc]; [row_lookup; reflexivity|]);
       by apply elem_of_nil in Hc | ]).
  1-2, 4-8: right; row_lookup; split; [reflexivity|]; split; [reflexivity|];
    split; [reflexivity|]; eexists; reflexivity.
  - row_lookup. split_and!; reflexivity.
  - left. row_lookup. split; [reflexivity|]. split; [reflexivity|]. split; [reflexivity|].
    unfold download_result in Hdl.
    destruct (http_stream E (_extract_output_url E result)) as [e|resp] eqn:Hstream;
      [discriminate|].
    destruct (is_success (status_code resp)) eqn:Hsuccess; [|discriminate].
    destruct (stream_error resp); [discriminate|]. injection Hdl as <-.
    exists utcnow, (concat (chunks resp)). split; [reflexivity|]. split; [reflexivity|].
    unfold apply_downloads. cbn [fold_left]. rewrite Hstream, Hsuccess.
    apply lookup_insert_eq.
Qed.

Lemma job_to_detail_eq (r : row) id uid m s c :
  r !! "id" = Some id -> r !! "upload_id" = Some uid -> r !! "model_name" = Some m ->
  r !! "status" = Some s -> r !! "created_at" = Some c ->
  Main._job_to_detail r =
    inr {| Main.jd_id := id; Main.uploadId := uid; Main.modelName := m;
           Main.jd_status := s;
           Main.jd_progress :=
             (if Main.sql_truthy (column "progress" r) then column "progress" r
              else SInt 0);
           Main.errorMessage := column "error_message" r;
           Main.createdAt := c;
           Main.completedAt := column "completed_at" r;
           Main.downloadReady :=
             bool_decide (s = SText "completed") &&
             Main.sql_truthy (column "output_key" r) |}.
Proof.
  intros Hid Hup Hm Hs Hc. unfold Main._job_to_detail, Main.item.
  rewrite Hid, Hup, Hm, Hs, Hc. reflexivity.
Qed.

Lemma get_job_route_eq job_id w (r : row) id uid m s c :
  jobs w !! job_id = Some r ->
  r !! "id" = Some id -> r !! "upload_id" = Some uid -> r !! "model_name" = Some m ->
  r !! "status" = Some s -> r !! "created_at" = Some c ->
  Main.get_job job_id w =
    (Ok (inr {| Main.jd_id := id; Main.uploadId := uid; Main.modelName := m;
                Main.jd_status := s;
                Main.jd_progress :=
                  (if Main.sql_truthy (column "progress" r) then column "progress" r
                   else SInt 0);
                Main.errorMessage := column "error_message" r;
                Main.createdAt := c;
                Main.completedAt := column "completed_at" r;
                Main.downloadReady :=
                  bool_decide (s = SText "completed") &&
                  Main.sql_truthy (column "output_key" r) |}), w).
Proof.
  intros Hrow Hid Hup Hm Hs Hc. route_red. rewrite Hrow.
  change (default ∅ (Some r)) with r.
  rewrite (row_not_empty r _ _ Hs), (job_to_detail_eq r id uid m s c) by assumption.
  reflexivity.
Qed.

Lemma output_key_not_empty now job_id filename :
  String.eqb (generate_output_key now job_id filename) "" = false.
Proof. reflexivity. Qed.

(** X17. What the API shows of a job whose run has returned.  GET
    /api/jobs/{job_id} reports the id, upload, model and creation time that
    the job had before the run, and either the status completed with
    [downloadReady] true and [progress] 100, in which case GET
    /api/jobs/{job_id}/download answers a file that is on disk, named
    [enhanced_] followed by the original filename of the upload; or the
    status failed with [downloadReady] false and an error message, in which
    case the download route answers 400 [Job is not complete (status:
    failed)]. *)
Theorem finished_job_over_the_api E polls job_id upload model_name w r0 id uid m c :
  jobs w !! job_id = Some r0 ->
  r0 !! "id" = Some (SText id) ->
  r0 !! "upload_id" = Some (SText uid) ->
  r0 !! "model_name" = Some (SText m) ->
  r0 !! "created_at" = Some (SText c) ->
  uploads w !! uid = Some upload ->
  (_run_prediction E polls job_id upload model_name w).1 = Ok tt ->
  exists d,
    Main.get_job job_id (_run_prediction E polls job_id upload model_name w).2 =
      (Ok (inr d), (_run_prediction E polls job_id upload model_name w).2) /\
    Main.jd_id d = SText id /\ Main.uploadId d = SText uid /\
    Main.modelName d = SText m /\ Main.createdAt d = SText c /\
    ((Main.jd_status d = SText "completed" /\
      Main.downloadReady d = true /\
      Main.jd_progress d = SInt 100 /\
      exists key content,
        Main.download_enhanced E job_id
            (_run_prediction E polls job_id upload model_name w).2 =
          (Ok (inr {| Main.fr_path := get_file_path (STORAGE_DIR E) key;
                      Main.fr_filename := "enhanced_" ++ original_filename upload;
                      Main.fr_media_type := "video/mp4" |}),
           (_run_prediction E polls job_id upload model_name w).2) /\
        files (_run_prediction E polls job_id upload model_name w).2
          !! get_file_path (STORAGE_DIR E) key = Some content) \/
     (Main.jd_status d = SText "failed" /\
      Main.downloadReady d = false /\
      (exists msg, Main.errorMessage d = SText msg) /\
      Main.download_enhanced E job_id
          (_run_prediction E polls job_id upload model_name w).2 =
        (Ok (inl {| Main.http_status := 400;
                    Main.detail := "Job is not complete (status: failed)" |}),
         (_run_prediction E polls job_id upload model_name w).2))).
Proof.
  intros Hrow Hid Hup Hm Hc Hupload Hdone.
  destruct (run_final_row E polls job_id upload model_name w r0 Hrow)
    as (r' & Hr' & Hkeep & Hend).
  destruct (run_prediction_full E polls job_id upload model_name w)
    as (_ & _ & _ & _ & Huploads & _).
  rewrite Hdone in Hend. clear Hdone.
  remember (_run_prediction E polls job_id upload model_name w).2 as w' eqn:Hw'.
  clear Hw'.
  assert (Hid' : r' !! "id" = Some (SText id))
    by (rewrite Hkeep; [exact Hid|solve [repeat constructor]]).
  assert (Hup' : r' !! "upload_id" = Some (SText uid))
    by (rewrite Hkeep; [exact Hup|solve [repeat constructor]]).
  assert (Hm' : r' !! "model_name" = Some (SText m))
    by (rewrite Hkeep; [exact Hm|solve [repeat constructor]]).
  assert (Hc' : r' !! "created_at" = Some (SText c))
    by (rewrite Hkeep; [exact Hc|solve [repeat constructor]]).
  destruct Hend as [(Hst & Hprog & _ & utcnow & content & Hkey & _ & Hfile)
                   |(Hst & _ & _ & msg & Hmsg)].
  - eexists. split.
    { exact (get_job_route_eq job_id w' r' (SText id) (SText uid) (SText m)
               (SText "completed") (SText c) Hr' Hid' Hup' Hm' Hst Hc'). }
    cbn [Main.jd_id Main.uploadId Main.modelName Main.createdAt Main.jd_status
         Main.downloadReady Main.jd_progress Main.errorMessage].
    do 4 (split; [reflexivity|]). left. split; [reflexivity|]. split; [|split].
    + rewrite bool_decide_eq_true_2 by reflexivity. unfold column. rewrite Hkey.
      reflexivity.
    + unfold column. rewrite Hprog. reflexivity.
    + exists (generate_output_key utcnow job_id ("enhanced_" ++ original_filename upload)),
        content.
      split; [|exact Hfile].
      rewrite (download_enhanced_file E job_id w' r' _ content uid Hr' Hst Hkey);
        [by rewrite Huploads, Hupload| |exact Hfile|exact Hup'].
      intros Hempty. pose proof (output_key_not_empty utcnow job_id
        ("enhanced_" ++ original_filename upload)) as Hne.
      rewrite Hempty in Hne. discriminate Hne.
  - eexists. split.
    { exact (get_job_route_eq job_id w' r' (SText id) (SText uid) (SText m)
               (SText "failed") (SText c) Hr' Hid' Hup' Hm' Hst Hc'). }
    cbn [Main.jd_id Main.uploadId Main.modelName Main.createdAt Main.jd_status
         Main.downloadReady Main.jd_progress Main.errorMessage].
    do 4 (split; [reflexivity|]). right. split; [reflexivity|]. split; [|split].
    + rewrite bool_decide_eq_false_2 by discriminate. reflexivity.
    + exists msg. unfold column. by rewrite Hmsg.
    + exact (download_enhanced_not_complete E job_id w' r' (SText "failed") Hr' Hst
               ltac:(discriminate)).
Qed.

Lemma finished_job_over_the_api_witness :
  exists d,
    Main.get_job ex_job_id
        (_run_prediction ex_env_ok 5 ex_job_id ex_upload ex_model
           (ex_world_created true)).2 =
      (Ok (inr d),
       (_run_prediction ex_env_ok 5 ex_job_id ex_upload ex_model
          (ex_world_created true)).2) /\
    Main.jd_id d = SText ex_job_id /\
    Main.uploadId d = SText "upl_1" /\
    Main.modelName d = SText ex_model.
Proof.
  destruct (finished_job_over_the_api ex_env_ok 5 ex_job_id ex_upload ex_model
              (ex_world_created true) ex_row ex_job_id "upl_1" ex_model
              (isoformat (ex_date 7 0)))
    as (d & Hget & Hid & Hup & Hm & _).
  - reflexivity.
  - reflexivity.
  - reflexivity.
  - reflexivity.
  - reflexivity.
  - reflexivity.
  - reflexivity.
  - exists d. split; [exact Hget|]. split; [exact Hid|]. split; [exact Hup|exact Hm].
Defined.

(** The calls of [create_enhance_job] either fail a check, or pass the four
    of them. *)
Lemma create_enhance_job_cases E upload_id model_key w :
  (exists msg,
     create_enhance_job E upload_id model_key w = (Raise (EnhanceError msg), w)) \/
  (exists u model_name,
     uploads w !! upload_id = Some u /\ upload_status u = "uploaded" /\
     REPLICATE_API_TOKEN E <> "" /\ resolve_model model_key = Some model_name).
Proof.
  destruct (create_enhance_job_rejects E upload_id model_key w)
    as (Hnone & Hstatus & Htoken & Hmodel).
  destruct (uploads w !! upload_id) as [u|] eqn:Hu; [|left; eexists; by apply Hnone].
  destruct (decide (upload_status u = "uploaded")) as [Hst|Hst];
    [|left; eexists; by apply (Hstatus u)].
  destruct (decide (REPLICATE_API_TOKEN E = "")) as [Htk|Htk];
    [left; eexists; by apply (Htoken u)|].
  destruct (resolve_model model_key) as [name|] eqn:Hres;
    [|left; eexists; by apply (Hmodel u)].
  right. by exists u, name.
Qed.

(** X18. POST /api/jobs/create.  When [create_enhance_job] raises an
    [EnhanceError], the route answers 400 with the message of the error and
    nothing has changed.  When the call passes its checks and draws an id
    that the table does not hold, the route returns the detail of the new
    job as it was read back in the race with its task: the id, the upload,
    the model and the creation time are those of the job, the status is
    pending, or processing, completed or failed when the task has written by
    then, and [downloadReady] holds only at completed; the route adds no
    effect to those of [create_enhance_job]; when the read comes
    before the first write of the task the detail is at pending with
    [progress] 0, [downloadReady] false, no error message and no completion
    time.  When the id drawn is already in the table, the route raises the
    [IntegrityError] of the INSERT instead of answering. *)
Theorem create_job_route E uploadId model w :
  (forall msg,
     (create_enhance_job E uploadId model w).1 = Raise (EnhanceError msg) ->
     Main.create_job E uploadId model w =
       (Ok (inl {| Main.http_status := 400; Main.detail := msg |}), w)) /\
  (forall u model_name,
     uploads w !! uploadId = Some u -> upload_status u = "uploaded" ->
     REPLICATE_API_TOKEN E <> "" -> resolve_model model = Some model_name ->
     jobs w !! new_job_id E w = None ->
     exists d,
       (Main.create_job E uploadId model w).1 = Ok (inr d) /\
       (Main.create_job E uploadId model w).2 = (create_enhance_job E uploadId model w).2 /\
       Main.jd_id d = SText (new_job_id E w) /\
       Main.uploadId d = SText uploadId /\
       Main.modelName d = SText model_name /\
       Main.createdAt d = SText (isoformat (clock E (clock_reads w))) /\
       (Main.jd_status d = SText "pending" \/ Main.jd_status d = SText "processing" \/
        Main.jd_status d = SText "completed" \/ Main.jd_status d = SText "failed") /\
       (Main.downloadReady d = true -> Main.jd_status d = SText "completed") /\
       ((task_overlap E (new_job_id E w)).2 = 0%nat ->
        Main.jd_status d = SText "pending" /\
        Main.jd_progress d = SInt 0 /\
        Main.errorMessage d = SNull /\
        Main.completedAt d = SNull /\
        Main.downloadReady d = false)) /\
  (forall u model_name old,
     uploads w !! uploadId = Some u -> upload_status u = "uploaded" ->
     REPLICATE_API_TOKEN E <> "" -> resolve_model model = Some model_name ->
     jobs w !! new_job_id E w = Some old ->
     (Main.create_job E uploadId model w).1 =
       Raise (Foreign "IntegrityError" "UNIQUE constraint failed: jobs.id") /\
     jobs (Main.create_job E uploadId model w).2 = jobs w /\
     tasks (Main.create_job E uploadId model w).2 = tasks w).
Proof.
  split; [|split].
  - intros msg Hraise.
    destruct (create_enhance_job_cases E uploadId model w)
      as [(msg' & Hrej)|(u & name & Hu & Hst & Htk & Hres)].
    + rewrite Hrej in Hraise. injection Hraise as ->.
      unfold Main.create_job, Main.except_enhance, bind. rewrite Hrej. reflexivity.
    + rewrite (create_enhance_job_checked E uploadId model w u name Hu Hst Htk Hres)
        in Hraise.
      destruct (jobs w !! new_job_id E w); discriminate Hraise.
  - intros u name Hu Hst Htk Hres Hfresh.
    destruct (create_enhance_job_ok E uploadId model w u name Hu Hst Htk Hres Hfresh)
      as (r & Hcall & Hid & Hupl & Hmodel & Hcreated & Hstatus & Hzero).
    assert (Hs : exists s, r !! "status" = Some s /\
              (s = SText "pending" \/ s = SText "processing" \/
               s = SText "completed" \/ s = SText "failed")).
    { destruct Hstatus as [H|[H|[H|H]]]; eexists; (split; [exact H|]); auto. }
    destruct Hs as (s & Hs & Hcase).
    assert (Hroute : Main.create_job E uploadId model w =
              (Ok (inr {| Main.jd_id := SText (new_job_id E w);
                          Main.uploadId := SText uploadId;
                          Main.modelName := SText name;
                          Main.jd_status := s;
                          Main.jd_progress :=
                            (if Main.sql_truthy (column "progress" r)
                             then column "progress" r else SInt 0);
                          Main.errorMessage := column "error_message" r;
                          Main.createdAt := SText (isoformat (clock E (clock_reads w)));
                          Main.completedAt := column "completed_at" r;
                          Main.downloadReady :=
                            bool_decide (s = SText "completed") &&
                            Main.sql_truthy (column "output_key" r) |}),
               world_created E uploadId u name w)).
    { unfold Main.create_job, Main.except_enhance, bind. rewrite Hcall.
      cbv beta iota. unfold Main.lift.
      rewrite (job_to_detail_eq r _ _ _ _ _ Hid Hupl Hmodel Hs Hcreated). reflexivity. }
    eexists. split; [rewrite Hroute; reflexivity|].
    split; [by rewrite Hroute, Hcall|].
    cbn [Main.jd_id Main.uploadId Main.modelName Main.createdAt Main.jd_status
         Main.downloadReady Main.jd_progress Main.errorMessage Main.completedAt].
    do 4 (split; [reflexivity|]). split; [exact Hcase|]. split.
    + intros Hready. apply andb_true_iff in Hready as [Hready _].
      by apply bool_decide_eq_true_1 in Hready.
    + intros Hnone. specialize (Hzero Hnone). subst r.
      assert (Hp : (new_job_record (new_job_id E w) uploadId name
                      (isoformat (clock E (clock_reads w))) ∪ JOB_DEFAULTS) !! "status"
                   = Some (SText "pending")) by reflexivity.
      rewrite Hp in Hs. injection Hs as <-.
      split; [reflexivity|]. split; [reflexivity|]. split; [reflexivity|].
      split; reflexivity.
  - intros u name old Hu Hst Htk Hres Hold.
    unfold Main.create_job, Main.except_enhance, bind.
    rewrite (create_enhance_job_checked E uploadId model w u name Hu Hst Htk Hres), Hold.
    by destruct w.
Qed.




(** ** main.py: the checks on an upload *)

Lemma after_last_dot_split s :
  contains "." s = true ->
  exists stem, s = stem ++ "." ++ Main.after_last_dot s /\
               contains "." (Main.after_last_dot s) = false.
Proof.
  induction s as [|c rest IH]; [discriminate|].
  intros Hdot. cbn [Main.after_last_dot].
  destruct (contains "." rest) eqn:Hrest.
  - destruct (IH eq_refl) as (stem & Hstem & Hnone).
    exists (String c stem). split; [|exact Hnone].
    change (String c rest = String c (stem ++ "." ++ Main.after_last_dot rest)).
    by rewrite <- Hstem.
  - destruct (Ascii.eqb_spec c "."%char) as [->|Hne].
    + exists "". split; [reflexivity|exact Hrest].
    + exfalso. cbn [contains is_prefix] in Hdot. rewrite Hrest in Hdot.
      destruct (Ascii.eqb_spec "."%char c) as [<-|_]; [done|discriminate Hdot].
Qed.

Lemma after_last_dot_unique stem : forall e,
  contains "." e = false -> Main.after_last_dot (stem ++ "." ++ e) = e.
Proof.
  induction stem as [|c stem IH]; intros e He.
  - change (Main.after_last_dot (String "." e) = e). cbn [Main.after_last_dot].
    rewrite He. reflexivity.
  - change (Main.after_last_dot (String c (stem ++ "." ++ e)) = e). cbn [Main.after_last_dot].
    assert (Hdot : contains "." (stem ++ "." ++ e) = true)
      by (apply contains_spec, Contains_intro).
    rewrite Hdot. by apply IH.
Qed.

Lemma member_spec x xs : Main.member x xs = true <-> x ∈ xs.
Proof.
  unfold Main.member. rewrite existsb_exists, list_elem_of_In. split.
  - intros (y & Hin & Heq). apply String.eqb_eq in Heq. by subst y.
  - intros Hin. exists x. split; [exact Hin|apply String.eqb_refl].
Qed.

Lemma extension_allowed filename :
  Main.member
    (if contains "." filename then "." ++ Main.lower (Main.after_last_dot filename) else "")
    Main.ALLOWED_EXTENSIONS = true <->
  exists stem e,
    filename = stem ++ "." ++ e /\ contains "." e = false /\
    (Main.lower e = "mp4" \/ Main.lower e = "mov").
Proof.
  rewrite member_spec. unfold Main.ALLOWED_EXTENSIONS. split.
  - destruct (contains "." filename) eqn:Hdot.
    + destruct (after_last_dot_split filename Hdot) as (stem & Hstem & Hnone).
      intros Hin. exists stem, (Main.after_last_dot filename).
      split; [exact Hstem|]. split; [exact Hnone|].
      change ("." ++ Main.lower (Main.after_last_dot filename))
        with (String "." (Main.lower (Main.after_last_dot filename))) in Hin.
      apply elem_of_cons in Hin as [Hin|Hin]; [left; by injection Hin|].
      apply elem_of_cons in Hin as [Hin|Hin]; [right; by injection Hin|].
      by apply elem_of_nil in Hin.
    + intros Hin. exfalso.
      apply elem_of_cons in Hin as [Hin|Hin]; [discriminate Hin|].
      apply elem_of_cons in Hin as [Hin|Hin]; [discriminate Hin|].
      by apply elem_of_nil in Hin.
  - intros (stem & e & -> & Hnone & Hext).
    assert (Hdot : contains "." (stem ++ "." ++ e) = true)
      by (apply contains_spec, Contains_intro).
    rewrite Hdot, (after_last_dot_unique stem e Hnone).
    change ("." ++ Main.lower e) with (String "." (Main.lower e)).
    destruct Hext as [-> | ->]; solve [repeat constructor].
Qed.

(** X20. [_validate_file_meta] accepts exactly the uploads whose filename
    ends, after its last dot, in [mp4] or [mov] in any mix of cases, whose
    MIME type is video/mp4 or video/quicktime, and whose size is at most
    500 MiB; what precedes the last dot may be anything, the empty string
    included, and the size has no lower bound.  Every rejection is a 400,
    and the checks are made in the order extension, MIME type, size: a bad
    extension is reported whatever the rest, a bad MIME type whatever the
    size. *)
Theorem validate_file_meta_accepts set_repr filename mime_type file_size :
  (Main._validate_file_meta set_repr filename mime_type file_size = inr tt <->
   (exists stem e,
      filename = stem ++ "." ++ e /\ contains "." e = false /\
      (Main.lower e = "mp4" \/ Main.lower e = "mov")) /\
   (mime_type = "video/mp4" \/ mime_type = "video/quicktime") /\
   (file_size <= 524288000)%Z) /\
  (forall e, Main._validate_file_meta set_repr filename mime_type file_size = inl e ->
     Main.http_status e = 400) /\
  ((~ exists stem e,
        filename = stem ++ "." ++ e /\ contains "." e = false /\
        (Main.lower e = "mp4" \/ Main.lower e = "mov")) ->
   Main._validate_file_meta set_repr filename mime_type file_size =
     inl {| Main.http_status := 400;
            Main.detail := "Unsupported format. Allowed: " ++
                           set_repr Main.ALLOWED_EXTENSIONS |}) /\
  ((exists stem e,
      filename = stem ++ "." ++ e /\ contains "." e = false /\
      (Main.lower e = "mp4" \/ Main.lower e = "mov")) ->
   mime_type <> "video/mp4" -> mime_type <> "video/quicktime" ->
   Main._validate_file_meta set_repr filename mime_type file_size =
     inl {| Main.http_status := 400;
            Main.detail := "Unsupported MIME type. Allowed: " ++
                           set_repr Main.ALLOWED_MIME_TYPES |}).
Proof.
  pose proof (extension_allowed filename) as Hext.
  assert (Hmime : Main.member mime_type Main.ALLOWED_MIME_TYPES = true <->
                  mime_type = "video/mp4" \/ mime_type = "video/quicktime").
  { rewrite member_spec. unfold Main.ALLOWED_MIME_TYPES.
    rewrite !elem_of_cons, elem_of_nil. tauto. }
  assert (Hsize : (file_size >? Main.MAX_FILE_SIZE)%Z = false <->
                  (file_size <= 524288000)%Z).
  { unfold Main.MAX_FILE_SIZE. rewrite Z.gtb_ltb, Z.ltb_ge. reflexivity. }
  unfold Main._validate_file_meta.
  destruct (Main.member _ Main.ALLOWED_EXTENSIONS) eqn:He; cbn [negb].
  - destruct (Main.member mime_type Main.ALLOWED_MIME_TYPES) eqn:Hm; cbn [negb].
    + destruct (file_size >? Main.MAX_FILE_SIZE)%Z eqn:Hs.
      * split; [|split; [|split]].
        -- split; [discriminate|]. intros (_ & _ & Hle).
           apply Hsize in Hle. discriminate Hle.
        -- by intros e [= <-].
        -- intros Hno. exfalso. apply Hno, Hext. reflexivity.
        -- intros _ H1 H2. exfalso.
           destruct (proj1 Hmime eq_refl); contradiction.
      * split; [|split; [|split]].
        -- split; [intros _|reflexivity].
           split; [by apply Hext|]. split; [by apply Hmime|by apply Hsize].
        -- discriminate.
        -- intros Hno. exfalso. apply Hno, Hext. reflexivity.
        -- intros _ H1 H2. exfalso.
           destruct (proj1 Hmime eq_refl); contradiction.
    + split; [|split; [|split]].
      * split; [discriminate|]. intros (_ & Hok & _). apply Hmime in Hok. discriminate Hok.
      * by intros e [= <-].
      * intros Hno. exfalso. apply Hno, Hext. reflexivity.
      * reflexivity.
  - split; [|split; [|split]].
    + split; [discriminate|]. intros (Hok & _). apply Hext in Hok. discriminate Hok.
    + by intros e [= <-].
    + reflexivity.
    + intros Hok. apply Hext in Hok. discriminate Hok.
Qed.

(** ** main.py: the original file and the models *)

Lemma download_original_file E upload_id w u content :
  uploads w !! upload_id = Some u -> upload_status u = "uploaded" ->
  files w !! get_file_path (STORAGE_DIR E) (storage_key u) = Some content ->
  Main.download_original E upload_id w =
    (Ok (inr {| Main.fr_path := get_file_path (STORAGE_DIR E) (storage_key u);
                Main.fr_filename := original_filename u;
                Main.fr_media_type := mime_type u |}), w).
Proof.
  intros Hu Hst Hfile. route_red. rewrite Hu. cbv beta iota.
  rewrite Hst, String.eqb_refl. cbn [negb]. rewrite Hfile.
  rewrite bool_decide_eq_true_2 by (by eexists). reflexivity.
Qed.

(** X21. GET /api/uploads/{upload_id}/download answers 404 [Upload not
    found] for an id without row; 400 [File not ready] for an upload at
    another status than uploaded, whether or not its file is on disk; 404
    [File not found in storage] when no file is at the path of its storage
    key; and otherwise the file at that path, under the original filename as
    it was given (not the sanitized one) and with the MIME type of the
    upload.  It never changes anything. *)
Theorem download_original_answers E upload_id w :
  (uploads w !! upload_id = None ->
   Main.download_original E upload_id w =
     (Ok (inl {| Main.http_status := 404; Main.detail := "Upload not found" |}), w)) /\
  (forall u, uploads w !! upload_id = Some u -> upload_status u <> "uploaded" ->
   Main.download_original E upload_id w =
     (Ok (inl {| Main.http_status := 400; Main.detail := "File not ready" |}), w)) /\
  (forall u, uploads w !! upload_id = Some u -> upload_status u = "uploaded" ->
   files w !! get_file_path (STORAGE_DIR E) (storage_key u) = None ->
   Main.download_original E upload_id w =
     (Ok (inl {| Main.http_status := 404;
                 Main.detail := "File not found in storage" |}), w)) /\
  (forall u content, uploads w !! upload_id = Some u -> upload_status u = "uploaded" ->
   files w !! get_file_path (STORAGE_DIR E) (storage_key u) = Some content ->
   Main.download_original E upload_id w =
     (Ok (inr {| Main.fr_path := get_file_path (STORAGE_DIR E) (storage_key u);
                 Main.fr_filename := original_filename u;
                 Main.fr_media_type := mime_type u |}), w)).
Proof.
  split; [|split; [|split]].
  - intros Hu. route_red. rewrite Hu. reflexivity.
  - intros u Hu Hst. route_red. rewrite Hu. cbv beta iota.
    destruct (String.eqb_spec (upload_status u) "uploaded"); [done|reflexivity].
  - intros u Hu Hst Hfile. route_red. rewrite Hu. cbv beta iota.
    rewrite Hst, String.eqb_refl. cbn [negb]. rewrite Hfile.
    rewrite bool_decide_eq_false_2; [reflexivity|]. by intros [? ?].
  - intros u content. apply download_original_file.
Qed.

(** X22. An upload that the download route serves can be enhanced: when
    GET /api/uploads/{upload_id}/download answers a file, the upload has a
    row at the status uploaded, which is what [create_enhance_job] checks of
    it, the file answered is the one at the path of its storage key, and a
    run for that row finds its source and submits it to Replicate: the run
    does not stop at the check of the source. *)
Theorem served_upload_is_submitted E polls job_id upload_id model_name w f :
  Main.download_original E upload_id w = (Ok (inr f), w) ->
  exists u evs,
    uploads w !! upload_id = Some u /\
    upload_status u = "uploaded" /\
    Main.fr_path f = get_file_path (STORAGE_DIR E) (storage_key u) /\
    is_Some (files w !! Main.fr_path f) /\
    trace (_run_prediction E polls job_id u model_name w).2 = (trace w ++ evs)%list /\
    EvSubmit model_name (submit_input model_name (InFile (Main.fr_path f))) ∈ evs.
Proof.
  intros Hserved.
  destruct (uploads w !! upload_id) as [u|] eqn:Hu; cycle 1.
  { revert Hserved. route_red. rewrite Hu. discriminate. }
  destruct (String.eqb_spec (upload_status u) "uploaded") as [Hst|Hst]; cycle 1.
  { revert Hserved. route_red. rewrite Hu. cbv beta iota.
    destruct (String.eqb_spec (upload_status u) "uploaded"); [done|discriminate]. }
  destruct (files w !! get_file_path (STORAGE_DIR E) (storage_key u))
    as [content|] eqn:Hfile; cycle 1.
  { revert Hserved. route_red. rewrite Hu. cbv beta iota.
    rewrite Hst, String.eqb_refl. cbn [negb]. rewrite Hfile.
    rewrite bool_decide_eq_false_2; [discriminate|]. by intros [? ?]. }
  rewrite (download_original_file E upload_id w u content Hu Hst Hfile) in Hserved.
  injection Hserved as <-. cbn [Main.fr_path].
  destruct (run_prediction_path E polls job_id u model_name w)
    as (evs & Htrace & _ & Hpath).
  exists u, evs. split; [reflexivity|]. split; [exact Hst|]. split; [reflexivity|].
  split; [by rewrite Hfile|]. split; [exact Htrace|].
  destruct Hpath as [t t' Hmissing| | | | | | | |];
    [rewrite Hfile in Hmissing; discriminate Hmissing|..];
    solve [repeat constructor].
Qed.

Lemma served_upload_is_submitted_witness :
  exists u evs,
    uploads (ex_world true) !! "upl_1" = Some u /\
    upload_status u = "uploaded" /\
    ex_src = get_file_path (STORAGE_DIR ex_env_ok) (storage_key u) /\
    is_Some (files (ex_world true) !! ex_src) /\
    trace (_run_prediction ex_env_ok 5 ex_job_id u ex_model (ex_world true)).2 =
      (trace (ex_world true) ++ evs)%list /\
    EvSubmit ex_model (submit_input ex_model (InFile ex_src)) ∈ evs.
Proof.
  apply (served_upload_is_submitted ex_env_ok 5 ex_job_id "upl_1" ex_model (ex_world true)
           {| Main.fr_path := ex_src; Main.fr_filename := "clip.mp4";
              Main.fr_media_type := "video/mp4" |}).
  reflexivity.
Defined.

(** X23. GET /api/models lists the models that [create_enhance_job]
    accepts: every key listed resolves to the name listed with it, a
    non-empty key that is not listed resolves to nothing, the default key is
    listed and is what a request without model, or with the empty string as
    model, resolves to; every entry is available exactly when the credential
    is set.  A job created with a listed, available key, for an uploaded
    video and a fresh id, carries the listed name as its model, in the
    record returned and in the row stored. *)
Theorem listed_models_resolve E :
  (forall e, e ∈ (Main.list_models E).1 ->
     resolve_model (Some (Main.entry_key e)) = Some (Main.entry_name e) /\
     Main.available e = negb (String.eqb (REPLICATE_API_TOKEN E) "")) /\
  (forall k, k <> "" -> k ∉ map Main.entry_key (Main.list_models E).1 ->
     resolve_model (Some k) = None) /\
  (Main.list_models E).2 ∈ map Main.entry_key (Main.list_models E).1 /\
  resolve_model None = resolve_model (Some (Main.list_models E).2) /\
  resolve_model (Some "") = resolve_model None /\
  (forall e upload_id u w,
     e ∈ (Main.list_models E).1 -> Main.available e = true ->
     uploads w !! upload_id = Some u -> upload_status u = "uploaded" ->
     jobs w !! new_job_id E w = None ->
     exists j stored,
       (create_enhance_job E upload_id (Some (Main.entry_key e)) w).1 = Ok (Some j) /\
       j !! "model_name" = Some (SText (Main.entry_name e)) /\
       jobs (create_enhance_job E upload_id (Some (Main.entry_key e)) w).2
         !! new_job_id E w = Some stored /\
       stored !! "model_name" = Some (SText (Main.entry_name e))).
Proof.
  assert (Hlisted : forall e, e ∈ (Main.list_models E).1 ->
            resolve_model (Some (Main.entry_key e)) = Some (Main.entry_name e) /\
            Main.available e = negb (String.eqb (REPLICATE_API_TOKEN E) "")).
  { intros e He. unfold Main.list_models, REPLICATE_MODELS in He. cbn [map fst snd] in He.
    apply elem_of_cons in He as [->|He]; [split; reflexivity|].
    apply elem_of_cons in He as [->|He]; [split; reflexivity|].
    by apply elem_of_nil in He. }
  split; [exact Hlisted|]. split; [|split; [|split; [|split]]].
  - intros k Hne Hout. unfold Main.list_models, REPLICATE_MODELS in Hout.
    cbn [map fst snd Main.entry_key] in Hout.
    unfold resolve_model, py_or, REPLICATE_MODELS.
    destruct (String.eqb_spec k ""); [done|]. cbn [assoc].
    destruct (String.eqb_spec k "upscale") as [->|_].
    { exfalso. apply Hout. solve [repeat constructor]. }
    destruct (String.eqb_spec k "upscale_premium") as [->|_]; [|reflexivity].
    exfalso. apply Hout. solve [repeat constructor].
  - unfold Main.list_models, REPLICATE_MODELS. cbn [map fst snd Main.entry_key].
    solve [repeat constructor].
  - reflexivity.
  - reflexivity.
  - intros e upload_id u w He Hav Hu Hst Hfresh.
    destruct (Hlisted e He) as [Hres Havail]. rewrite Hav in Havail.
    assert (Htk : REPLICATE_API_TOKEN E <> "").
    { intros Hempty. rewrite Hempty in Havail. discriminate Havail. }
    destruct (create_enhance_job_ok E upload_id _ w u _ Hu Hst Htk Hres Hfresh)
      as (j & Hcall & _ & _ & Hmodel & _).
    rewrite Hcall. exists j. eexists. split; [reflexivity|]. split; [exact Hmodel|].
    split; [apply lookup_insert_eq|reflexivity].
Qed.

Lemma details_spec js :
  (forall ds, Main.details js = inr ds ->
     Forall2 (fun j d => Main._job_to_detail j = inr d) js ds) /\
  (forall e, Main.details js = inl e ->
     exists j, j ∈ js /\ Main._job_to_detail j = inl e).
Proof.
  induction js as [|j js [IHok IHerr]]; cbn [Main.details].
  - split; [intros ds [= <-]; constructor|discriminate].
  - destruct (Main._job_to_detail j) as [e0|d] eqn:Hj.
    + split; [discriminate|]. intros e [= <-]. exists j. split; [by left|exact Hj].
    + destruct (Main.details js) as [e1|ds'] eqn:Hrest.
      * split; [discriminate|]. intros e [= <-].
        destruct (IHerr e1 eq_refl) as (j' & Hin & Hj'). exists j'.
        split; [by right|exact Hj'].
      * split; [|discriminate]. intros ds [= <-]. constructor; [exact Hj|by apply IHok].
Qed.

Lemma job_to_detail_total (r : row) :
  (forall c, c ∈ ["id"; "upload_id"; "model_name"; "status"; "created_at"] ->
             is_Some (r !! c)) ->
  exists d, Main._job_to_detail r = inr d /\
            Some (Main.jd_id d) = r !! "id" /\ Some (Main.jd_status d) = r !! "status".
Proof.
  intros Hall.
  destruct (Hall "id") as [id Hid]; [solve [repeat constructor]|].
  destruct (Hall "upload_id") as [uid Huid]; [solve [repeat constructor]|].
  destruct (Hall "model_name") as [m Hm]; [solve [repeat constructor]|].
  destruct (Hall "status") as [s Hs]; [solve [repeat constructor]|].
  destruct (Hall "created_at") as [c Hc]; [solve [repeat constructor]|].
  eexists. split; [exact (job_to_detail_eq r id uid m s c Hid Huid Hm Hs Hc)|].
  cbn [Main.jd_id Main.jd_status]. by rewrite Hid, Hs.
Qed.

(** X24. GET /api/uploads/{upload_id}/jobs.  When every job of the upload
    has the five columns that [_job_to_detail] reads with [j[...]] (as every
    row that [insert_job] wrote has), the route returns one detail per job of
    the upload, in the order of [get_jobs_by_upload] (newest first): the n-th
    detail is that of the n-th row.  If it raises instead, some job of that
    upload lacks one of these columns: one such row spoils the whole
    listing.  An upload without jobs gives the empty list.  The route changes
    nothing. *)
Theorem list_jobs_for_upload_details upload_id w :
  exists l,
    get_jobs_by_upload upload_id w = (Ok l, w) /\
    ((forall id r, jobs w !! id = Some r -> r !! "upload_id" = Some (SText upload_id) ->
        forall c, c ∈ ["id"; "upload_id"; "model_name"; "status"; "created_at"] ->
                  is_Some (r !! c)) ->
     exists ds,
       Main.list_jobs_for_upload upload_id w = (Ok ds, w) /\
       Forall2 (fun j d => Main._job_to_detail j = inr d) l ds /\
       length ds = length l) /\
    (forall e, (Main.list_jobs_for_upload upload_id w).1 = Raise e ->
       (Main.list_jobs_for_upload upload_id w).2 = w /\
       exists id r c,
         jobs w !! id = Some r /\ r !! "upload_id" = Some (SText upload_id) /\
         c ∈ ["id"; "model_name"; "status"; "created_at"] /\ r !! c = None /\
         e = Foreign "KeyError" c) /\
    (l = [] -> Main.list_jobs_for_upload upload_id w = (Ok [], w)).
Proof.
  destruct (get_jobs_by_upload_rows upload_id w) as (l & Hl & Hmem).
  exists l. split; [exact Hl|].
  assert (Hroute : Main.list_jobs_for_upload upload_id w =
                   match Main.details l with
                   | inl e => (Raise e, w)
                   | inr ds => (Ok ds, w)
                   end).
  { unfold Main.list_jobs_for_upload, bind. rewrite Hl. cbv beta iota.
    unfold Main.lift. by destruct (Main.details l). }
  rewrite Hroute. clear Hroute.
  destruct (details_spec l) as [Hok Herr].
  split; [|split].
  - intros Hcols. destruct (Main.details l) as [e|ds] eqn:Hd.
    + exfalso. destruct (Herr e eq_refl) as (j & Hin & Hj).
      apply Hmem in Hin as [[id Hid] Hup].
      destruct (job_to_detail_total j (Hcols id j Hid Hup)) as (d & Hd' & _).
      rewrite Hd' in Hj. discriminate Hj.
    + exists ds. split; [reflexivity|]. split; [by apply Hok|].
      symmetry. eapply Forall2_length, Hok. reflexivity.
  - intros e He. destruct (Main.details l) as [e'|ds] eqn:Hd; [|discriminate He].
    cbn [fst snd] in *. injection He as ->. split; [reflexivity|].
    destruct (Herr e eq_refl) as (j & Hin & Hj).
    apply Hmem in Hin as [[id Hid] Hup]. exists id, j.
    unfold Main._job_to_detail, Main.item in Hj. rewrite Hup in Hj.
    destruct (j !! "id") eqn:H1.
    2:{ exists "id". injection Hj as <-. split_and!; try done. solve [repeat constructor]. }
    destruct (j !! "model_name") eqn:H2.
    2:{ exists "model_name". injection Hj as <-. split_and!; try done.
        solve [repeat constructor]. }
    destruct (j !! "status") eqn:H3.
    2:{ exists "status". injection Hj as <-. split_and!; try done.
        solve [repeat constructor]. }
    destruct (j !! "created_at") eqn:H4.
    2:{ exists "created_at". injection Hj as <-. split_and!; try done.
        solve [repeat constructor]. }
    discriminate Hj.
  - intros ->. reflexivity.
Qed.
